(** * CHAN 2024 tweet analytics: the classification cascade, the sentiment
      labelling, the tweet store and the processing of a tweet

    A shallow embedding of

    - [src/config.py]: the tables [Config.COUNTRY_HASHTAGS],
      [Config.SHARED_HASHTAGS], [Config.COUNTRY_KEYWORDS] and
      [Config.VENUE_KEYWORDS], and the Kafka topics;
    - [src/utils/text_preprocessing.py]: [TextPreprocessor.clean_text],
      [extract_hashtags], [extract_mentions] and [categorize_country];
    - [src/main.py]: [CHAN2024SentimentAnalyzer.analyze_sentiment],
      [process_tweet], [fetch_and_produce_tweets] and the body of the
      consumer loop;
    - [src/db.py]: the [tweets] table with its column types,
      [DatabaseManager.insert_tweet] and the query of [get_analytics_data];
    - [src/utils/metrics.py]: [get_country_rankings] and
      [get_hashtag_winners].

    Python values are modelled as follows.

    - [str] is [string]; [a in b] on strings is the substring test [str_in];
      [' '.join(l)] is [String.concat " " l]; [s.lower()] is a builtin of the
      Python runtime and is taken as a parameter [lower] of the cascade, with
      [str_lower] (the lowering of the letters A-Z) as the instance used on
      concrete ASCII inputs.
    - A [dict] keeps its keys in insertion order and [max(d, key=d.get)]
      returns the first key, in that order, whose value is maximal.  Both
      matter to the cascade, so a dict is an association list ([Dict.t]) whose
      [Dict.set] overwrites a present key in place and appends an absent one.
    - [max] of an empty sequence raises [ValueError]: [Py.max_key] answers
      [None] there, and the cascade returns an [option string].
    - A Python [float] is an IEEE 754 binary64 value, [spec_float], compared
      with [SFleb].
    - A call that can raise returns an [option]; [None] is the exception.

    In [text_preprocessing.py] the lines 89-116 of [categorize_country] are
    prose of the project's README sitting between the keyword loop and the
    venue loop.  They are not statements: the file as shipped does not
    compile, which [TextPreprocessingFile] models.
    [TextPreprocessor.categorize_country] is the method as its statements
    read, from line 44 to line 88 and from line 117 to line 133; line 50,
    [from config import Config], binds the class whose tables are the
    constants of [Config] here. *)

From Stdlib Require Import List String Ascii Bool Arith Lia ZArith.
From Stdlib Require Import DecimalString DecimalZ.
From Stdlib Require Import Sorting.Sorted Sorting.Permutation.
From Stdlib Require Import Floats.SpecFloat.
Import ListNotations.

Local Open Scope string_scope.
Local Open Scope list_scope.
Local Open Scope nat_scope.

(** ** Python builtins used by the code *)

Module Py.

(** [needle in hay] for two strings: [needle] occurs in [hay] as a
    contiguous substring (the empty string occurs everywhere). *)
Fixpoint str_in (needle hay : string) : bool :=
  String.prefix needle hay
  || match hay with
     | EmptyString => false
     | String _ hay' => str_in needle hay'
     end.

(** [x in l] for a list of strings. *)
Definition list_in (x : string) (l : list string) : bool :=
  existsb (String.eqb x) l.

(** [sum(w for x in l if p(x))]. *)
Definition sum_if {A : Type} (w : nat) (p : A -> bool) (l : list A) : nat :=
  list_sum (map (fun _ => w) (filter p l)).

(** [any(p(x) for x in l)]. *)
Definition any {A : Type} (p : A -> bool) (l : list A) : bool := existsb p l.

(** The scan of [max(iterable, key=key)]: the running best is replaced only
    by a strictly larger element, so the first maximal element wins. *)
Fixpoint max_from {A : Type} (key : A -> nat) (best : A) (l : list A) : A :=
  match l with
  | [] => best
  | x :: l' => if key best <? key x then max_from key x l'
               else max_from key best l'
  end.

(** [max(iterable, key=key)]; [None] is the [ValueError] of an empty
    iterable. *)
Definition max_key {A : Type} (key : A -> nat) (l : list A) : option A :=
  match l with
  | [] => None
  | x :: l' => Some (max_from key x l')
  end.

(** [max(iterable)] on numbers. *)
Definition max (l : list nat) : option nat := max_key (fun v => v) l.

(** The lowering of one ASCII character: A-Z go to a-z. *)
Definition ascii_lower (c : ascii) : ascii :=
  let n := nat_of_ascii c in
  if (65 <=? n) && (n <=? 90) then ascii_of_nat (n + 32) else c.

(** [s.lower()] on ASCII text. *)
Fixpoint str_lower (s : string) : string :=
  match s with
  | EmptyString => EmptyString
  | String c s' => String (ascii_lower c) (str_lower s')
  end.

End Py.

(** ** Regular expressions and string methods used by the code

    The patterns of the code are a literal followed by a greedy run of one
    character class (["#\w+"], ["http\S+"], ...), alternatives of these, and
    one negated class.  [re.findall] and [re.sub] scan from the left: at each
    position the alternatives are tried in order, and after a match the scan
    resumes behind it.  In the scanning functions [skip] counts the characters
    of the current match that are still to be passed. *)

Module Re.

(** [\w] on ASCII: letters, digits and the underscore. *)
Definition ascii_word (c : ascii) : bool :=
  let n := nat_of_ascii c in
  ((48 <=? n) && (n <=? 57)) || ((65 <=? n) && (n <=? 90)) || (n =? 95)
  || ((97 <=? n) && (n <=? 122)).

(** [\s], and the whitespace of [str.split] and [str.strip], on ASCII: tab,
    line feed, vertical tab, form feed, carriage return, the separators
    0x1C-0x1F and the space. *)
Definition ascii_space (c : ascii) : bool :=
  let n := nat_of_ascii c in
  ((9 <=? n) && (n <=? 13)) || ((28 <=? n) && (n <=? 32)).

(** [s[n:]] and [s[:n]]. *)
Fixpoint str_drop (n : nat) (s : string) : string :=
  match n, s with
  | S n', String _ s' => str_drop n' s'
  | _, _ => s
  end.

Fixpoint str_take (n : nat) (s : string) : string :=
  match n, s with
  | S n', String c s' => String c (str_take n' s')
  | _, _ => EmptyString
  end.

(** The longest prefix of [s] whose characters are in the class [p]: what a
    greedy [p*] consumes at the head of [s]. *)
Fixpoint span (p : ascii -> bool) (s : string) : string :=
  match s with
  | EmptyString => EmptyString
  | String c s' => if p c then String c (span p s') else EmptyString
  end.

(** The pattern [lit p+] at the head of [s]: the length of the match. *)
Definition lit_then (p : ascii -> bool) (lit : string) (s : string)
    : option nat :=
  if String.prefix lit s then
    match String.length (span p (str_drop (String.length lit) s)) with
    | 0 => None
    | S n => Some (String.length lit + S n)
    end
  else None.

(** [m1|m2] at the head of [s]: the first alternative that matches. *)
Definition alt (m1 m2 : string -> option nat) (s : string) : option nat :=
  match m1 s with
  | Some n => Some n
  | None => m2 s
  end.

(** [re.findall(pattern, s)] for a pattern without groups and without empty
    matches, [match_at] being the pattern at the head of a string. *)
Fixpoint findall (match_at : string -> option nat) (skip : nat) (s : string)
    : list string :=
  match s with
  | EmptyString => []
  | String _ s' =>
      match skip with
      | S k => findall match_at k s'
      | 0 =>
          match match_at s with
          | Some (S n) => str_take (S n) s :: findall match_at n s'
          | _ => findall match_at 0 s'
          end
      end
  end.

(** [re.sub(pattern, '', s)] for such a pattern. *)
Fixpoint delete_matches (match_at : string -> option nat) (skip : nat)
    (s : string) : string :=
  match s with
  | EmptyString => EmptyString
  | String c s' =>
      match skip with
      | S k => delete_matches match_at k s'
      | 0 =>
          match match_at s with
          | Some (S n) => delete_matches match_at n s'
          | _ => String c (delete_matches match_at 0 s')
          end
      end
  end.

(** [re.sub('[^...]', '', s)] for a negated class: the characters of the
    class are kept. *)
Fixpoint keep_chars (keep : ascii -> bool) (s : string) : string :=
  match s with
  | EmptyString => EmptyString
  | String c s' =>
      if keep c then String c (keep_chars keep s') else keep_chars keep s'
  end.

(** [s.split()]: the maximal runs of characters that are not whitespace. *)
Fixpoint split (space : ascii -> bool) (skip : nat) (s : string)
    : list string :=
  match s with
  | EmptyString => []
  | String c s' =>
      match skip with
      | S k => split space k s'
      | 0 =>
          if space c then split space 0 s'
          else
            let rest := span (fun c => negb (space c)) s' in
            String c rest :: split space (String.length rest) s'
      end
  end.

(** [s.lstrip()], [s.rstrip()] and [s.strip()]. *)
Fixpoint lstrip (space : ascii -> bool) (s : string) : string :=
  match s with
  | EmptyString => EmptyString
  | String c s' => if space c then lstrip space s' else s
  end.

Fixpoint rstrip (space : ascii -> bool) (s : string) : string :=
  match s with
  | EmptyString => EmptyString
  | String c s' =>
      match rstrip space s' with
      | EmptyString => if space c then EmptyString else String c EmptyString
      | r => String c r
      end
  end.

Definition strip (space : ascii -> bool) (s : string) : string :=
  rstrip space (lstrip space s).

(** [s.title()] on ASCII text: a letter after a letter is lower-cased, any
    other letter is upper-cased. *)
Definition ascii_is_upper (c : ascii) : bool :=
  let n := nat_of_ascii c in (65 <=? n) && (n <=? 90).

Definition ascii_is_lower (c : ascii) : bool :=
  let n := nat_of_ascii c in (97 <=? n) && (n <=? 122).

Definition ascii_upper (c : ascii) : ascii :=
  if ascii_is_lower c then ascii_of_nat (nat_of_ascii c - 32) else c.

Fixpoint title_from (previous_is_cased : bool) (s : string) : string :=
  match s with
  | EmptyString => EmptyString
  | String c s' =>
      if ascii_is_upper c || ascii_is_lower c then
        String (if previous_is_cased then Py.ascii_lower c else ascii_upper c)
          (title_from true s')
      else String c (title_from false s')
  end.

Definition str_title (s : string) : string := title_from false s.

End Re.

(** ** Insertion-ordered dictionaries with string keys *)

Module Dict.

Definition t (V : Type) : Type := list (string * V).

Definition empty {V : Type} : t V := [].

(** [d.get(k, default)]. *)
Fixpoint get {V : Type} (d : t V) (k : string) (default : V) : V :=
  match d with
  | [] => default
  | (k', v) :: d' => if String.eqb k' k then v else get d' k default
  end.

(** [d[k] = v]: a present key keeps its place, an absent one goes last. *)
Fixpoint set {V : Type} (d : t V) (k : string) (v : V) : t V :=
  match d with
  | [] => [(k, v)]
  | (k', v') :: d' =>
      if String.eqb k' k then (k', v) :: d' else (k', v') :: set d' k v
  end.

Definition keys {V : Type} (d : t V) : list string := map fst d.
Definition values {V : Type} (d : t V) : list V := map snd d.

(** The truth value of a dict: [if d:]. *)
Definition truthy {V : Type} (d : t V) : bool :=
  match d with [] => false | _ :: _ => true end.

(** [max(d, key=d.get)]. *)
Definition max_key (d : t nat) : option string :=
  Py.max_key (fun k => get d k 0) (keys d).

End Dict.

(** ** [src/config.py] *)

Module Config.

Definition COUNTRY_HASHTAGS : Dict.t (list string) :=
  [ ("Kenya",    ["#chan2024"; "#totalenergieschan2024"; "#harambeestars"]);
    ("Uganda",   ["#totalenergieschan2024"; "#chan2024"; "#ugandacranes"]);
    ("Tanzania", ["#chan2024"; "#totalenergieschan2024"; "#taifastars"]) ].

Definition SHARED_HASHTAGS : list string :=
  ["#pamoja"; "#chan2024"; "#totalenergieschan2024"; "#eastafrica"; "#eac"].

Definition COUNTRY_KEYWORDS : Dict.t (list string) :=
  [ ("Kenya",    ["kenya"; "harambee"; "stars"; "nairobi"; "teamkenya"; "ke";
                  "harambeefc"; "harambeestars"]);
    ("Uganda",   ["uganda"; "cranes"; "kampala"; "teamuganda"; "ug";
                  "thecranes"; "ugandacranes"]);
    ("Tanzania", ["tanzania"; "taifa"; "stars"; "dar"; "teamtanzania"; "tz";
                  "taifastars"; "simba"]) ].

Definition VENUE_KEYWORDS : Dict.t (list string) :=
  [ ("Kenya",    ["nairobi"; "kasarani"; "nyayo"; "moi"]);
    ("Uganda",   ["kampala"; "nakivubo"; "mandela"; "namboole"]);
    ("Tanzania", ["dar es salaam"; "mkapa"; "uhuru"; "azam"]) ].

(** [KAFKA_CONFIG['topics']]; the two arguments are the environment variables
    KAFKA_TOPIC_RAW and KAFKA_TOPIC_PROCESSED, [None] when unset. *)
Definition getenv_default (value : option string) (default : string) : string :=
  match value with Some v => v | None => default end.

Definition KAFKA_TOPICS (env_raw env_processed : option string)
    : Dict.t string :=
  [ ("raw", getenv_default env_raw "chan2024-tweets-raw");
    ("processed", getenv_default env_processed "chan2024-tweets-processed");
    ("kenya", "kenya-hashtags");
    ("uganda", "uganda-hashtags");
    ("tanzania", "tanzania-hashtags") ].

End Config.

(** ** [src/utils/text_preprocessing.py]: the classification cascade *)

Module TextPreprocessor.

Section Extraction.

(** [str.lower] and the character classes [\w] and [\s] of the runtime, and
    the class of the four emoji ranges of line 22. *)
Variable lower : string -> string.
Variable word : ascii -> bool.
Variable space : ascii -> bool.
Variable emoji : ascii -> bool.

(** Line 12: [http\S+|www\S+|https\S+]. *)
Definition url_pattern : string -> option nat :=
  let nonspace := fun c => negb (space c) in
  Re.alt (Re.lit_then nonspace "http")
    (Re.alt (Re.lit_then nonspace "www") (Re.lit_then nonspace "https")).

(** Line 16: [@\w+|#\w+]. *)
Definition mention_or_hashtag_pattern : string -> option nat :=
  Re.alt (Re.lit_then word "@") (Re.lit_then word "#").

(** Line 22: the class [\w\s] with the emoji ranges. *)
Definition kept_class (c : ascii) : bool := word c || space c || emoji c.

(** Lines 9-24. *)
Definition clean_text (text : string) : string :=
  let text := Re.delete_matches url_pattern 0 text in
  let cleaned_text := Re.delete_matches mention_or_hashtag_pattern 0 text in
  let cleaned_text := String.concat " " (Re.split space 0 cleaned_text) in
  let cleaned_text := Re.keep_chars kept_class cleaned_text in
  Re.strip space cleaned_text.

(** Lines 26-29. *)
Definition extract_hashtags (text : string) : list string :=
  let hashtags := Re.findall (Re.lit_then word "#") 0 (lower text) in
  hashtags.

(** Lines 31-34. *)
Definition extract_mentions (text : string) : list string :=
  let mentions := Re.findall (Re.lit_then word "@") 0 (lower text) in
  mentions.

End Extraction.

Section Cascade.

(** [str.lower] of the Python runtime. *)
Variable lower : string -> string.

(** Line 48: [text_lower + ' ' + ' '.join(hashtags_lower)]. *)
Definition all_content_of (text_lower : string)
    (hashtags_lower : list string) : string :=
  (text_lower ++ " " ++ String.concat " " hashtags_lower)%string.

(** Line 56: how many hashtags of a country's entry are in the input. *)
Definition hashtag_matches (hashtags_lower country_hashtags : list string)
    : nat :=
  Py.sum_if 1 (fun hashtag => Py.list_in hashtag hashtags_lower)
    country_hashtags.

(** Lines 53-58: the loop that fills [country_hashtag_scores]. *)
Definition country_hashtag_scores_of (hashtags_lower : list string)
    : Dict.t nat :=
  fold_left
    (fun scores '(country, country_hashtags) =>
       let hashtag_matches := hashtag_matches hashtags_lower country_hashtags in
       if 0 <? hashtag_matches then Dict.set scores country hashtag_matches
       else scores)
    Config.COUNTRY_HASHTAGS Dict.empty.

(** Line 63: the input hashtags that are shared hashtags. *)
Definition shared_count_of (hashtags_lower : list string) : nat :=
  Py.sum_if 1 (fun hashtag => Py.list_in hashtag Config.SHARED_HASHTAGS)
    hashtags_lower.

(** Lines 71 and 85: the keywords of one entry found in the content. *)
Definition keyword_score (all_content : string) (keywords : list string)
    : nat :=
  Py.sum_if 1 (fun keyword => Py.str_in keyword all_content) keywords.

(** Lines 69-73 and, again, lines 83-87: the keyword loop. *)
Definition country_keyword_scores_of (all_content : string) : Dict.t nat :=
  fold_left
    (fun scores '(country, keywords) =>
       let score := keyword_score all_content keywords in
       if 0 <? score then Dict.set scores country score else scores)
    Config.COUNTRY_KEYWORDS Dict.empty.

(** Line 118: twice the venues of one entry found in the content. *)
Definition venue_score (all_content : string) (venues : list string) : nat :=
  Py.sum_if 2 (fun venue => Py.str_in venue all_content) venues.

(** Lines 83-87 followed by lines 117-120: the keyword loop, then the venue
    loop adding into the same dict. *)
Definition country_scores_of (all_content : string) : Dict.t nat :=
  fold_left
    (fun country_scores '(country, venues) =>
       let venue_score := venue_score all_content venues in
       if 0 <? venue_score
       then Dict.set country_scores country
              (Dict.get country_scores country 0 + venue_score)
       else country_scores)
    Config.VENUE_KEYWORDS (country_keyword_scores_of all_content).

(** Line 67: the guard of the shared-hashtag tie-break. *)
Definition shared_tie (shared_count country_specific_count : nat) : bool :=
  (0 <? shared_count) && (country_specific_count =? shared_count).

(** Line 126. *)
Definition chan_indicators : list string :=
  ["chan"; "african nations championship"; "caf"; "totalenergies"].

(** Lines 44-88 and 117-133: the statements of the method.  The prose of
    lines 89-116 is no statement and is left out here; what it does to the
    file is modelled in [TextPreprocessingFile].  The tables are those of
    [Config], which line 50 imports. *)
Definition categorize_country (text : string) (hashtags : list string)
    : option string :=
  let text_lower := lower text in
  let hashtags_lower := map lower hashtags in
  let all_content := all_content_of text_lower hashtags_lower in
  let country_hashtag_scores := country_hashtag_scores_of hashtags_lower in
  if Dict.truthy country_hashtag_scores then
    let shared_count := shared_count_of hashtags_lower in
    match Py.max (Dict.values country_hashtag_scores) with
    | None => None
    | Some country_specific_count =>
        if shared_tie shared_count country_specific_count then
          let country_keyword_scores :=
            country_keyword_scores_of all_content in
          if Dict.truthy country_keyword_scores
          then Dict.max_key country_keyword_scores
          else Some "Pamoja"
        else Dict.max_key country_hashtag_scores
    end
  else
    let country_scores := country_scores_of all_content in
    if Dict.truthy country_scores then Dict.max_key country_scores
    else
      let has_chan_content :=
        Py.any (fun indicator => Py.str_in indicator all_content)
          chan_indicators in
      let has_shared_hashtag :=
        Py.any (fun shared => Py.str_in shared all_content)
          Config.SHARED_HASHTAGS in
      if has_chan_content || has_shared_hashtag then Some "CHAN-General"
      else Some "General".

End Cascade.
End TextPreprocessor.

(** ** [src/utils/text_preprocessing.py] as it is shipped

    Between the keyword loop and the venue loop of [categorize_country] the
    file carries prose of the project's README (lines 89-116), indented like
    the statements around it.  Python compiles a module as a whole before it
    runs any of it: a line that is no statement makes the import of the module
    fail with [SyntaxError], and with it every call of its functions. *)

Module PySyntax.

(** [keyword.kwlist] and [keyword.softkwlist]. *)
Definition kwlist : list string :=
  ["False"; "None"; "True"; "and"; "as"; "assert"; "async"; "await"; "break";
   "class"; "continue"; "def"; "del"; "elif"; "else"; "except"; "finally";
   "for"; "from"; "global"; "if"; "import"; "in"; "is"; "lambda"; "nonlocal";
   "not"; "or"; "pass"; "raise"; "return"; "try"; "while"; "with"; "yield"].

Definition softkwlist : list string := ["_"; "case"; "match"; "type"].

Definition iskeyword (name : string) : bool :=
  Py.list_in name kwlist || Py.list_in name softkwlist.

(** The blanks of an indentation, and the characters of a name. *)
Definition blank (c : ascii) : bool :=
  let n := nat_of_ascii c in (n =? 32) || (n =? 9).

Definition name_start (c : ascii) : bool :=
  Re.ascii_word c && negb (blank c)
  && negb ((48 <=? nat_of_ascii c) && (nat_of_ascii c <=? 57)).

(** The name a text starts with, if it starts with one. *)
Definition leading_name (code : string) : option string :=
  match code with
  | String c _ => if name_start c then Some (Re.span Re.ascii_word code)
                  else None
  | EmptyString => None
  end.

(** The first two tokens of a line, when both are names separated by
    blanks. *)
Definition leading_names (line : string) : option (string * string) :=
  let code := Re.lstrip blank line in
  match leading_name code with
  | None => None
  | Some first =>
      let rest := Re.str_drop (String.length first) code in
      match rest with
      | String c _ =>
          if blank c then
            match leading_name (Re.lstrip blank rest) with
            | Some second => Some (first, second)
            | None => None
            end
          else None
      | EmptyString => None
      end
  end.

(** Two names in a row are part of no statement unless one of them is a
    keyword ([for country], [x in y], [return max]): a line of code that
    starts with two plain names is a syntax error. *)
Definition starts_with_two_plain_names (line : string) : bool :=
  match leading_names line with
  | Some (first, second) => negb (iskeyword first) && negb (iskeyword second)
  | None => false
  end.

(** A sufficient reason for the compilation of lines of code to fail, none
    of the lines being inside a string literal: one of them starts with two
    plain names.  Other syntax errors are not looked for. *)
Definition syntax_error (lines : list string) : bool :=
  existsb starts_with_two_plain_names lines.

End PySyntax.

Module TextPreprocessingFile.

(** Lines 82-88 of the file: the keyword loop of the fallback. *)
Definition lines_82_88 : list string :=
  [
    "        # Fallback to keyword-based detection";
    "        country_scores = {}";
    "        for country, keywords in Config.COUNTRY_KEYWORDS.items():";
    "            score = sum(1 for keyword in keywords if keyword in all_content)";
    "            if score > 0:";
    "                country_scores[country] = score";
    "        " ].

(** Lines 89-116: the prose. *)
Definition lines_89_116 : list string :=
  [
    "        # ChAN Sentimental Analysis";
    "";
    "        This project provides utilities for preprocessing and analyzing text data (such as tweets) related to the African Nations Championship (CHAN). It includes tools for cleaning text, extracting hashtags and mentions, detecting language, and categorizing content by country or general CHAN topics.";
    "";
    "        ## Features";
    "";
    "        - **Text Cleaning:** Remove URLs, mentions, hashtags, and unnecessary punctuation.";
    "        - **Hashtag & Mention Extraction:** Identify hashtags and user mentions in text.";
    "        - **Language Detection:** Automatically detect the language of the input text.";
    "        - **Country Categorization:** Assign tweets to specific countries or general CHAN topics based on hashtags, keywords, and venues.";
    "";
    "        ## Installation";
    "";
    "        1. Clone the repository:";
    "            ```bash";
    "            git clone https://github.com/yourusername/chan-sentimental-analysis.git";
    "            cd chan-sentimental-analysis";
    "            ```";
    "";
    "        2. Install dependencies:";
    "            ```bash";
    "            pip install -r requirements.txt";
    "            ```";
    "";
    "        ## Usage";
    "";
    "        Import and use the `TextPreprocessor` class in your Python code:";
    "" ].

(** Lines 117-123: the venue loop and the return of the fallback. *)
Definition lines_117_123 : list string :=
  [
    "        for country, venues in Config.VENUE_KEYWORDS.items():";
    "            venue_score = sum(2 for venue in venues if venue in all_content)";
    "            if venue_score > 0:";
    "                country_scores[country] = country_scores.get(country, 0) + venue_score";
    "        ";
    "        if country_scores:";
    "            return max(country_scores, key=country_scores.get)" ].

(** The lines as they stand in the file.  No string literal and no bracket is
    open where line 82 starts. *)
Definition lines_82_123 : list string :=
  lines_82_88 ++ lines_89_116 ++ lines_117_123.

(** What a call does: it returns a value or raises. *)
Inductive exception : Type :=
| SyntaxError
| ValueError.

Inductive outcome (A : Type) : Type :=
| Returns (value : A)
| Raises (e : exception).

Arguments Returns {A} value.
Arguments Raises {A} e.

(** [from utils.text_preprocessing import TextPreprocessor] (main.py, line
    13): the module is compiled, then run. *)
Definition import_module : outcome unit :=
  if PySyntax.syntax_error lines_82_123 then Raises SyntaxError
  else Returns tt.

Section Call.

Variable lower : string -> string.

(** A call of [categorize_country] of the shipped file: the class exists only
    once the module is imported.  The [ValueError] is that of [max] on an
    empty sequence. *)
Definition categorize_country (text : string) (hashtags : list string)
    : outcome string :=
  match import_module with
  | Raises e => Raises e
  | Returns _ =>
      match TextPreprocessor.categorize_country lower text hashtags with
      | Some label => Returns label
      | None => Raises ValueError
      end
  end.

End Call.
End TextPreprocessingFile.

(** The six labels of the category vocabulary. *)
Definition CategoryVocabulary : list string :=
  ["Kenya"; "Uganda"; "Tanzania"; "Pamoja"; "CHAN-General"; "General"].

(** ** [src/main.py]: the sentiment label *)

Module CHAN2024SentimentAnalyzer.

(** The float literal [0.05]: the binary64 value nearest to 1/20, which is
    7205759403792794 * 2^-57 (bits 0x3FA999999999999A). *)
Definition lit_0_05 : spec_float := S754_finite false 7205759403792794 (-57).

(** [-0.05]. *)
Definition lit_neg_0_05 : spec_float := SFopp lit_0_05.

(** [a >= b] and [a <= b] on floats; both are false when an operand is NaN. *)
Definition float_ge (a b : spec_float) : bool := SFleb b a.
Definition float_le (a b : spec_float) : bool := SFleb a b.

(** Lines 56-61: the [if]/[elif]/[else] on the compound score. *)
Definition sentiment_label (compound : spec_float) : string :=
  if float_ge compound lit_0_05 then "positive"
  else if float_le compound lit_neg_0_05 then "negative"
  else "neutral".

Section Analyzer.

(** [self.sentiment_analyzer.polarity_scores(text)['compound']]: the score of
    the VADER library. *)
Variable polarity_compound : string -> spec_float.

(** Lines 51-63. *)
Definition analyze_sentiment (text : string) : spec_float * string :=
  let compound := polarity_compound text in
  (compound, sentiment_label compound).

End Analyzer.
End CHAN2024SentimentAnalyzer.

(** ** [src/db.py]: the [tweets] table and [insert_tweet]

    The table is the one [create_tables] declares (lines 27-42).  The driver
    writes each Python value of the INSERT into the statement and the
    database converts it to the type of its column; a value that the column
    cannot hold makes [cursor.execute] raise, which [insert_tweet] answers by
    a rollback and [False].  The connection is open or closed; the reading
    of a timestamp text is the database's and is a parameter. *)

Module DatabaseManager.

(** The dict handed to [insert_tweet].  The keys read with [tweet_data[k]] are
    fields; the keys read with [tweet_data.get(k)] may be missing or [None]. *)
Record tweet_data : Type := {
  tweet_id : string;
  text : string;
  author_id : option string;
  created_at : option string;
  hashtags : option (list string);
  country : string;
  sentiment_score : spec_float;
  sentiment_label : string;
  retweet_count : option Z;
  like_count : option Z;
  reply_count : option Z
}.

(** [sentiment_score DECIMAL(3,2)]: a value of the column is NaN or a number
    of hundredths, below 1000 in absolute value. *)
Inductive numeric : Type :=
| NumericNaN
| Numeric (hundredths : Z).

(** A row of [tweets] (lines 27-42), with the twelve columns the INSERT
    writes; the serial [id] and [processed_at] are filled in by the database.
    The fields are wider than the columns: the bounds of the columns are
    checked where a row is made ([row_of_values]), so every row the database
    stores is within them.
    The columns are [tweet_id VARCHAR(50) UNIQUE NOT NULL], [text TEXT NOT
    NULL], [author_id VARCHAR(50)], [created_at TIMESTAMP] (microseconds, as
    the database keeps it), [hashtags TEXT[]], [country VARCHAR(20)],
    [sentiment_score DECIMAL(3,2)], [sentiment_label VARCHAR(20)], three
    [INTEGER] counts and [is_shared_content BOOLEAN]; [None] is NULL. *)
Record row : Type := {
  col_tweet_id : string;
  col_text : string;
  col_author_id : option string;
  col_created_at : option Z;
  col_hashtags : list string;
  col_country : string;
  col_sentiment_score : numeric;
  col_sentiment_label : string;
  col_retweet_count : Z;
  col_like_count : Z;
  col_reply_count : Z;
  col_is_shared_content : bool
}.

(** The Python values bound to the twelve placeholders of the INSERT. *)
Record insert_values : Type := {
  val_tweet_id : string;
  val_text : string;
  val_author_id : option string;
  val_created_at : option string;
  val_hashtags : list string;
  val_country : string;
  val_sentiment_score : spec_float;
  val_sentiment_label : string;
  val_retweet_count : Z;
  val_like_count : Z;
  val_reply_count : Z;
  val_is_shared : bool
}.

(** [d.get(k, default)] on an optional field. *)
Definition get_default {A : Type} (v : option A) (default : A) : A :=
  match v with Some a => a | None => default end.

(** *** What the driver and the database accept

    A value that a column cannot hold makes [cursor.execute] raise; [None]
    is that error. *)

(** A [str] parameter: the driver refuses a string with a NUL character. *)
Definition has_nul (s : string) : bool :=
  existsb (Ascii.eqb "000"%char) (list_ascii_of_string s).

Definition adapt_str (s : string) : option string :=
  if has_nul s then None else Some s.

(** [VARCHAR(n)]: a longer string is an error unless the characters beyond
    the [n]-th are all spaces, which are cut off. *)
Definition all_spaces (s : string) : bool :=
  forallb (Ascii.eqb " "%char) (list_ascii_of_string s).

Definition varchar (n : nat) (s : string) : option string :=
  if String.length s <=? n then Some s
  else if all_spaces (Re.str_drop n s) then Some (Re.str_take n s)
  else None.

(** [INTEGER]: 32 bits, signed. *)
Definition integer (n : Z) : option Z :=
  if ((-2147483648 <=? n) && (n <=? 2147483647))%Z then Some n else None.

(** The float nearest to the quotient of two integers: the division [a / b]
    of the two as floats. *)
Definition float_of_int (n : Z) : spec_float :=
  binary_normalize 53 1024 n 0 false.

Definition float_div (a b : Z) : spec_float :=
  SFdiv 53 1024 (float_of_int a) (float_of_int b).

(** The hundredths of [m * 2^e], rounded down, and whether what is left
    exceeds half a hundredth. *)
Definition hundredths_floor (m : positive) (e : Z) : Z :=
  (if 0 <=? e then 100 * Z.pos m * 2 ^ e
   else (100 * Z.pos m) / 2 ^ (- e))%Z.

Definition above_half (m : positive) (e : Z) : bool :=
  (if 0 <=? e then false
   else 2 ^ (- e) <? 2 * ((100 * Z.pos m) mod 2 ^ (- e)))%Z.

(** The driver writes a float as its [repr], the shortest decimal that reads
    back as the same float, and the database rounds that decimal to two
    places, a half away from zero.  When the float is the one nearest to a
    decimal [n.nn5], that decimal is its [repr] and is rounded up; otherwise
    the [repr] lies on the same side of [n.nn5] as the float itself. *)
Definition round_repr (m : positive) (e : Z) : Z :=
  let lo := hundredths_floor m e in
  if SFeqb (float_div (2 * lo + 1) 200) (S754_finite false m e)
  then (lo + 1)%Z
  else if above_half m e then (lo + 1)%Z else lo.

(** [DECIMAL(3,2)] from a float parameter: NaN is kept, an infinity and a
    value that rounds to 10.00 or more are errors. *)
Definition numeric_3_2 (x : spec_float) : option numeric :=
  match x with
  | S754_nan => Some NumericNaN
  | S754_infinity _ => None
  | S754_zero _ => Some (Numeric 0)
  | S754_finite s m e =>
      let k := round_repr m e in
      if (k <? 1000)%Z then Some (Numeric (if s then (- k)%Z else k))
      else None
  end.

(** A nullable column. *)
Definition nullable {A B : Type} (accept : A -> option B) (v : option A)
    : option (option B) :=
  match v with
  | None => Some None
  | Some a => option_map Some (accept a)
  end.

(** All elements of an array. *)
Fixpoint all_accepted {A B : Type} (accept : A -> option B) (l : list A)
    : option (list B) :=
  match l with
  | [] => Some []
  | a :: l' =>
      match accept a, all_accepted accept l' with
      | Some b, Some l'' => Some (b :: l'')
      | _, _ => None
      end
  end.

Definition bind {A B : Type} (v : option A) (k : A -> option B) : option B :=
  match v with Some a => k a | None => None end.

(** What an INSERT says about a conflict on the unique column. *)
Inductive conflict_clause : Type :=
| NoClause
| OnConflictDoNothing.

(** [self.connection]: open, or closed (by the server, or after a network
    failure). *)
Inductive connection_status : Type :=
| ConnectionOpen
| ConnectionClosed.

(** [tweet_id VARCHAR(50) UNIQUE]: is there a row with this tweet id? *)
Definition has_tweet_id (tweets : list row) (id : string) : bool :=
  existsb (fun r => String.eqb (col_tweet_id r) id) tweets.

(** Line 116. *)
Definition is_shared_of (tweet : tweet_data) : bool :=
  Py.list_in (country tweet) ["Pamoja"; "CHAN-General"].

(** Lines 118-131: the parameters of the INSERT. *)
Definition insert_params (tweet : tweet_data) (is_shared : bool)
    : insert_values :=
  {| val_tweet_id := tweet_id tweet;
     val_text := text tweet;
     val_author_id := author_id tweet;
     val_created_at := created_at tweet;
     val_hashtags := get_default (hashtags tweet) [];
     val_country := country tweet;
     val_sentiment_score := sentiment_score tweet;
     val_sentiment_label := sentiment_label tweet;
     val_retweet_count := get_default (retweet_count tweet) 0%Z;
     val_like_count := get_default (like_count tweet) 0%Z;
     val_reply_count := get_default (reply_count tweet) 0%Z;
     val_is_shared := is_shared |}.

Section Insert.

(** The reading of a timestamp by the database: [None] where it refuses the
    text. *)
Variable timestamp_in : string -> option Z.

(** The row the database makes of the values, column by column. *)
Definition row_of_values (v : insert_values) : option row :=
  bind (bind (adapt_str (val_tweet_id v)) (varchar 50)) (fun tweet_id =>
  bind (adapt_str (val_text v)) (fun text =>
  bind (nullable (fun s => bind (adapt_str s) (varchar 50))
          (val_author_id v)) (fun author_id =>
  bind (nullable (fun s => bind (adapt_str s) timestamp_in)
          (val_created_at v)) (fun created_at =>
  bind (all_accepted adapt_str (val_hashtags v)) (fun hashtags =>
  bind (bind (adapt_str (val_country v)) (varchar 20)) (fun country =>
  bind (numeric_3_2 (val_sentiment_score v)) (fun sentiment_score =>
  bind (bind (adapt_str (val_sentiment_label v)) (varchar 20))
    (fun sentiment_label =>
  bind (integer (val_retweet_count v)) (fun retweet_count =>
  bind (integer (val_like_count v)) (fun like_count =>
  bind (integer (val_reply_count v)) (fun reply_count =>
  Some {| col_tweet_id := tweet_id;
          col_text := text;
          col_author_id := author_id;
          col_created_at := created_at;
          col_hashtags := hashtags;
          col_country := country;
          col_sentiment_score := sentiment_score;
          col_sentiment_label := sentiment_label;
          col_retweet_count := retweet_count;
          col_like_count := like_count;
          col_reply_count := reply_count;
          col_is_shared_content := val_is_shared v |}))))))))))).

(** [cursor.execute] of an INSERT of one row: [None] when it raises.  A value
    that its column cannot hold raises.  A conflicting row raises unless the
    statement says [ON CONFLICT (tweet_id) DO NOTHING], which skips it. *)
Definition execute_insert (clause : conflict_clause) (tweets : list row)
    (v : insert_values) : option (list row) :=
  match row_of_values v with
  | None => None
  | Some r =>
      if has_tweet_id tweets (col_tweet_id r) then
        match clause with
        | OnConflictDoNothing => Some tweets
        | NoClause => None
        end
      else Some (tweets ++ [r])
  end.

(** Lines 102-140: the committed table after the call and the returned flag;
    [None] when the call raises.  An exception of the [try] block is followed
    by [self.connection.rollback()] and [return False].  On a closed
    connection [self.connection.cursor()] raises, and so does the [rollback]
    of the handler: that exception leaves the method. *)
Definition insert_tweet (connection : connection_status)
    (tweets : list row) (tweet : tweet_data) : option (list row * bool) :=
  match connection with
  | ConnectionClosed => None
  | ConnectionOpen =>
      let is_shared := is_shared_of tweet in
      match execute_insert OnConflictDoNothing tweets
              (insert_params tweet is_shared) with
      | Some tweets' => Some (tweets', true)
      | None => Some (tweets, false)
      end
  end.

End Insert.

(** A value bound to a [%s] placeholder: a string or a [datetime]. *)
Inductive sql_param : Type :=
| ParamStr (s : string)
| ParamTime (t : Z).

(** The truth value of a [str] or [None] argument: [if country:]. *)
Definition str_truthy (v : option string) : bool :=
  match v with
  | Some (String _ _) => true
  | _ => false
  end.

(** Lines 147-158: the text the query starts from. *)
Definition analytics_select : string := "
            SELECT 
                country,
                DATE(created_at) as date,
                COUNT(*) as tweet_count,
                AVG(sentiment_score) as avg_sentiment,
                COUNT(CASE WHEN sentiment_label = 'positive' THEN 1 END) as positive_tweets,
                COUNT(CASE WHEN sentiment_label = 'negative' THEN 1 END) as negative_tweets,
                COUNT(CASE WHEN sentiment_label = 'neutral' THEN 1 END) as neutral_tweets,
                COUNT(CASE WHEN is_shared_content = true THEN 1 END) as shared_content_count
            FROM tweets 
            WHERE 1=1
            ".

(** Lines 147-182: the query text and the parameters handed to
    [cursor.execute].  A [datetime] argument is always true. *)
Definition analytics_query (country : option string)
    (date_from date_to : option Z) (include_shared : bool)
    : string * list sql_param :=
  let query := analytics_select in
  let params := [] in
  let '(query, params) :=
    match country with
    | Some c =>
        if str_truthy country then
          if String.eqb c "AllHosts" then
            ((query ++ " AND (country IN ('Kenya', 'Uganda', 'Tanzania', 'Pamoja', 'CHAN-General'))")%string,
             params)
          else ((query ++ " AND country = %s")%string, params ++ [ParamStr c])
        else (query, params)
    | None => (query, params)
    end in
  let query :=
    if negb include_shared
    then (query ++ " AND is_shared_content = false")%string else query in
  let '(query, params) :=
    match date_from with
    | Some d =>
        ((query ++ " AND created_at >= %s")%string, params ++ [ParamTime d])
    | None => (query, params)
    end in
  let '(query, params) :=
    match date_to with
    | Some d =>
        ((query ++ " AND created_at <= %s")%string, params ++ [ParamTime d])
    | None => (query, params)
    end in
  let query :=
    (query ++ " GROUP BY country, DATE(created_at) ORDER BY date DESC, tweet_count DESC")%string in
  (query, params).

Section Queries.

(** The rows of a result, and [cursor.execute] followed by
    [cursor.fetchall]: [None] when the driver raises. *)
Variable result_row : Type.
Variable execute : string -> list sql_param -> option (list result_row).

(** Lines 142-192. *)
Definition get_analytics_data (country : option string)
    (date_from date_to : option Z) (include_shared : bool)
    : list result_row :=
  let '(query, params) :=
    analytics_query country date_from date_to include_shared in
  match execute query params with
  | Some results => results
  | None => []
  end.

End Queries.

End DatabaseManager.

(** ** [src/twitter_client.py] *)

Module TwitterClient.
Section Client.

Variable lower : string -> string.
Variable word : ascii -> bool.

(** Lines 60-64. *)
Definition extract_hashtags (text : string) : list string :=
  let hashtags := Re.findall (Re.lit_then word "#") 0 (lower text) in
  hashtags.

End Client.
End TwitterClient.

(** ** [src/main.py]: the processing of one tweet and the fetch

    The database and the Kafka producer are the state: the connection of the
    database manager, the committed rows of [tweets] and the messages handed
    to [producer.produce], in order.  A message value is the dict that
    [json.dumps] is applied to.  The producer and [json.dumps] are taken not
    to fail. *)

Module Main.

(** [tweet_data['public_metrics']]. *)
Record public_metrics : Type := {
  pm_retweet_count : option Z;
  pm_like_count : option Z;
  pm_reply_count : option Z
}.

(** The key [public_metrics] of a tweet: missing (as in the dicts of
    [stream_tweets]), present with the value [None] (twitter_client.py, line
    48, when the API sent no metrics), or present with a dict. *)
Inductive public_metrics_field : Type :=
| MetricsMissing
| MetricsNone
| Metrics (metrics : public_metrics).

(** A tweet as it arrives: the dict built by [search_tweets] or decoded from
    a message of the raw topic.  A field is [None] when the key is missing. *)
Record raw_tweet : Type := {
  raw_id : option Z;
  raw_text : option string;
  raw_author_id : option string;
  raw_created_at : option string;
  raw_public_metrics : public_metrics_field
}.

(** The dict given to [json.dumps]: a raw tweet, or a processed tweet, which
    the broadcast of shared content extends by the key
    [shared_for_country]. *)
Inductive payload : Type :=
| RawTweet (tweet : raw_tweet)
| ProcessedTweet (tweet : DatabaseManager.tweet_data)
    (shared_for_country : option string).

Record message : Type := {
  msg_topic : string;
  msg_value : payload
}.

Record state : Type := {
  connection : DatabaseManager.connection_status;
  tweets : list DatabaseManager.row;
  produced : list message
}.

(** [str(n)] for an [int]. *)
Definition str_of_int (n : Z) : string :=
  NilEmpty.string_of_int (Z.to_int n).

(** [d[k]]: [None] is the [KeyError]. *)
Fixpoint lookup {V : Type} (d : Dict.t V) (k : string) : option V :=
  match d with
  | [] => None
  | (k', v) :: d' => if String.eqb k' k then Some v else lookup d' k
  end.

(** [tweet_data.get('public_metrics', {}).get(key, 0)]; [None] is the
    [AttributeError] of [None.get]. *)
Definition metric (tweet_data : raw_tweet)
    (key : public_metrics -> option Z) : option Z :=
  match raw_public_metrics tweet_data with
  | MetricsMissing => Some 0%Z
  | MetricsNone => None
  | Metrics metrics => Some (DatabaseManager.get_default (key metrics) 0%Z)
  end.

(** [unique_tweets[k] = v] on a dict keyed by tweet ids. *)
Fixpoint set_by_id (d : list (Z * raw_tweet)) (k : Z) (v : raw_tweet)
    : list (Z * raw_tweet) :=
  match d with
  | [] => [(k, v)]
  | (k', v') :: d' =>
      if Z.eqb k' k then (k', v) :: d' else (k', v') :: set_by_id d' k v
  end.

(** Lines 157-161 of [fetch_and_produce_tweets]: the loop that fills
    [unique_tweets], and its values.  [None] is the [KeyError] of a tweet
    without id. *)
Fixpoint unique_tweets_of (unique_tweets : list (Z * raw_tweet))
    (all_tweets : list raw_tweet) : option (list (Z * raw_tweet)) :=
  match all_tweets with
  | [] => Some unique_tweets
  | tweet :: rest =>
      match raw_id tweet with
      | None => None
      | Some id => unique_tweets_of (set_by_id unique_tweets id tweet) rest
      end
  end.

Section Analyzer.

(** The runtime: [str.lower], the classes [\w], [\s] and the emoji ranges,
    the VADER scorer, the reading of a timestamp by the database, and the two
    topic names read from the environment. *)
Variable lower : string -> string.
Variable word : ascii -> bool.
Variable space : ascii -> bool.
Variable emoji : ascii -> bool.
Variable polarity_compound : string -> spec_float.
Variable timestamp_in : string -> option Z.
Variable env_raw env_processed : option string.

Definition topics : Dict.t string :=
  Config.KAFKA_TOPICS env_raw env_processed.

(** [self.producer.produce(topic, value=json.dumps(value)...)]. *)
Definition produce (out : list message) (topic : string) (value : payload)
    : list message :=
  out ++ [{| msg_topic := topic; msg_value := value |}].

(** Lines 115-123: the loop over the three host countries.  The flag is
    false when a topic lookup raised; the messages produced before stay. *)
Fixpoint broadcast (processed_tweet : DatabaseManager.tweet_data)
    (hosts : list string) (out : list message) : list message * bool :=
  match hosts with
  | [] => (out, true)
  | host_country :: rest =>
      match lookup topics host_country with
      | None => (out, false)
      | Some topic =>
          let processed_tweet_copy :=
            ProcessedTweet processed_tweet (Some (Re.str_title host_country))
          in
          broadcast processed_tweet rest (produce out topic processed_tweet_copy)
      end
  end.

(** Lines 72-133.  The result is [None] where the code returns [None] from
    its [except] clause: a missing text or id, unreadable metrics, an
    exception that leaves [insert_tweet], a missing topic. *)
Definition process_tweet (st : state) (tweet_data : raw_tweet)
    : state * option DatabaseManager.tweet_data :=
  match raw_text tweet_data with
  | None => (st, None)
  | Some original_text =>
      let cleaned_text :=
        TextPreprocessor.clean_text word space emoji original_text in
      let hashtags :=
        TextPreprocessor.extract_hashtags lower word original_text in
      match TextPreprocessor.categorize_country lower original_text hashtags
      with
      | None => (st, None)
      | Some country =>
          let '(sentiment_score, sentiment_label) :=
            CHAN2024SentimentAnalyzer.analyze_sentiment polarity_compound
              cleaned_text in
          match raw_id tweet_data,
                metric tweet_data pm_retweet_count,
                metric tweet_data pm_like_count,
                metric tweet_data pm_reply_count with
          | Some id, Some retweet_count, Some like_count, Some reply_count =>
              let processed_tweet :=
                {| DatabaseManager.tweet_id := str_of_int id;
                   DatabaseManager.text := original_text;
                   DatabaseManager.author_id := raw_author_id tweet_data;
                   DatabaseManager.created_at := raw_created_at tweet_data;
                   DatabaseManager.hashtags := Some hashtags;
                   DatabaseManager.country := country;
                   DatabaseManager.sentiment_score := sentiment_score;
                   DatabaseManager.sentiment_label := sentiment_label;
                   DatabaseManager.retweet_count := Some retweet_count;
                   DatabaseManager.like_count := Some like_count;
                   DatabaseManager.reply_count := Some reply_count |} in
              match DatabaseManager.insert_tweet timestamp_in (connection st)
                      (tweets st) processed_tweet with
              | None => (st, None)
              | Some (tweets', success) =>
                  let stored :=
                    {| connection := connection st; tweets := tweets';
                       produced := produced st |} in
                  if success then
                    if Py.list_in country ["Kenya"; "Uganda"; "Tanzania"] then
                      match lookup topics (lower country) with
                      | None => (stored, None)
                      | Some topic =>
                          ({| connection := connection st;
                              tweets := tweets';
                              produced :=
                                produce (produced st) topic
                                  (ProcessedTweet processed_tweet None) |},
                           Some processed_tweet)
                      end
                    else if Py.list_in country ["Pamoja"; "CHAN-General"] then
                      match broadcast processed_tweet
                              ["kenya"; "uganda"; "tanzania"] (produced st)
                      with
                      | (out, true) =>
                          ({| connection := connection st;
                              tweets := tweets'; produced := out |},
                           Some processed_tweet)
                      | (out, false) =>
                          ({| connection := connection st;
                              tweets := tweets'; produced := out |}, None)
                      end
                    else (stored, Some processed_tweet)
                  else (stored, Some processed_tweet)
              end
          | _, _, _, _ => (st, None)
          end
      end
  end.

(** The body of the loop of [consume_and_process_tweets], lines 200-216, on
    a decoded message: a processed tweet goes to the processed topic. *)
Definition consume_message (st : state) (tweet_data : raw_tweet) : state :=
  let '(st', processed_tweet) := process_tweet st tweet_data in
  match processed_tweet with
  | Some processed =>
      match lookup topics "processed" with
      | Some topic =>
          {| connection := connection st';
             tweets := tweets st';
             produced :=
               produce (produced st') topic (ProcessedTweet processed None) |}
      | None => st'
      end
  | None => st'
  end.

(** Lines 139-147: the three search queries. *)
Definition queries : list (string * string) :=
  [ ("Kenya-focused",
     "(#CHAN2024 OR #TotalEnergiesCHAN2024 OR #HarambeeStars) -is:retweet lang:en");
    ("Uganda-focused",
     "(#TotalEnergiesCHAN2024 OR #CHAN2024 OR #UgandaCranes) -is:retweet lang:en");
    ("Tanzania-focused",
     "(#CHAN2024 OR #TotalEnergiesCHAN2024 OR #TaifaStars) -is:retweet lang:en") ].

(** [self.twitter_client.search_tweets(query, max_results)]. *)
Variable search_tweets : string -> nat -> list raw_tweet.

(** Lines 135-178: the state after the call and the number returned. *)
Definition fetch_and_produce_tweets (st : state) : state * nat :=
  let all_tweets :=
    fold_left
      (fun all_tweets '(query_name, query) =>
         all_tweets ++ search_tweets query 50)
      queries [] in
  match unique_tweets_of [] all_tweets with
  | None => (st, 0)
  | Some unique_tweets =>
      let final_tweets := map snd unique_tweets in
      match lookup topics "raw" with
      | None => (st, 0)
      | Some topic =>
          ({| connection := connection st;
              tweets := tweets st;
              produced :=
                fold_left (fun out tweet => produce out topic (RawTweet tweet))
                  final_tweets (produced st) |},
           List.length final_tweets)
      end
  end.

End Analyzer.
End Main.

(** ** [src/utils/metrics.py]: the rankings and the hashtag winners

    The rows come from the database; their averages are SQL decimals.  The
    float arithmetic of the entries, [round(float(d), n)] and
    [round((a / b) * 100, 2)], is that of the runtime and is taken as two
    parameters; the division by a zero count raises. *)

Module MetricsCalculator.

(** [sorted(l, key=key, reverse=True)]: the sort is stable, elements with
    equal keys keep their order.  [insert_desc] puts an element in front of
    the first element whose key is not larger. *)
Fixpoint insert_desc {A : Type} (key : A -> nat) (x : A) (sorted : list A)
    : list A :=
  match sorted with
  | [] => [x]
  | y :: rest =>
      if key y <=? key x then x :: sorted else y :: insert_desc key x rest
  end.

Definition sorted_desc {A : Type} (key : A -> nat) (l : list A) : list A :=
  fold_right (insert_desc key) [] l.

(** [enumerate(l, start)]. *)
Fixpoint enumerate {A : Type} (start : nat) (l : list A) : list (nat * A) :=
  match l with
  | [] => []
  | x :: rest => (start, x) :: enumerate (S start) rest
  end.

Section Calculator.

Variable decimal : Type.
Variable round_float : decimal -> nat -> spec_float.
Variable percentage : nat -> nat -> spec_float.

(** A row of [get_country_tweet_comparison]. *)
Record country_row : Type := {
  cr_country : string;
  cr_tweet_count : nat;
  cr_avg_sentiment : decimal;
  cr_positive_tweets : nat;
  cr_negative_tweets : nat;
  cr_neutral_tweets : nat;
  cr_avg_engagement : decimal
}.

(** An entry of the rankings. *)
Record ranking : Type := {
  rank : nat;
  tweet_count : nat;
  avg_sentiment : spec_float;
  positive_tweets : nat;
  negative_tweets : nat;
  neutral_tweets : nat;
  avg_engagement : spec_float;
  positive_percentage : spec_float;
  negative_percentage : spec_float;
  neutral_percentage : spec_float
}.

(** Lines 61-72: the entry of one country; [None] is the
    [ZeroDivisionError] of a zero tweet count. *)
Definition ranking_of (i : nat) (country_data : country_row)
    : option ranking :=
  if cr_tweet_count country_data =? 0 then None
  else
    Some {| rank := i;
            tweet_count := cr_tweet_count country_data;
            avg_sentiment := round_float (cr_avg_sentiment country_data) 3;
            positive_tweets := cr_positive_tweets country_data;
            negative_tweets := cr_negative_tweets country_data;
            neutral_tweets := cr_neutral_tweets country_data;
            avg_engagement := round_float (cr_avg_engagement country_data) 2;
            positive_percentage :=
              percentage (cr_positive_tweets country_data)
                (cr_tweet_count country_data);
            negative_percentage :=
              percentage (cr_negative_tweets country_data)
                (cr_tweet_count country_data);
            neutral_percentage :=
              percentage (cr_neutral_tweets country_data)
                (cr_tweet_count country_data) |}.

(** Lines 59-72: the loop that fills [rankings]. *)
Fixpoint fill_rankings (rankings : Dict.t ranking)
    (ranked : list (nat * country_row)) : option (Dict.t ranking) :=
  match ranked with
  | [] => Some rankings
  | (i, country_data) :: rest =>
      match ranking_of i country_data with
      | None => None
      | Some entry =>
          fill_rankings (Dict.set rankings (cr_country country_data) entry)
            rest
      end
  end.

(** Lines 49-74, from the rows of [get_country_tweet_comparison]. *)
Definition get_country_rankings (country_comparison : list country_row)
    : option (Dict.t ranking) :=
  match country_comparison with
  | [] => Some Dict.empty
  | _ :: _ =>
      let ranked_countries :=
        sorted_desc cr_tweet_count country_comparison in
      fill_rankings Dict.empty (enumerate 1 ranked_countries)
  end.

(** A row of [get_hashtag_performance_by_country]. *)
Record hashtag_row : Type := {
  hr_country : string;
  hr_hashtag : string;
  hr_usage_count : nat;
  hr_avg_sentiment : decimal;
  hr_avg_engagement : decimal
}.

(** An entry of the hashtag winners. *)
Record hashtag_winner : Type := {
  winner : string;
  usage_count : nat;
  winner_avg_sentiment : spec_float;
  winner_avg_engagement : spec_float;
  competition : list (string * nat)
}.

(** [k in d] for a dict. *)
Definition dict_mem {V : Type} (d : Dict.t V) (k : string) : bool :=
  existsb (String.eqb k) (Dict.keys d).

(** Lines 87-91: the grouping of the rows by hashtag. *)
Definition hashtag_groups_of (hashtag_data : list hashtag_row)
    : Dict.t (list hashtag_row) :=
  fold_left
    (fun hashtag_groups row =>
       let hashtag := hr_hashtag row in
       let hashtag_groups :=
         if negb (dict_mem hashtag_groups hashtag)
         then Dict.set hashtag_groups hashtag []
         else hashtag_groups in
       Dict.set hashtag_groups hashtag
         (Dict.get hashtag_groups hashtag [] ++ [row]))
    hashtag_data Dict.empty.

(** Lines 76-105, from the rows of [get_hashtag_performance_by_country].
    [max] is taken of a list of at least two rows. *)
Definition get_hashtag_winners (hashtag_data : list hashtag_row)
    : Dict.t hashtag_winner :=
  match hashtag_data with
  | [] => Dict.empty
  | _ :: _ =>
      fold_left
        (fun hashtag_winners '(hashtag, countries) =>
           if 1 <? List.length countries then
             match Py.max_key hr_usage_count countries with
             | Some winner_row =>
                 Dict.set hashtag_winners hashtag
                   {| winner := hr_country winner_row;
                      usage_count := hr_usage_count winner_row;
                      winner_avg_sentiment :=
                        round_float (hr_avg_sentiment winner_row) 3;
                      winner_avg_engagement :=
                        round_float (hr_avg_engagement winner_row) 2;
                      competition :=
                        map (fun c => (hr_country c, hr_usage_count c))
                          countries |}
             | None => hashtag_winners
             end
           else hashtag_winners)
        (hashtag_groups_of hashtag_data) Dict.empty
  end.

End Calculator.
End MetricsCalculator.

(** ** Notions used to state the properties *)

(** The cascade on ASCII input. *)
Definition classify : string -> list string -> option string :=
  TextPreprocessor.categorize_country Py.str_lower.

(** The order in which [config.py] declares the three countries. *)
Definition declaration_order : list string :=
  Dict.keys Config.COUNTRY_HASHTAGS.

(** The index of the first occurrence of [c] in [order]. *)
Fixpoint position (c : string) (order : list string) : nat :=
  match order with
  | [] => 0
  | k :: order' => if String.eqb k c then 0 else S (position c order')
  end.

(** [w] is a key of [d] with the maximal score and, among the keys with that
    score, the one that comes first in [order]. *)
Definition first_max_in (order : list string) (d : Dict.t nat) (w : string)
    : Prop :=
  In w (Dict.keys d)
  /\ forall c, In c (Dict.keys d) ->
       Dict.get d c 0 <= Dict.get d w 0
       /\ (Dict.get d c 0 = Dict.get d w 0 ->
           position w order <= position c order).

(** The verdict comes from the shared-hashtag tie-break of lines 67-78: there
    is hashtag evidence and the guard of line 67 holds. *)
Definition tie_break_decides (hashtags_lower : list string) : bool :=
  let country_hashtag_scores :=
    TextPreprocessor.country_hashtag_scores_of hashtags_lower in
  Dict.truthy country_hashtag_scores
  && match Py.max (Dict.values country_hashtag_scores) with
     | Some country_specific_count =>
         TextPreprocessor.shared_tie
           (TextPreprocessor.shared_count_of hashtags_lower)
           country_specific_count
     | None => false
     end.

(** The keyword score and the venue score of a country for a content. *)
Definition keyword_hits (all_content c : string) : nat :=
  TextPreprocessor.keyword_score all_content
    (Dict.get Config.COUNTRY_KEYWORDS c []).

Definition venue_hits (all_content c : string) : nat :=
  TextPreprocessor.venue_score all_content
    (Dict.get Config.VENUE_KEYWORDS c []).

(** The order in which the keyword loop and then the venue loop insert the
    countries into [country_scores]: those with a keyword hit, then those with
    venue hits only, each group in declaration order. *)
Definition insertion_order (all_content : string) : list string :=
  filter (fun c => 0 <? keyword_hits all_content c) declaration_order
  ++ filter (fun c => (keyword_hits all_content c =? 0)
                      && (0 <? venue_hits all_content c)) declaration_order.

(** The characters of a string. *)
Definition chars (s : string) : list ascii := list_ascii_of_string s.

(** The functions of [text_preprocessing.py] on ASCII text. *)
Definition ascii_clean_text : string -> string :=
  TextPreprocessor.clean_text Re.ascii_word Re.ascii_space (fun _ => false).

Definition ascii_extract_hashtags : string -> list string :=
  TextPreprocessor.extract_hashtags Py.str_lower Re.ascii_word.

Definition ascii_extract_mentions : string -> list string :=
  TextPreprocessor.extract_mentions Py.str_lower Re.ascii_word.

(** The number of positions of [hay] at which [needle] occurs. *)
Fixpoint count_str (needle hay : string) : nat :=
  (if String.prefix needle hay then 1 else 0)
  + match hay with
    | EmptyString => 0
    | String _ hay' => count_str needle hay'
    end.

(** The last tweet of a list that carries the id [k]. *)
Fixpoint find_last (k : Z) (all_tweets : list Main.raw_tweet)
    : option Main.raw_tweet :=
  match all_tweets with
  | [] => None
  | tweet :: rest =>
      match find_last k rest with
      | Some later => Some later
      | None =>
          match Main.raw_id tweet with
          | Some id => if Z.eqb id k then Some tweet else None
          | None => None
          end
      end
  end.

(** The tweet stored under the id [k] in a dict keyed by ids. *)
Fixpoint lookup_id (d : list (Z * Main.raw_tweet)) (k : Z)
    : option Main.raw_tweet :=
  match d with
  | [] => None
  | (k', v) :: d' => if Z.eqb k' k then Some v else lookup_id d' k
  end.

(** The tweets the three searches of [fetch_and_produce_tweets] return, in
    the order of the queries. *)
Definition fetched (search_tweets : string -> nat -> list Main.raw_tweet)
    : list Main.raw_tweet :=
  flat_map (fun '(_, query) => search_tweets query 50) Main.queries.

(** The message that carries a raw tweet on a topic. *)
Definition raw_message (topic : string) (tweet : Main.raw_tweet)
    : Main.message :=
  {| Main.msg_topic := topic; Main.msg_value := Main.RawTweet tweet |}.

(** A raw tweet with an id and a text and nothing else. *)
Definition raw (id : Z) (text : string) : Main.raw_tweet :=
  {| Main.raw_id := Some id;
     Main.raw_text := Some text;
     Main.raw_author_id := None;
     Main.raw_created_at := None;
     Main.raw_public_metrics := Main.MetricsMissing |}.

(** The state before anything is stored or produced, the connection being
    open. *)
Definition empty_state : Main.state :=
  {| Main.connection := DatabaseManager.ConnectionOpen;
     Main.tweets := []; Main.produced := [] |}.

(** The metrics of a raw tweet can be read: the key [public_metrics] is
    missing or holds a dict. *)
Definition metrics_readable (tweet_data : Main.raw_tweet) : Prop :=
  Main.raw_public_metrics tweet_data <> Main.MetricsNone.

(** The row the database makes of a record handed to [insert_tweet], if it
    accepts the record. *)
Definition row_of_tweet (timestamp_in : string -> option Z)
    (tweet : DatabaseManager.tweet_data) : option DatabaseManager.row :=
  DatabaseManager.row_of_values timestamp_in
    (DatabaseManager.insert_params tweet (DatabaseManager.is_shared_of tweet)).

(** The table after a row was offered to it: a row whose tweet id is present
    is skipped, another one is appended. *)
Definition table_after (tweets : list DatabaseManager.row)
    (r : DatabaseManager.row) : list DatabaseManager.row :=
  if DatabaseManager.has_tweet_id tweets (DatabaseManager.col_tweet_id r)
  then tweets else tweets ++ [r].

(** The columns of a row are within the bounds of their types. *)
Definition row_in_range (r : DatabaseManager.row) : Prop :=
  String.length (DatabaseManager.col_tweet_id r) <= 50
  /\ (forall a, DatabaseManager.col_author_id r = Some a ->
        String.length a <= 50)
  /\ String.length (DatabaseManager.col_country r) <= 20
  /\ String.length (DatabaseManager.col_sentiment_label r) <= 20
  /\ (forall k, DatabaseManager.col_sentiment_score r
                = DatabaseManager.Numeric k -> (-1000 < k < 1000)%Z)
  /\ (-2147483648 <= DatabaseManager.col_retweet_count r <= 2147483647)%Z
  /\ (-2147483648 <= DatabaseManager.col_like_count r <= 2147483647)%Z
  /\ (-2147483648 <= DatabaseManager.col_reply_count r <= 2147483647)%Z.

(** A reading of timestamps that knows one text: 3 August 2024, 15:00, in
    microseconds since the first day of 2000. *)
Definition sample_timestamp_in (s : string) : option Z :=
  if String.eqb s "2024-08-03T15:00:00" then Some 776012400000000%Z
  else None.

(** [lower] lower-cases the names of the three host countries. *)
Definition lowers_host_names (lower : string -> string) : Prop :=
  lower "Kenya" = "kenya" /\ lower "Uganda" = "uganda"
  /\ lower "Tanzania" = "tanzania".

(** The message that carries a processed tweet on a topic, with or without
    the key [shared_for_country]. *)
Definition processed_message (topic : string)
    (tweet : DatabaseManager.tweet_data) (shared_for_country : option string)
    : Main.message :=
  {| Main.msg_topic := topic;
     Main.msg_value := Main.ProcessedTweet tweet shared_for_country |}.

(** Some message of a list is on a topic. *)
Definition on_topic (topic : string) (messages : list Main.message) : Prop :=
  exists m, In m messages /\ Main.msg_topic m = topic.

(** [process_tweet] and [consume_message] on ASCII text, with a scorer that
    answers zero and the topic names of the defaults. *)
Definition sample_process_tweet
    : Main.state -> Main.raw_tweet
      -> Main.state * option DatabaseManager.tweet_data :=
  Main.process_tweet Py.str_lower Re.ascii_word Re.ascii_space
    (fun _ => false) (fun _ => S754_zero false) sample_timestamp_in None None.

Definition sample_consume_message
    : Main.state -> Main.raw_tweet -> Main.state :=
  Main.consume_message Py.str_lower Re.ascii_word Re.ascii_space
    (fun _ => false) (fun _ => S754_zero false) sample_timestamp_in None None.

(** Two rows of a country comparison, with averages that play no role. *)
Definition sample_rows : list (MetricsCalculator.country_row unit) :=
  [ {| MetricsCalculator.cr_country := "Kenya";
       MetricsCalculator.cr_tweet_count := 5;
       MetricsCalculator.cr_avg_sentiment := tt;
       MetricsCalculator.cr_positive_tweets := 3;
       MetricsCalculator.cr_negative_tweets := 1;
       MetricsCalculator.cr_neutral_tweets := 1;
       MetricsCalculator.cr_avg_engagement := tt |};
    {| MetricsCalculator.cr_country := "Uganda";
       MetricsCalculator.cr_tweet_count := 9;
       MetricsCalculator.cr_avg_sentiment := tt;
       MetricsCalculator.cr_positive_tweets := 4;
       MetricsCalculator.cr_negative_tweets := 4;
       MetricsCalculator.cr_neutral_tweets := 1;
       MetricsCalculator.cr_avg_engagement := tt |} ].

(** The rows of a hashtag among the rows of the hashtag performance. *)
Definition rows_of_hashtag {decimal : Type} (hashtag : string)
    (hashtag_data : list (MetricsCalculator.hashtag_row decimal))
    : list (MetricsCalculator.hashtag_row decimal) :=
  filter
    (fun row => String.eqb (MetricsCalculator.hr_hashtag decimal row) hashtag)
    hashtag_data.

(** The label of the opposite sentiment. *)
Definition opposite_label (label : string) : string :=
  if String.eqb label "positive" then "negative"
  else if String.eqb label "negative" then "positive"
  else label.

(** The float [0.4939]: 8897311423833152 * 2^-54. *)
Definition lit_0_4939 : spec_float := S754_finite false 8897311423833152 (-54).

(** A record as [process_tweet] assembles it, and the row stored for it. *)
Definition pamoja_tweet : DatabaseManager.tweet_data :=
  {| DatabaseManager.tweet_id := "1";
     DatabaseManager.text := "pamoja #chan2024";
     DatabaseManager.author_id := Some "42";
     DatabaseManager.created_at := Some "2024-08-03T15:00:00";
     DatabaseManager.hashtags := Some ["#chan2024"];
     DatabaseManager.country := "Pamoja";
     DatabaseManager.sentiment_score := lit_0_4939;
     DatabaseManager.sentiment_label := "positive";
     DatabaseManager.retweet_count := None;
     DatabaseManager.like_count := Some 3%Z;
     DatabaseManager.reply_count := None |}.

Definition pamoja_row : DatabaseManager.row :=
  {| DatabaseManager.col_tweet_id := "1";
     DatabaseManager.col_text := "pamoja #chan2024";
     DatabaseManager.col_author_id := Some "42";
     DatabaseManager.col_created_at := Some 776012400000000%Z;
     DatabaseManager.col_hashtags := ["#chan2024"];
     DatabaseManager.col_country := "Pamoja";
     DatabaseManager.col_sentiment_score := DatabaseManager.Numeric 49;
     DatabaseManager.col_sentiment_label := "positive";
     DatabaseManager.col_retweet_count := 0%Z;
     DatabaseManager.col_like_count := 3%Z;
     DatabaseManager.col_reply_count := 0%Z;
     DatabaseManager.col_is_shared_content := true |}.

(** The same record under the tweet id [str(10**50)], which has 51
    characters. *)
Definition long_id_tweet : DatabaseManager.tweet_data :=
  {| DatabaseManager.tweet_id :=
       "100000000000000000000000000000000000000000000000000";
     DatabaseManager.text := "pamoja #chan2024";
     DatabaseManager.author_id := Some "42";
     DatabaseManager.created_at := Some "2024-08-03T15:00:00";
     DatabaseManager.hashtags := Some ["#chan2024"];
     DatabaseManager.country := "Pamoja";
     DatabaseManager.sentiment_score := lit_0_4939;
     DatabaseManager.sentiment_label := "positive";
     DatabaseManager.retweet_count := None;
     DatabaseManager.like_count := Some 3%Z;
     DatabaseManager.reply_count := None |}.

(** The record [pamoja_tweet] with a like count of 2^31. *)
Definition many_likes_tweet : DatabaseManager.tweet_data :=
  {| DatabaseManager.tweet_id := "1";
     DatabaseManager.text := "pamoja #chan2024";
     DatabaseManager.author_id := Some "42";
     DatabaseManager.created_at := Some "2024-08-03T15:00:00";
     DatabaseManager.hashtags := Some ["#chan2024"];
     DatabaseManager.country := "Pamoja";
     DatabaseManager.sentiment_score := lit_0_4939;
     DatabaseManager.sentiment_label := "positive";
     DatabaseManager.retweet_count := None;
     DatabaseManager.like_count := Some 2147483648%Z;
     DatabaseManager.reply_count := None |}.

(** * Properties *)

(** ** Python builtins *)

Lemma list_in_In (x : string) (l : list string) :
  Py.list_in x l = true <-> In x l.
Proof.
  unfold Py.list_in. rewrite existsb_exists. split.
  - intros [y [Hy Heq]]. apply String.eqb_eq in Heq. now subst.
  - intros H. exists x. split; [assumption | apply String.eqb_refl].
Qed.

Lemma sum_if_zero {A : Type} (w : nat) (p : A -> bool) (l : list A) :
  (forall x, In x l -> p x = false) -> Py.sum_if w p l = 0.
Proof.
  unfold Py.sum_if. induction l as [| a l IH]; intros H; simpl.
  - reflexivity.
  - rewrite (H a (or_introl eq_refl)). apply IH.
    intros x Hx. apply H. now right.
Qed.

Lemma sum_if_pos {A : Type} (w : nat) (p : A -> bool) (l : list A) (x : A) :
  0 < w -> In x l -> p x = true -> 0 < Py.sum_if w p l.
Proof.
  unfold Py.sum_if. intros Hw. induction l as [| a l IH]; intros Hin Hp.
  - destruct Hin.
  - simpl. destruct Hin as [-> | Hin].
    + rewrite Hp. simpl. lia.
    + destruct (p a); simpl; [| now apply IH].
      specialize (IH Hin Hp). lia.
Qed.

(** [max] scans from its first element: the answer splits the sequence into
    strictly smaller elements before it and no larger elements after it. *)
Lemma max_from_split {A : Type} (key : A -> nat) (l : list A) :
  forall best, exists before after,
    best :: l = before ++ Py.max_from key best l :: after
    /\ (forall x, In x before -> key x < key (Py.max_from key best l))
    /\ (forall x, In x after -> key x <= key (Py.max_from key best l)).
Proof.
  induction l as [| x l IH]; intros best; simpl.
  - exists [], []. repeat split; intros y [].
  - destruct (key best <? key x) eqn:Hlt.
    + apply Nat.ltb_lt in Hlt.
      destruct (IH x) as [before [after [Hsplit [Hb Ha]]]].
      exists (best :: before), after.
      split; [simpl; f_equal; exact Hsplit | split; [| exact Ha]].
      intros y [<- | Hy]; [| now apply Hb].
      assert (Hx : In x (before ++ Py.max_from key x l :: after))
        by (rewrite <- Hsplit; now left).
      apply in_app_or in Hx. destruct Hx as [Hx | [Hx | Hx]].
      * specialize (Hb _ Hx). lia.
      * rewrite Hx. exact Hlt.
      * specialize (Ha _ Hx). lia.
    + apply Nat.ltb_ge in Hlt.
      destruct (IH best) as [before [after [Hsplit [Hb Ha]]]].
      destruct before as [| b before].
      * simpl in Hsplit. injection Hsplit as Hbest Hl.
        rewrite <- Hbest in *. subst after.
        exists [], (x :: l). repeat split.
        -- intros y [].
        -- intros y [<- | Hy]; [exact Hlt | now apply Ha].
      * simpl in Hsplit. injection Hsplit as Hbest Hl. subst b.
        exists (best :: x :: before), after.
        split; [simpl; do 2 f_equal; exact Hl | split; [| exact Ha]].
        intros y [<- | [<- | Hy]].
        -- apply Hb. now left.
        -- specialize (Hb best (or_introl eq_refl)). lia.
        -- apply Hb. now right.
Qed.

Lemma max_from_In {A : Type} (key : A -> nat) (l : list A) (best : A) :
  In (Py.max_from key best l) (best :: l).
Proof.
  destruct (max_from_split key l best) as [before [after [Hsplit _]]].
  rewrite Hsplit. apply in_or_app. right. now left.
Qed.

Lemma max_key_In {A : Type} (key : A -> nat) (l : list A) (x : A) :
  Py.max_key key l = Some x -> In x l.
Proof.
  destruct l as [| a l]; simpl; [discriminate |].
  intros H. injection H as <-. apply max_from_In.
Qed.

Lemma max_key_nonempty {A : Type} (key : A -> nat) (l : list A) :
  l <> [] -> exists x, Py.max_key key l = Some x.
Proof.
  destruct l as [| a l]; [congruence |]. intros _. simpl. eauto.
Qed.

(** ** Dictionaries *)

Lemma keys_set_incl {V : Type} (d : Dict.t V) (k : string) (v : V) :
  incl (Dict.keys (Dict.set d k v)) (Dict.keys d ++ [k]).
Proof.
  induction d as [| [k' v'] d IH]; simpl.
  - apply incl_refl.
  - destruct (String.eqb k' k); simpl.
    + intros x [<- | Hx]; [now left | right; apply in_or_app; now left].
    + intros x [<- | Hx]; [now left | right; now apply IH].
Qed.

Lemma truthy_values {V : Type} (d : Dict.t V) :
  Dict.truthy d = true -> Dict.values d <> [].
Proof. destruct d; simpl; [discriminate | discriminate]. Qed.

Lemma truthy_keys {V : Type} (d : Dict.t V) :
  Dict.truthy d = true -> Dict.keys d <> [].
Proof. destruct d; simpl; [discriminate | discriminate]. Qed.

Lemma dict_max_key_In (d : Dict.t nat) (k : string) :
  Dict.max_key d = Some k -> In k (Dict.keys d).
Proof. apply max_key_In. Qed.

(** The shape shared by the three scoring loops: an entry of the table whose
    score is positive writes its country into the dict. *)
Lemma score_loop_keys (score : list string -> nat)
    (value : Dict.t nat -> string -> list string -> nat)
    (table : Dict.t (list string)) :
  forall init,
    incl (Dict.keys
            (fold_left
               (fun d '(c, ws) =>
                  if 0 <? score ws then Dict.set d c (value d c ws) else d)
               table init))
         (Dict.keys init ++ Dict.keys table).
Proof.
  induction table as [| [c ws] table IH]; intros init; simpl.
  - rewrite app_nil_r. apply incl_refl.
  - eapply incl_tran; [apply IH |].
    apply incl_app; [| intros x Hx; apply in_or_app; right; now right].
    destruct (0 <? score ws).
    + eapply incl_tran; [apply keys_set_incl |].
      intros x Hx. apply in_app_or in Hx. apply in_or_app.
      destruct Hx as [Hx | [<- | []]]; [now left | right; now left].
    + intros x Hx. apply in_or_app. now left.
Qed.

Lemma hashtag_scores_keys (hashtags_lower : list string) :
  incl (Dict.keys (TextPreprocessor.country_hashtag_scores_of hashtags_lower))
       declaration_order.
Proof.
  apply (score_loop_keys
           (TextPreprocessor.hashtag_matches hashtags_lower)
           (fun _ _ ws => TextPreprocessor.hashtag_matches hashtags_lower ws)
           Config.COUNTRY_HASHTAGS Dict.empty).
Qed.

Lemma keyword_scores_keys (all_content : string) :
  incl (Dict.keys (TextPreprocessor.country_keyword_scores_of all_content))
       declaration_order.
Proof.
  apply (score_loop_keys
           (TextPreprocessor.keyword_score all_content)
           (fun _ _ ws => TextPreprocessor.keyword_score all_content ws)
           Config.COUNTRY_KEYWORDS Dict.empty).
Qed.

Lemma country_scores_keys (all_content : string) :
  incl (Dict.keys (TextPreprocessor.country_scores_of all_content))
       declaration_order.
Proof.
  eapply incl_tran.
  - apply (score_loop_keys
             (TextPreprocessor.venue_score all_content)
             (fun d c ws =>
                Dict.get d c 0 + TextPreprocessor.venue_score all_content ws)
             Config.VENUE_KEYWORDS).
  - apply incl_app; [apply keyword_scores_keys | apply incl_refl].
Qed.

Lemma declared_countries_are_labels (c : string) :
  In c declaration_order -> In c CategoryVocabulary.
Proof. simpl. tauto. Qed.

(** A non-empty score dict over the declared countries has a winner, which
    is a label of the vocabulary. *)
Lemma score_dict_winner (d : Dict.t nat) :
  Dict.truthy d = true -> incl (Dict.keys d) declaration_order ->
  exists label, Dict.max_key d = Some label /\ In label CategoryVocabulary.
Proof.
  intros Ht Hk.
  destruct (max_key_nonempty (fun k => Dict.get d k 0) (Dict.keys d)
              (truthy_keys d Ht)) as [w Hw].
  exists w. split; [exact Hw |].
  apply declared_countries_are_labels, Hk, dict_max_key_In, Hw.
Qed.

(** ** The cascade *)

(** The statements of [categorize_country], the prose of lines 89-116 left
    out, return on every text and every list of hashtags (the [ValueError] of
    [max] on an empty sequence, the only failure they could raise, never
    happens), and the value returned is one of the six labels; this holds
    whatever [str.lower] does. *)
Lemma categorize_country_total :
  forall (lower : string -> string) (t : string) (h : list string),
  exists label,
    TextPreprocessor.categorize_country lower t h = Some label
    /\ In label CategoryVocabulary.
Proof.
  intros lower t h. unfold TextPreprocessor.categorize_country. cbv zeta.
  destruct (Dict.truthy (TextPreprocessor.country_hashtag_scores_of _))
    eqn:Hhash.
  - destruct (max_key_nonempty (fun v => v) _ (truthy_values _ Hhash))
      as [m Hm].
    unfold Py.max. rewrite Hm.
    destruct (TextPreprocessor.shared_tie _ m).
    + destruct (Dict.truthy (TextPreprocessor.country_keyword_scores_of _))
        eqn:Hkw.
      * apply score_dict_winner; [exact Hkw | apply keyword_scores_keys].
      * exists "Pamoja". split; [reflexivity | simpl; tauto].
    + apply score_dict_winner; [exact Hhash | apply hashtag_scores_keys].
  - destruct (Dict.truthy (TextPreprocessor.country_scores_of _)) eqn:Hsc.
    + apply score_dict_winner; [exact Hsc | apply country_scores_keys].
    + destruct (_ || _).
      * exists "CHAN-General". split; [reflexivity | simpl; tauto].
      * exists "General". split; [reflexivity | simpl; tauto].
Qed.

(** C1. As the file is shipped, no call of [categorize_country] returns a
    label: the prose of lines 89-116 stands among the statements of the
    method, line 91 starts with two plain names, the import of the module
    raises [SyntaxError], and so does every call, whatever the text and the
    hashtags.  No line around the prose starts that way, and the statements
    of the method, taken without the prose, return one of the six labels on
    every input. *)
Theorem shipped_categorize_country_raises :
  forall (lower : string -> string) (t : string) (h : list string),
    TextPreprocessingFile.categorize_country lower t h
    = TextPreprocessingFile.Raises TextPreprocessingFile.SyntaxError
    /\ In "        This project provides utilities for preprocessing and analyzing text data (such as tweets) related to the African Nations Championship (CHAN). It includes tools for cleaning text, extracting hashtags and mentions, detecting language, and categorizing content by country or general CHAN topics."
         (filter PySyntax.starts_with_two_plain_names
            TextPreprocessingFile.lines_82_123)
    /\ PySyntax.syntax_error
         (TextPreprocessingFile.lines_82_88
          ++ TextPreprocessingFile.lines_117_123) = false
    /\ exists label,
         TextPreprocessor.categorize_country lower t h = Some label
         /\ In label CategoryVocabulary.
Proof.
  intros lower t h. split; [| split; [| split]].
  - unfold TextPreprocessingFile.categorize_country.
    assert (Himport : TextPreprocessingFile.import_module
                      = TextPreprocessingFile.Raises
                          TextPreprocessingFile.SyntaxError)
      by (vm_compute; reflexivity).
    now rewrite Himport.
  - vm_compute. left. reflexivity.
  - vm_compute. reflexivity.
  - apply categorize_country_total.
Qed.

Lemma list_in_false (x : string) (l : list string) :
  ~ In x l -> Py.list_in x l = false.
Proof.
  intros H. destruct (Py.list_in x l) eqn:E; [| reflexivity].
  apply list_in_In in E. contradiction.
Qed.

Lemma no_shared_hashtag_count (hashtags_lower : list string) :
  (forall y, In y hashtags_lower -> ~ In y Config.SHARED_HASHTAGS) ->
  TextPreprocessor.shared_count_of hashtags_lower = 0.
Proof.
  intros H. apply sum_if_zero. intros y Hy. now apply list_in_false, H.
Qed.

Lemma no_hashtag_of_entry (hashtags_lower tags : list string) :
  (forall y, In y hashtags_lower -> ~ In y tags) ->
  TextPreprocessor.hashtag_matches hashtags_lower tags = 0.
Proof.
  intros H. apply sum_if_zero. intros y Hy. apply list_in_false.
  intros Hin. exact (H y Hin Hy).
Qed.

Lemma some_hashtag_of_entry (hashtags_lower tags : list string) (x : string) :
  In x tags -> In x hashtags_lower ->
  0 < TextPreprocessor.hashtag_matches hashtags_lower tags.
Proof.
  intros Ht Hh. apply (sum_if_pos 1 _ tags x); [lia | exact Ht |].
  now apply list_in_In.
Qed.

(** When one country alone has hashtag evidence and no input hashtag is
    shared, the hashtag stage answers that country. *)
Lemma single_country_verdict (lower : string -> string) (t : string)
    (h : list string) (C : string) (n : nat) :
  TextPreprocessor.country_hashtag_scores_of (map lower h) = [(C, S n)] ->
  TextPreprocessor.shared_count_of (map lower h) = 0 ->
  TextPreprocessor.categorize_country lower t h = Some C.
Proof.
  intros Hscores Hshared. unfold TextPreprocessor.categorize_country.
  cbv zeta. rewrite Hscores, Hshared. reflexivity.
Qed.

(** C2. If the hashtags, as the cascade compares them (lower-cased; under the
    contract of the extractor these are the hashtags supplied), contain a
    hashtag [x] of the entry of country [C] that is not a shared hashtag,
    contain no shared hashtag and contain no hashtag of the entry of another
    country, then the verdict is [C] whatever the text is. *)
Theorem country_hashtag_precedence :
  forall (lower : string -> string) (t : string) (h : list string)
         (C : string) (tags : list string) (x : string),
    In (C, tags) Config.COUNTRY_HASHTAGS ->
    In x tags ->
    ~ In x Config.SHARED_HASHTAGS ->
    In x (map lower h) ->
    (forall y, In y (map lower h) -> ~ In y Config.SHARED_HASHTAGS) ->
    (forall C' tags' y,
        In (C', tags') Config.COUNTRY_HASHTAGS -> C' <> C ->
        In y (map lower h) -> ~ In y tags') ->
    TextPreprocessor.categorize_country lower t h = Some C.
Proof.
  intros lower t h C tags x HC Hx Hns Hin Hshared Hother.
  pose proof (some_hashtag_of_entry _ _ _ Hx Hin) as Hpos.
  assert (Hzero : forall C' tags',
             In (C', tags') Config.COUNTRY_HASHTAGS -> C' <> C ->
             TextPreprocessor.hashtag_matches (map lower h) tags' = 0).
  { intros C' tags' HC' Hne. apply no_hashtag_of_entry.
    intros y Hy. exact (Hother C' tags' y HC' Hne Hy). }
  destruct (TextPreprocessor.hashtag_matches (map lower h) tags) as [| n] eqn:E;
    [lia |].
  apply (single_country_verdict lower t h C n);
    [| now apply no_shared_hashtag_count].
  unfold TextPreprocessor.country_hashtag_scores_of, Config.COUNTRY_HASHTAGS.
  cbn [fold_left].
  simpl in HC. destruct HC as [HC | [HC | [HC | []]]];
    injection HC as <- <-; rewrite E.
  - rewrite (Hzero "Uganda" _ (or_intror (or_introl eq_refl))) by discriminate.
    rewrite (Hzero "Tanzania" _ (or_intror (or_intror (or_introl eq_refl))))
      by discriminate.
    reflexivity.
  - rewrite (Hzero "Kenya" _ (or_introl eq_refl)) by discriminate.
    rewrite (Hzero "Tanzania" _ (or_intror (or_intror (or_introl eq_refl))))
      by discriminate.
    reflexivity.
  - rewrite (Hzero "Kenya" _ (or_introl eq_refl)) by discriminate.
    rewrite (Hzero "Uganda" _ (or_intror (or_introl eq_refl))) by discriminate.
    reflexivity.
Qed.

(** The instance of C2 given with it: no text and the one hashtag
    "#ugandacranes" give Uganda. *)
Lemma country_hashtag_precedence_witness :
  TextPreprocessor.categorize_country Py.str_lower "" ["#ugandacranes"]
  = Some "Uganda".
Proof.
  apply (country_hashtag_precedence Py.str_lower "" ["#ugandacranes"]
           "Uganda" ["#totalenergieschan2024"; "#chan2024"; "#ugandacranes"]
           "#ugandacranes").
  - simpl. tauto.
  - simpl. tauto.
  - simpl. intros [H | [H | [H | [H | [H | []]]]]]; discriminate H.
  - simpl. tauto.
  - simpl. intros y [<- | []] [H | [H | [H | [H | [H | []]]]]]; discriminate H.
  - simpl. intros C' tags' y [HC | [HC | [HC | []]]] Hne [<- | []];
      injection HC as <- <-;
      [ | congruence | ];
      intros [H | [H | [H | []]]]; discriminate H.
Defined.

(** C3. On the hashtags "#chan2024" and "#pamoja" the verdict is Kenya for
    every text, not Pamoja: each country matches one hashtag of its entry
    ("#pamoja" is in no entry) while two input hashtags are shared, so the
    guard of line 67 compares 1 with 2, the tie-break is skipped and line 80
    returns the first country of the three-way tie. *)
Theorem shared_pair_verdict_is_kenya :
  forall t : string,
    TextPreprocessor.country_hashtag_scores_of
      (map Py.str_lower ["#chan2024"; "#pamoja"])
    = [("Kenya", 1); ("Uganda", 1); ("Tanzania", 1)]
    /\ TextPreprocessor.shared_count_of
         (map Py.str_lower ["#chan2024"; "#pamoja"]) = 2
    /\ tie_break_decides (map Py.str_lower ["#chan2024"; "#pamoja"]) = false
    /\ classify t ["#chan2024"; "#pamoja"] = Some "Kenya".
Proof.
  intros t. repeat split; reflexivity.
Qed.

(** C4, as stated, fails: on "excited for kasarani showdown" with the
    hashtags "#chan2024" and "#pamoja" the verdict is Kenya, but the
    tie-break stage is not the stage that decides; and the keyword scores
    that stage would read are empty on this content, "kasarani" being a
    venue and no keyword. *)
Lemma kasarani_verdict_not_from_tie_break :
  ~ (classify "excited for kasarani showdown" ["#chan2024"; "#pamoja"]
     = Some "Kenya"
     /\ tie_break_decides (map Py.str_lower ["#chan2024"; "#pamoja"]) = true)
  /\ TextPreprocessor.country_keyword_scores_of
       (TextPreprocessor.all_content_of
          (Py.str_lower "excited for kasarani showdown")
          (map Py.str_lower ["#chan2024"; "#pamoja"])) = [].
Proof.
  split; [| reflexivity].
  intros [_ H]. vm_compute in H. discriminate H.
Qed.

(** C4, amended. When the shared-hashtag tie-break decides, the verdict is
    read off the keyword scores alone: the best keyword country if some
    keyword occurs in the content, Pamoja otherwise.  Venue terms are not
    scored at this stage. *)
Theorem tie_break_scores_keywords_only :
  forall (lower : string -> string) (t : string) (h : list string),
    tie_break_decides (map lower h) = true ->
    TextPreprocessor.categorize_country lower t h
    = let country_keyword_scores :=
        TextPreprocessor.country_keyword_scores_of
          (TextPreprocessor.all_content_of (lower t) (map lower h)) in
      if Dict.truthy country_keyword_scores
      then Dict.max_key country_keyword_scores
      else Some "Pamoja".
Proof.
  intros lower t h H. unfold tie_break_decides in H. cbv zeta in H.
  apply andb_true_iff in H. destruct H as [Htruthy Hguard].
  unfold TextPreprocessor.categorize_country. cbv zeta. rewrite Htruthy.
  destruct (Py.max _) as [m |]; [| discriminate Hguard].
  rewrite Hguard. reflexivity.
Qed.

(** With the single shared hashtag "#chan2024" the tie-break decides, and
    the Kenya venue "kasarani" (venue score 2) does not break the tie. *)
Lemma tie_break_scores_keywords_only_witness :
  classify "excited for kasarani showdown" ["#chan2024"] = Some "Pamoja"
  /\ venue_hits
       (TextPreprocessor.all_content_of
          (Py.str_lower "excited for kasarani showdown")
          (map Py.str_lower ["#chan2024"])) "Kenya" = 2.
Proof.
  split; [| reflexivity].
  unfold classify.
  rewrite (tie_break_scores_keywords_only Py.str_lower
             "excited for kasarani showdown" ["#chan2024"]);
    reflexivity.
Defined.



(** ** Lower-casing of the hashtags *)

Lemma ascii_lower_idempotent (c : ascii) :
  Py.ascii_lower (Py.ascii_lower c) = Py.ascii_lower c.
Proof. destruct c as [[] [] [] [] [] [] [] []]; reflexivity. Qed.

Lemma str_lower_idempotent (s : string) :
  Py.str_lower (Py.str_lower s) = Py.str_lower s.
Proof.
  induction s as [| c s IH]; simpl; [reflexivity |].
  now rewrite ascii_lower_idempotent, IH.
Qed.

(** Lower-casing a list of hashtags twice is lower-casing it once. *)
Lemma lowered_hashtags_fixed (lower : string -> string) (h : list string) :
  (forall s, lower (lower s) = lower s) ->
  map lower (map lower h) = map lower h.
Proof.
  intros Hidem. rewrite map_map. apply map_ext. exact Hidem.
Qed.

(** C6, as stated, fails: no hashtag list is classified differently from
    its lower-cased form, and ["#UgandaCranes"] gives Uganda just as
    ["#ugandacranes"] does. *)
Lemma mixed_case_hashtag_same_verdict :
  classify "" ["#UgandaCranes"] = Some "Uganda"
  /\ classify "" (map Py.str_lower ["#UgandaCranes"]) = Some "Uganda"
  /\ ~ (exists t h, classify t h <> classify t (map Py.str_lower h)).
Proof.
  split; [reflexivity | split; [reflexivity |]].
  intros [t [h Hne]]. apply Hne.
  unfold classify, TextPreprocessor.categorize_country.
  now rewrite (lowered_hashtags_fixed Py.str_lower h str_lower_idempotent).
Qed.

(** C6, amended. The cascade lower-cases its hashtag argument itself
    (line 47) before anything looks at it: for every text and every hashtag
    list the verdict is the verdict on the lower-cased list (for a [lower]
    that leaves lower-cased strings alone, as [str.lower] does). *)
Theorem hashtags_are_lowercased_by_cascade :
  forall lower : string -> string,
    (forall s, lower (lower s) = lower s) ->
    forall (t : string) (h : list string),
      TextPreprocessor.categorize_country lower t h
      = TextPreprocessor.categorize_country lower t (map lower h).
Proof.
  intros lower Hidem t h.
  unfold TextPreprocessor.categorize_country.
  rewrite (lowered_hashtags_fixed lower h Hidem).
  reflexivity.
Qed.

Lemma hashtags_are_lowercased_by_cascade_witness :
  classify "" ["#UgandaCranes"] = classify "" ["#ugandacranes"].
Proof.
  exact (hashtags_are_lowercased_by_cascade Py.str_lower str_lower_idempotent
           "" ["#UgandaCranes"]).
Defined.

(** C7. Each of the six labels is the verdict of some input. *)
Theorem every_label_is_returned :
  forall label : string,
    In label CategoryVocabulary ->
    exists (t : string) (h : list string), classify t h = Some label.
Proof.
  intros label H. simpl in H.
  destruct H as [<- | [<- | [<- | [<- | [<- | [<- | []]]]]]].
  - exists "", ["#harambeestars"]. reflexivity.
  - exists "", ["#ugandacranes"]. reflexivity.
  - exists "", ["#taifastars"]. reflexivity.
  - exists "", ["#chan2024"]. reflexivity.
  - exists "caf confirms totalenergies sponsorship", []. reflexivity.
  - exists "good morning everyone", []. reflexivity.
Qed.

Lemma every_label_is_returned_witness :
  exists (t : string) (h : list string), classify t h = Some "Pamoja".
Proof.
  apply (every_label_is_returned "Pamoja"). simpl. tauto.
Defined.

(** ** The sentiment label *)

Lemma not_both_thresholds (compound : spec_float) :
  CHAN2024SentimentAnalyzer.float_ge compound
    CHAN2024SentimentAnalyzer.lit_0_05 = true ->
  CHAN2024SentimentAnalyzer.float_le compound
    CHAN2024SentimentAnalyzer.lit_neg_0_05 = false.
Proof.
  destruct compound as [[] | [] | | [] m e]; simpl;
    try discriminate; reflexivity.
Qed.

(** C8. [analyze_sentiment] returns the compound score of the scorer together
    with exactly one of the labels positive, negative and neutral: positive
    if and only if compound >= 0.05, negative if and only if
    compound <= -0.05, neutral in the remaining case. *)
Theorem sentiment_label_thresholds :
  forall (polarity_compound : string -> spec_float) (text : string),
    let compound := polarity_compound text in
    let label :=
      snd (CHAN2024SentimentAnalyzer.analyze_sentiment polarity_compound text)
    in
    fst (CHAN2024SentimentAnalyzer.analyze_sentiment polarity_compound text)
    = compound
    /\ In label ["positive"; "negative"; "neutral"]
    /\ (label = "positive" <->
        CHAN2024SentimentAnalyzer.float_ge compound
          CHAN2024SentimentAnalyzer.lit_0_05 = true)
    /\ (label = "negative" <->
        CHAN2024SentimentAnalyzer.float_le compound
          CHAN2024SentimentAnalyzer.lit_neg_0_05 = true)
    /\ (label = "neutral" <->
        CHAN2024SentimentAnalyzer.float_ge compound
          CHAN2024SentimentAnalyzer.lit_0_05 = false
        /\ CHAN2024SentimentAnalyzer.float_le compound
             CHAN2024SentimentAnalyzer.lit_neg_0_05 = false).
Proof.
  intros polarity_compound text compound label.
  unfold label, CHAN2024SentimentAnalyzer.analyze_sentiment.
  cbv zeta. fold compound. cbn [fst snd].
  unfold CHAN2024SentimentAnalyzer.sentiment_label.
  pose proof (not_both_thresholds compound) as Hexcl.
  destruct (CHAN2024SentimentAnalyzer.float_ge compound _) eqn:Hge.
  - rewrite (Hexcl eq_refl).
    repeat split; try (simpl; tauto); try discriminate;
      intros [H _]; discriminate H.
  - destruct (CHAN2024SentimentAnalyzer.float_le compound _) eqn:Hle.
    + repeat split; try (simpl; tauto); try discriminate;
        intros [_ H]; discriminate H.
    + repeat split; try (simpl; tauto); discriminate.
Qed.

(** [lit_0_05] is a binary64 value, and the one nearest to 1/20: with
    mantissa [m] and exponent -57, [m * 2^-57] is within half a unit in the
    last place of 1/20, that is [2 * |20 * m - 2^57| < 20]. *)
Example lit_0_05_is_the_literal :
  valid_binary 53 1024 CHAN2024SentimentAnalyzer.lit_0_05 = true
  /\ CHAN2024SentimentAnalyzer.lit_0_05
     = S754_finite false 7205759403792794 (-57)
  /\ (2 * Z.abs (20 * 7205759403792794 - 2 ^ 57) < 20)%Z.
Proof. repeat split. Qed.

Example sentiment_label_boundaries :
  CHAN2024SentimentAnalyzer.sentiment_label
    CHAN2024SentimentAnalyzer.lit_0_05 = "positive"
  /\ CHAN2024SentimentAnalyzer.sentiment_label
       CHAN2024SentimentAnalyzer.lit_neg_0_05 = "negative"
  /\ CHAN2024SentimentAnalyzer.sentiment_label (S754_zero false) = "neutral"
  /\ CHAN2024SentimentAnalyzer.sentiment_label S754_nan = "neutral".
Proof. repeat split; reflexivity. Qed.

(** ** The tweet store *)

Lemma has_tweet_id_In (tweets : list DatabaseManager.row) (id : string) :
  DatabaseManager.has_tweet_id tweets id = true
  <-> In id (map DatabaseManager.col_tweet_id tweets).
Proof.
  unfold DatabaseManager.has_tweet_id. rewrite existsb_exists, in_map_iff.
  split.
  - intros [r [Hr Heq]]. apply String.eqb_eq in Heq. now exists r.
  - intros [r [Heq Hr]]. exists r. split; [exact Hr |].
    now apply String.eqb_eq.
Qed.

Lemma adapt_str_Some (s s' : string) :
  DatabaseManager.adapt_str s = Some s' -> s' = s.
Proof.
  unfold DatabaseManager.adapt_str.
  destruct (DatabaseManager.has_nul s); [discriminate | congruence].
Qed.

Lemma all_accepted_adapt_str (l l' : list string) :
  DatabaseManager.all_accepted DatabaseManager.adapt_str l = Some l' ->
  l' = l.
Proof.
  revert l'. induction l as [| a l IH]; intros l'; simpl.
  - congruence.
  - destruct (DatabaseManager.adapt_str a) as [b |] eqn:Ha; [| discriminate].
    destruct (DatabaseManager.all_accepted _ l) as [l'' |]; [| discriminate].
    intros H. injection H as <-. apply adapt_str_Some in Ha.
    now rewrite Ha, (IH l'' eq_refl).
Qed.

Lemma str_take_length (n : nat) (s : string) :
  String.length (Re.str_take n s) <= n.
Proof.
  revert s. induction n as [| n IH]; intros [| c s]; simpl; try lia.
  specialize (IH s). lia.
Qed.

Lemma varchar_length (n : nat) (s s' : string) :
  DatabaseManager.varchar n s = Some s' -> String.length s' <= n.
Proof.
  unfold DatabaseManager.varchar.
  destruct (String.length s <=? n) eqn:Hlen.
  - intros H. injection H as <-. now apply Nat.leb_le.
  - destruct (DatabaseManager.all_spaces _); [| discriminate].
    intros H. injection H as <-. apply str_take_length.
Qed.

Lemma varchar_fits (n : nat) (s : string) :
  String.length s <= n -> DatabaseManager.varchar n s = Some s.
Proof.
  intros H. unfold DatabaseManager.varchar.
  apply Nat.leb_le in H. now rewrite H.
Qed.

Lemma integer_Some (n n' : Z) :
  DatabaseManager.integer n = Some n' ->
  n' = n /\ (-2147483648 <= n <= 2147483647)%Z.
Proof.
  unfold DatabaseManager.integer.
  destruct ((-2147483648 <=? n)%Z && (n <=? 2147483647)%Z) eqn:H;
    [| discriminate].
  intros E. injection E as <-. apply andb_true_iff in H. lia.
Qed.

Lemma hundredths_floor_nonneg (m : positive) (e : Z) :
  (0 <= DatabaseManager.hundredths_floor m e)%Z.
Proof.
  unfold DatabaseManager.hundredths_floor.
  destruct (0 <=? e)%Z eqn:He.
  - apply Z.leb_le in He.
    assert (0 < 2 ^ e)%Z by (apply Z.pow_pos_nonneg; lia). nia.
  - apply Z.leb_gt in He.
    assert (0 < 2 ^ (- e))%Z by (apply Z.pow_pos_nonneg; lia).
    apply Z.div_pos; lia.
Qed.

(** A stored score is NaN or lies between -9.99 and 9.99. *)
Lemma numeric_3_2_range (x : spec_float) (k : Z) :
  DatabaseManager.numeric_3_2 x = Some (DatabaseManager.Numeric k) ->
  (-1000 < k < 1000)%Z.
Proof.
  destruct x as [z | i | | sign m e]; simpl; try discriminate.
  - intros H. injection H as <-. lia.
  - destruct (DatabaseManager.round_repr m e <? 1000)%Z eqn:Hk;
      [| discriminate].
    apply Z.ltb_lt in Hk.
    assert (Hpos : (0 <= DatabaseManager.round_repr m e)%Z).
    { unfold DatabaseManager.round_repr. cbv zeta.
      pose proof (hundredths_floor_nonneg m e).
      destruct (SFeqb _ _); [lia |].
      destruct (DatabaseManager.above_half m e); lia. }
    intros H. injection H as <-. destruct sign; lia.
Qed.

(** The columns of the row the database makes of a record: each value as
    its column takes it. *)
Lemma row_of_tweet_columns (timestamp_in : string -> option Z)
    (tweet : DatabaseManager.tweet_data) (r : DatabaseManager.row) :
  row_of_tweet timestamp_in tweet = Some r ->
  DatabaseManager.varchar 50 (DatabaseManager.tweet_id tweet)
  = Some (DatabaseManager.col_tweet_id r)
  /\ DatabaseManager.col_text r = DatabaseManager.text tweet
  /\ DatabaseManager.nullable (DatabaseManager.varchar 50)
       (DatabaseManager.author_id tweet)
     = Some (DatabaseManager.col_author_id r)
  /\ DatabaseManager.nullable timestamp_in (DatabaseManager.created_at tweet)
     = Some (DatabaseManager.col_created_at r)
  /\ DatabaseManager.col_hashtags r
     = DatabaseManager.get_default (DatabaseManager.hashtags tweet) []
  /\ DatabaseManager.varchar 20 (DatabaseManager.country tweet)
     = Some (DatabaseManager.col_country r)
  /\ DatabaseManager.numeric_3_2 (DatabaseManager.sentiment_score tweet)
     = Some (DatabaseManager.col_sentiment_score r)
  /\ DatabaseManager.varchar 20 (DatabaseManager.sentiment_label tweet)
     = Some (DatabaseManager.col_sentiment_label r)
  /\ DatabaseManager.integer
       (DatabaseManager.get_default (DatabaseManager.retweet_count tweet) 0%Z)
     = Some (DatabaseManager.col_retweet_count r)
  /\ DatabaseManager.integer
       (DatabaseManager.get_default (DatabaseManager.like_count tweet) 0%Z)
     = Some (DatabaseManager.col_like_count r)
  /\ DatabaseManager.integer
       (DatabaseManager.get_default (DatabaseManager.reply_count tweet) 0%Z)
     = Some (DatabaseManager.col_reply_count r)
  /\ DatabaseManager.col_is_shared_content r
     = DatabaseManager.is_shared_of tweet.
Proof.
  unfold row_of_tweet, DatabaseManager.row_of_values, DatabaseManager.bind,
    DatabaseManager.insert_params.
  cbn [DatabaseManager.val_tweet_id DatabaseManager.val_text
       DatabaseManager.val_author_id DatabaseManager.val_created_at
       DatabaseManager.val_hashtags DatabaseManager.val_country
       DatabaseManager.val_sentiment_score DatabaseManager.val_sentiment_label
       DatabaseManager.val_retweet_count DatabaseManager.val_like_count
       DatabaseManager.val_reply_count DatabaseManager.val_is_shared].
  destruct (DatabaseManager.adapt_str (DatabaseManager.tweet_id tweet))
    as [id |] eqn:Hid; [| discriminate].
  apply adapt_str_Some in Hid. subst id.
  destruct (DatabaseManager.varchar 50 (DatabaseManager.tweet_id tweet))
    as [id |]; [| discriminate].
  destruct (DatabaseManager.adapt_str (DatabaseManager.text tweet))
    as [txt |] eqn:Htxt; [| discriminate].
  apply adapt_str_Some in Htxt. subst txt.
  destruct (DatabaseManager.nullable _ (DatabaseManager.author_id tweet))
    as [author |] eqn:Hauthor; [| discriminate].
  destruct (DatabaseManager.nullable _ (DatabaseManager.created_at tweet))
    as [created |] eqn:Hcreated; [| discriminate].
  destruct (DatabaseManager.all_accepted _ _) as [tags |] eqn:Htags;
    [| discriminate].
  apply all_accepted_adapt_str in Htags. subst tags.
  destruct (DatabaseManager.adapt_str (DatabaseManager.country tweet))
    as [c |] eqn:Hc; [| discriminate].
  apply adapt_str_Some in Hc. subst c.
  destruct (DatabaseManager.varchar 20 (DatabaseManager.country tweet))
    as [c |]; [| discriminate].
  destruct (DatabaseManager.numeric_3_2 _) as [score |]; [| discriminate].
  destruct (DatabaseManager.adapt_str (DatabaseManager.sentiment_label tweet))
    as [l |] eqn:Hl; [| discriminate].
  apply adapt_str_Some in Hl. subst l.
  destruct (DatabaseManager.varchar 20 (DatabaseManager.sentiment_label tweet))
    as [l |]; [| discriminate].
  destruct (DatabaseManager.integer
              (DatabaseManager.get_default
                 (DatabaseManager.retweet_count tweet) 0%Z))
    as [rc |]; [| discriminate].
  destruct (DatabaseManager.integer
              (DatabaseManager.get_default
                 (DatabaseManager.like_count tweet) 0%Z))
    as [lc |]; [| discriminate].
  destruct (DatabaseManager.integer
              (DatabaseManager.get_default
                 (DatabaseManager.reply_count tweet) 0%Z))
    as [pc |]; [| discriminate].
  intros H. injection H as <-. simpl.
  repeat split.
  - destruct (DatabaseManager.author_id tweet) as [a |]; simpl in *;
      [| exact Hauthor].
    destruct (DatabaseManager.adapt_str a) as [a' |] eqn:Ha; simpl in *;
      [| discriminate].
    apply adapt_str_Some in Ha. now subst a'.
  - destruct (DatabaseManager.created_at tweet) as [t |]; simpl in *;
      [| exact Hcreated].
    destruct (DatabaseManager.adapt_str t) as [t' |] eqn:Ht; simpl in *;
      [| discriminate].
    apply adapt_str_Some in Ht. now subst t'.
Qed.

(** What the database accepts lies within the bounds of the columns. *)
Lemma row_of_tweet_in_range (timestamp_in : string -> option Z)
    (tweet : DatabaseManager.tweet_data) (r : DatabaseManager.row) :
  row_of_tweet timestamp_in tweet = Some r -> row_in_range r.
Proof.
  intros H. apply row_of_tweet_columns in H.
  destruct H as [Hid [_ [Hauthor [_ [_ [Hc [Hscore [Hl [Hrc [Hlc [Hpc _]]]]]]]]]]].
  apply integer_Some in Hrc, Hlc, Hpc.
  unfold row_in_range.
  destruct Hrc as [-> Hrc]. destruct Hlc as [-> Hlc]. destruct Hpc as [-> Hpc].
  split; [exact (varchar_length _ _ _ Hid) |].
  split.
  { intros a Ha. rewrite Ha in Hauthor.
    destruct (DatabaseManager.author_id tweet) as [a0 |]; simpl in Hauthor;
      [| discriminate].
    destruct (DatabaseManager.varchar 50 a0) as [a1 |] eqn:Hv; simpl in Hauthor;
      [| discriminate].
    injection Hauthor as ->. exact (varchar_length _ _ _ Hv). }
  split; [exact (varchar_length _ _ _ Hc) |].
  split; [exact (varchar_length _ _ _ Hl) |].
  split.
  { intros k Hk. rewrite Hk in Hscore.
    exact (numeric_3_2_range _ _ Hscore). }
  split; [exact Hrc | split; [exact Hlc | exact Hpc]].
Qed.

(** [insert_tweet] over an open connection, by what the database makes of the
    record. *)
Lemma insert_tweet_open (timestamp_in : string -> option Z)
    (tweets : list DatabaseManager.row) (tweet : DatabaseManager.tweet_data) :
  DatabaseManager.insert_tweet timestamp_in DatabaseManager.ConnectionOpen
    tweets tweet
  = match row_of_tweet timestamp_in tweet with
    | Some r => Some (table_after tweets r, true)
    | None => Some (tweets, false)
    end.
Proof.
  unfold DatabaseManager.insert_tweet, DatabaseManager.execute_insert,
    row_of_tweet, table_after. cbv zeta.
  destruct (DatabaseManager.row_of_values _ _) as [r |]; [| reflexivity].
  now destruct (DatabaseManager.has_tweet_id tweets _).
Qed.

(** Over a closed connection the exception leaves [insert_tweet]. *)
Lemma insert_tweet_closed (timestamp_in : string -> option Z)
    (tweets : list DatabaseManager.row) (tweet : DatabaseManager.tweet_data) :
  DatabaseManager.insert_tweet timestamp_in DatabaseManager.ConnectionClosed
    tweets tweet = None.
Proof. reflexivity. Qed.

Lemma table_after_has_id (tweets : list DatabaseManager.row)
    (r : DatabaseManager.row) :
  DatabaseManager.has_tweet_id (table_after tweets r)
    (DatabaseManager.col_tweet_id r) = true.
Proof.
  unfold table_after.
  destruct (DatabaseManager.has_tweet_id tweets _) eqn:Hdup; [exact Hdup |].
  unfold DatabaseManager.has_tweet_id. rewrite existsb_app. simpl.
  rewrite String.eqb_refl. apply orb_true_iff. right. reflexivity.
Qed.

Lemma table_after_idempotent (tweets : list DatabaseManager.row)
    (r : DatabaseManager.row) :
  table_after (table_after tweets r) r = table_after tweets r.
Proof.
  unfold table_after at 1. now rewrite table_after_has_id.
Qed.

Lemma table_after_NoDup (tweets : list DatabaseManager.row)
    (r : DatabaseManager.row) :
  NoDup (map DatabaseManager.col_tweet_id tweets) ->
  NoDup (map DatabaseManager.col_tweet_id (table_after tweets r)).
Proof.
  intros Hnd. unfold table_after.
  destruct (DatabaseManager.has_tweet_id tweets _) eqn:Hdup; [exact Hnd |].
  rewrite map_app. simpl.
  apply NoDup_app; [exact Hnd | repeat constructor; intros [] |].
  intros id Hin [<- | []].
  apply has_tweet_id_In in Hin. congruence.
Qed.

(** Rows within the bounds of the columns stay so. *)
Lemma insert_tweet_keeps_rows_in_range (timestamp_in : string -> option Z)
    (connection : DatabaseManager.connection_status)
    (tweets tweets' : list DatabaseManager.row)
    (tweet : DatabaseManager.tweet_data) (success : bool) :
  Forall row_in_range tweets ->
  DatabaseManager.insert_tweet timestamp_in connection tweets tweet
  = Some (tweets', success) ->
  Forall row_in_range tweets'.
Proof.
  intros Hall. destruct connection; [| discriminate].
  rewrite insert_tweet_open.
  destruct (row_of_tweet timestamp_in tweet) as [r |] eqn:Hr.
  - intros H. injection H as <- _. unfold table_after.
    destruct (DatabaseManager.has_tweet_id tweets _); [exact Hall |].
    apply Forall_app. split; [exact Hall |].
    constructor; [exact (row_of_tweet_in_range _ _ _ Hr) | constructor].
  - intros H. injection H as <- _. exact Hall.
Qed.

(** Without the ON CONFLICT clause the same INSERT of a present tweet id is
    an error. *)
Lemma duplicate_without_clause_raises (timestamp_in : string -> option Z)
    (tweets : list DatabaseManager.row) (v : DatabaseManager.insert_values)
    (r : DatabaseManager.row) :
  DatabaseManager.row_of_values timestamp_in v = Some r ->
  DatabaseManager.has_tweet_id tweets (DatabaseManager.col_tweet_id r) = true ->
  DatabaseManager.execute_insert timestamp_in DatabaseManager.NoClause tweets v
  = None.
Proof.
  intros Hr H. unfold DatabaseManager.execute_insert. now rewrite Hr, H.
Qed.

(** The claim C9 fails for a record that a column cannot hold: a fresh tweet
    id of 51 characters is not stored and [insert_tweet] returns [False]; and
    a record whose tweet id is stored but whose like count is 2^31 is
    answered by [False], not by [True]. *)
Lemma unfit_record_is_refused :
  DatabaseManager.has_tweet_id []
    (DatabaseManager.tweet_id long_id_tweet) = false
  /\ DatabaseManager.insert_tweet sample_timestamp_in
       DatabaseManager.ConnectionOpen [] long_id_tweet
     = Some ([], false)
  /\ DatabaseManager.has_tweet_id [pamoja_row]
       (DatabaseManager.tweet_id many_likes_tweet) = true
  /\ DatabaseManager.insert_tweet sample_timestamp_in
       DatabaseManager.ConnectionOpen [pamoja_row] many_likes_tweet
     = Some ([pamoja_row], false).
Proof. repeat split; vm_compute; reflexivity. Qed.

(** C9. Over an open connection and for a record that the columns of
    [tweets] can hold, [insert_tweet] on a tweet id that is already stored
    leaves the table as it is and returns [True]; on a fresh tweet id it
    appends one row and returns [True].  The row holds each value of the
    record as its column takes it (the text and the hashtags as they are, the
    strings of the VARCHAR columns, the score rounded to hundredths, the
    timestamp read, the counts, zero for a missing one), and its
    [is_shared_content] is true exactly when the record's country is Pamoja or
    CHAN-General.  A record that some column cannot hold is not stored and the
    call returns [False].  In every case a table without two rows of the same
    tweet id stays so. *)
Theorem insert_tweet_unique_by_id :
  forall (timestamp_in : string -> option Z)
         (tweets : list DatabaseManager.row)
         (tweet : DatabaseManager.tweet_data),
    let inserted :=
      DatabaseManager.insert_tweet timestamp_in DatabaseManager.ConnectionOpen
        tweets tweet in
    match row_of_tweet timestamp_in tweet with
    | Some r =>
        (DatabaseManager.has_tweet_id tweets (DatabaseManager.col_tweet_id r)
         = true -> inserted = Some (tweets, true))
        /\ (DatabaseManager.has_tweet_id tweets (DatabaseManager.col_tweet_id r)
            = false -> inserted = Some (tweets ++ [r], true))
        /\ (DatabaseManager.col_is_shared_content r = true <->
            DatabaseManager.country tweet = "Pamoja"
            \/ DatabaseManager.country tweet = "CHAN-General")
        /\ DatabaseManager.varchar 50 (DatabaseManager.tweet_id tweet)
           = Some (DatabaseManager.col_tweet_id r)
        /\ (String.length (DatabaseManager.tweet_id tweet) <= 50 ->
            DatabaseManager.col_tweet_id r = DatabaseManager.tweet_id tweet)
        /\ DatabaseManager.col_text r = DatabaseManager.text tweet
        /\ DatabaseManager.nullable (DatabaseManager.varchar 50)
             (DatabaseManager.author_id tweet)
           = Some (DatabaseManager.col_author_id r)
        /\ DatabaseManager.nullable timestamp_in
             (DatabaseManager.created_at tweet)
           = Some (DatabaseManager.col_created_at r)
        /\ DatabaseManager.col_hashtags r
           = DatabaseManager.get_default (DatabaseManager.hashtags tweet) []
        /\ DatabaseManager.varchar 20 (DatabaseManager.country tweet)
           = Some (DatabaseManager.col_country r)
        /\ DatabaseManager.numeric_3_2 (DatabaseManager.sentiment_score tweet)
           = Some (DatabaseManager.col_sentiment_score r)
        /\ DatabaseManager.varchar 20 (DatabaseManager.sentiment_label tweet)
           = Some (DatabaseManager.col_sentiment_label r)
        /\ DatabaseManager.col_retweet_count r
           = DatabaseManager.get_default
               (DatabaseManager.retweet_count tweet) 0%Z
        /\ DatabaseManager.col_like_count r
           = DatabaseManager.get_default (DatabaseManager.like_count tweet) 0%Z
        /\ DatabaseManager.col_reply_count r
           = DatabaseManager.get_default
               (DatabaseManager.reply_count tweet) 0%Z
        /\ row_in_range r
    | None => inserted = Some (tweets, false)
    end
    /\ (NoDup (map DatabaseManager.col_tweet_id tweets) ->
        forall tweets' success,
          inserted = Some (tweets', success) ->
          NoDup (map DatabaseManager.col_tweet_id tweets')).
Proof.
  intros timestamp_in tweets tweet inserted. unfold inserted.
  rewrite insert_tweet_open. split.
  - destruct (row_of_tweet timestamp_in tweet) as [r |] eqn:Hr;
      [| reflexivity].
    pose proof (row_of_tweet_in_range _ _ _ Hr) as Hrange.
    apply row_of_tweet_columns in Hr.
    destruct Hr as [Hid [Htxt [Hauthor [Hcreated [Htags [Hc [Hscore [Hl
                     [Hrc [Hlc [Hpc Hflag]]]]]]]]]]].
    unfold table_after.
    split; [intros H; now rewrite H |].
    split; [intros H; now rewrite H |].
    split.
    { rewrite Hflag. unfold DatabaseManager.is_shared_of.
      rewrite list_in_In. simpl. intuition congruence. }
    split; [exact Hid |].
    split.
    { intros Hlen. rewrite (varchar_fits _ _ Hlen) in Hid. congruence. }
    split; [exact Htxt |].
    split; [exact Hauthor |].
    split; [exact Hcreated |].
    split; [exact Htags |].
    split; [exact Hc |].
    split; [exact Hscore |].
    split; [exact Hl |].
    split; [exact (proj1 (integer_Some _ _ Hrc)) |].
    split; [exact (proj1 (integer_Some _ _ Hlc)) |].
    split; [exact (proj1 (integer_Some _ _ Hpc)) |].
    exact Hrange.
  - intros Hnd tweets' success.
    destruct (row_of_tweet timestamp_in tweet) as [r |].
    + intros H. injection H as <- _. now apply table_after_NoDup.
    + intros H. injection H as <- _. exact Hnd.
Qed.

Lemma insert_tweet_unique_by_id_witness :
  row_of_tweet sample_timestamp_in pamoja_tweet = Some pamoja_row
  /\ DatabaseManager.insert_tweet sample_timestamp_in
       DatabaseManager.ConnectionOpen [] pamoja_tweet
     = Some ([pamoja_row], true)
  /\ DatabaseManager.insert_tweet sample_timestamp_in
       DatabaseManager.ConnectionOpen [pamoja_row] pamoja_tweet
     = Some ([pamoja_row], true)
  /\ NoDup (map DatabaseManager.col_tweet_id [pamoja_row]).
Proof.
  assert (Hrow : row_of_tweet sample_timestamp_in pamoja_tweet
                 = Some pamoja_row) by (vm_compute; reflexivity).
  pose proof (insert_tweet_unique_by_id sample_timestamp_in [] pamoja_tweet)
    as Hfresh.
  pose proof (insert_tweet_unique_by_id sample_timestamp_in [pamoja_row]
                pamoja_tweet) as Hdup.
  cbv zeta in Hfresh, Hdup. rewrite Hrow in Hfresh, Hdup.
  destruct Hfresh as [[_ [Hfresh _]] Hnd].
  destruct Hdup as [[Hdup _] _].
  split; [exact Hrow |].
  split; [exact (Hfresh eq_refl) |].
  split; [exact (Hdup eq_refl) |].
  exact (Hnd (NoDup_nil _) _ _ (Hfresh eq_refl)).
Defined.

(** ** Ties between countries *)

Lemma position_app_notin (c : string) (l1 l2 : list string) :
  ~ In c l1 -> position c (l1 ++ l2) = List.length l1 + position c l2.
Proof.
  induction l1 as [| k l1 IH]; intros Hn; simpl; [reflexivity |].
  destruct (String.eqb_spec k c) as [-> | Hne].
  - exfalso. apply Hn. now left.
  - rewrite IH; [reflexivity |]. intros H. apply Hn. now right.
Qed.

Lemma position_app_le (w : string) (l1 l2 : list string) :
  position w (l1 ++ w :: l2) <= List.length l1.
Proof.
  induction l1 as [| k l1 IH]; simpl.
  - now rewrite String.eqb_refl.
  - destruct (String.eqb k w); lia.
Qed.

Lemma position_filter_mono (p : string -> bool) (l : list string)
    (w c : string) :
  In w (filter p l) -> In c (filter p l) ->
  position w (filter p l) <= position c (filter p l) ->
  position w l <= position c l.
Proof.
  induction l as [| k l IH]; simpl; [intros [] |].
  destruct (p k) eqn:Hp; simpl.
  - destruct (String.eqb_spec k w) as [-> | Hw]; [lia |].
    destruct (String.eqb_spec k c) as [-> | Hc]; [lia |].
    intros [Hk | Hin] [Hk' | Hin']; try congruence.
    intros H. apply le_n_S, IH; [assumption | assumption | lia].
  - intros Hin Hin' H.
    assert (Hw : k <> w).
    { intros ->. apply filter_In in Hin. destruct Hin. congruence. }
    assert (Hc : k <> c).
    { intros ->. apply filter_In in Hin'. destruct Hin'. congruence. }
    apply String.eqb_neq in Hw, Hc. rewrite Hw, Hc.
    apply le_n_S. now apply IH.
Qed.

(** [max(d, key=d.get)] answers the first key, in the insertion order of
    [d], among those with the maximal value. *)
Lemma dict_max_key_first (d : Dict.t nat) (w : string) :
  Dict.max_key d = Some w -> first_max_in (Dict.keys d) d w.
Proof.
  unfold Dict.max_key, first_max_in.
  generalize (Dict.keys d). intros keys H.
  pose proof (max_key_In _ _ _ H) as Hin.
  destruct keys as [| k ks]; [discriminate |].
  simpl in H. injection H as Hw.
  destruct (max_from_split (fun k => Dict.get d k 0) ks k)
    as [before [after [Hsplit [Hb Ha]]]].
  rewrite Hw in Hsplit, Hb, Ha. rewrite Hsplit in *.
  split; [exact Hin |].
  intros c Hc. apply in_app_or in Hc.
  destruct Hc as [Hc | [<- | Hc]].
  - specialize (Hb c Hc). cbv beta in Hb. split; lia.
  - split; [lia | intros _; lia].
  - specialize (Ha c Hc). cbv beta in Ha. split; [exact Ha |].
    intros Heq.
    assert (Hnot : ~ In c before).
    { intros Hcb. specialize (Hb c Hcb). cbv beta in Hb. lia. }
    rewrite (position_app_notin c before _ Hnot).
    pose proof (position_app_le w before after). lia.
Qed.

Lemma first_max_in_filter (p : string -> bool) (l : list string)
    (d : Dict.t nat) (w : string) :
  Dict.keys d = filter p l ->
  first_max_in (filter p l) d w -> first_max_in l d w.
Proof.
  intros Hkeys [Hin H]. split; [exact Hin |].
  intros c Hc. destruct (H c Hc) as [Hle Hpos]. split; [exact Hle |].
  intros Heq. rewrite Hkeys in Hin, Hc.
  apply (position_filter_mono p l w c Hin Hc (Hpos Heq)).
Qed.

(** The keys a scoring loop leaves in an empty dict, for a table of the three
    countries: those with a positive score, in declaration order. *)
Lemma score_loop_keys_in_order (score : list string -> nat)
    (ke ug tz : list string) :
  Dict.keys
    (fold_left
       (fun d '(c, ws) => if 0 <? score ws then Dict.set d c (score ws) else d)
       [("Kenya", ke); ("Uganda", ug); ("Tanzania", tz)] Dict.empty)
  = filter
      (fun c => 0 <? score (Dict.get [("Kenya", ke); ("Uganda", ug);
                                      ("Tanzania", tz)] c []))
      ["Kenya"; "Uganda"; "Tanzania"].
Proof.
  simpl. destruct (0 <? score ke), (0 <? score ug), (0 <? score tz);
    reflexivity.
Qed.

(** The keys the keyword loop and then the venue loop leave in
    [country_scores]. *)
Lemma venue_loop_keys_in_order (kscore vscore : list string -> nat)
    (ke ug tz vke vug vtz : list string) :
  let keywords := [("Kenya", ke); ("Uganda", ug); ("Tanzania", tz)] in
  let venues := [("Kenya", vke); ("Uganda", vug); ("Tanzania", vtz)] in
  Dict.keys
    (fold_left
       (fun d '(c, vs) =>
          if 0 <? vscore vs then Dict.set d c (Dict.get d c 0 + vscore vs)
          else d)
       venues
       (fold_left
          (fun d '(c, ws) =>
             if 0 <? kscore ws then Dict.set d c (kscore ws) else d)
          keywords Dict.empty))
  = filter (fun c => 0 <? kscore (Dict.get keywords c []))
      ["Kenya"; "Uganda"; "Tanzania"]
    ++ filter (fun c => (kscore (Dict.get keywords c []) =? 0)
                        && (0 <? vscore (Dict.get venues c [])))
         ["Kenya"; "Uganda"; "Tanzania"].
Proof.
  simpl.
  destruct (kscore ke), (kscore ug), (kscore tz),
           (vscore vke), (vscore vug), (vscore vtz); reflexivity.
Qed.

Lemma country_scores_insertion_order (all_content : string) :
  Dict.keys (TextPreprocessor.country_scores_of all_content)
  = insertion_order all_content.
Proof.
  apply (venue_loop_keys_in_order
           (TextPreprocessor.keyword_score all_content)
           (TextPreprocessor.venue_score all_content)).
Qed.

(** C10, as stated, fails at the combined keyword and venue stage: on
    "thecranes kasarani" Uganda (two keywords) and Kenya (one venue) tie at
    2, Uganda was inserted first and is the verdict, although Kenya is
    declared first. *)
Lemma venue_tie_not_in_declaration_order :
  TextPreprocessor.all_content_of (Py.str_lower "thecranes kasarani")
    (map Py.str_lower []) = "thecranes kasarani "
  /\ TextPreprocessor.country_scores_of "thecranes kasarani "
     = [("Uganda", 2); ("Kenya", 2)]
  /\ classify "thecranes kasarani" [] = Some "Uganda"
  /\ ~ first_max_in declaration_order
         (TextPreprocessor.country_scores_of "thecranes kasarani ") "Uganda".
Proof.
  split; [reflexivity | split; [reflexivity | split; [reflexivity |]]].
  intros [_ H]. specialize (H "Kenya").
  assert (Hin : In "Kenya"
                  (Dict.keys
                     (TextPreprocessor.country_scores_of "thecranes kasarani ")))
    by (vm_compute; tauto).
  destruct (H Hin) as [_ Hpos].
  assert (Hle : position "Uganda" declaration_order
                <= position "Kenya" declaration_order)
    by (apply Hpos; reflexivity).
  vm_compute in Hle. lia.
Qed.

(** C10, amended. In the country-hashtag stage and in the keyword
    tie-break, a tie for the maximal score goes to the country declared
    first (Kenya, then Uganda, then Tanzania).  In the combined keyword and
    venue stage it goes to the country inserted first into [country_scores]:
    the countries with a keyword hit come first, those with venue hits only
    come after them, each group in declaration order. *)
Theorem ties_go_to_first_inserted :
  (forall (hashtags_lower : list string) (w : string),
      Dict.max_key (TextPreprocessor.country_hashtag_scores_of hashtags_lower)
      = Some w ->
      first_max_in declaration_order
        (TextPreprocessor.country_hashtag_scores_of hashtags_lower) w)
  /\ (forall (all_content : string) (w : string),
         Dict.max_key (TextPreprocessor.country_keyword_scores_of all_content)
         = Some w ->
         first_max_in declaration_order
           (TextPreprocessor.country_keyword_scores_of all_content) w)
  /\ (forall (all_content : string) (w : string),
         Dict.max_key (TextPreprocessor.country_scores_of all_content)
         = Some w ->
         first_max_in (insertion_order all_content)
           (TextPreprocessor.country_scores_of all_content) w).
Proof.
  split; [| split].
  - intros hl w H. apply dict_max_key_first in H.
    pose proof (score_loop_keys_in_order
                  (TextPreprocessor.hashtag_matches hl)
                  ["#chan2024"; "#totalenergieschan2024"; "#harambeestars"]
                  ["#totalenergieschan2024"; "#chan2024"; "#ugandacranes"]
                  ["#chan2024"; "#totalenergieschan2024"; "#taifastars"])
      as Hkeys.
    change (Dict.keys (TextPreprocessor.country_hashtag_scores_of hl) = 
            filter (fun c => 0 <? TextPreprocessor.hashtag_matches hl
                                    (Dict.get Config.COUNTRY_HASHTAGS c []))
              declaration_order) in Hkeys.
    apply (first_max_in_filter _ _ _ _ Hkeys). rewrite <- Hkeys. exact H.
  - intros content w H. apply dict_max_key_first in H.
    pose proof (score_loop_keys_in_order
                  (TextPreprocessor.keyword_score content)
                  ["kenya"; "harambee"; "stars"; "nairobi"; "teamkenya"; "ke";
                   "harambeefc"; "harambeestars"]
                  ["uganda"; "cranes"; "kampala"; "teamuganda"; "ug";
                   "thecranes"; "ugandacranes"]
                  ["tanzania"; "taifa"; "stars"; "dar"; "teamtanzania"; "tz";
                   "taifastars"; "simba"])
      as Hkeys.
    change (Dict.keys (TextPreprocessor.country_keyword_scores_of content) = 
            filter (fun c => 0 <? TextPreprocessor.keyword_score content
                                    (Dict.get Config.COUNTRY_KEYWORDS c []))
              declaration_order) in Hkeys.
    apply (first_max_in_filter _ _ _ _ Hkeys). rewrite <- Hkeys. exact H.
  - intros content w H. apply dict_max_key_first in H.
    now rewrite country_scores_insertion_order in H.
Qed.

Lemma ties_go_to_first_inserted_witness :
  first_max_in declaration_order
    (TextPreprocessor.country_hashtag_scores_of ["#chan2024"; "#eac"]) "Kenya"
  /\ first_max_in ["Uganda"; "Kenya"]
       (TextPreprocessor.country_scores_of "thecranes kasarani ") "Uganda".
Proof.
  split.
  - apply (proj1 ties_go_to_first_inserted). reflexivity.
  - apply (proj2 (proj2 ties_go_to_first_inserted) "thecranes kasarani ").
    reflexivity.
Defined.

(** ** Regular expressions *)

Lemma span_all (p : ascii -> bool) (s : string) :
  Forall (fun c => p c = true) (chars (Re.span p s)).
Proof.
  induction s as [| c s IH]; simpl; [constructor |].
  destruct (p c) eqn:Hp; simpl; [| constructor].
  constructor; assumption.
Qed.

Lemma span_length_le (p : ascii -> bool) (s : string) :
  String.length (Re.span p s) <= String.length s.
Proof.
  induction s as [| c s IH]; simpl; [lia |].
  destruct (p c); simpl; lia.
Qed.

Lemma take_span (p : ascii -> bool) (s : string) :
  Re.str_take (String.length (Re.span p s)) s = Re.span p s.
Proof.
  induction s as [| c s IH]; simpl; [reflexivity |].
  destruct (p c); simpl; [now rewrite IH | reflexivity].
Qed.

Lemma prefix_take (n : nat) (s : string) :
  String.prefix (Re.str_take n s) s = true.
Proof.
  revert n. induction s as [| c s IH]; intros [| n]; simpl; try reflexivity.
  destruct (ascii_dec c c) as [_ | Hne]; [apply IH | congruence].
Qed.

Lemma take_chars_incl (n : nat) (s : string) :
  incl (chars (Re.str_take n s)) (chars s).
Proof.
  revert n. induction s as [| c s IH]; intros [| n]; simpl; intros x Hx;
    try contradiction.
  destruct Hx as [<- | Hx]; [now left | right; now apply (IH n)].
Qed.

Lemma prefix_char (m b : ascii) (s : string) :
  String.prefix (String m EmptyString) (String b s)
  = if ascii_dec m b then true else false.
Proof.
  simpl. destruct (ascii_dec m b); [destruct s; reflexivity | reflexivity].
Qed.

(** A literal of one character followed by a run of a class, at the head of
    a string. *)
Lemma lit_then_char (p : ascii -> bool) (m : ascii) (s : string) (n : nat) :
  Re.lit_then p (String m EmptyString) s = Some n ->
  exists s', s = String m s'
             /\ Re.span p s' <> EmptyString
             /\ n = S (String.length (Re.span p s')).
Proof.
  unfold Re.lit_then. destruct s as [| b s']; [simpl; discriminate |].
  rewrite prefix_char. destruct (ascii_dec m b) as [<- | Hne];
    [| discriminate].
  cbn [String.length Re.str_drop].
  destruct (Re.span p s') as [| c w] eqn:Hspan; simpl; [discriminate |].
  intros H. injection H as <-. exists s'. rewrite Hspan.
  split; [reflexivity | split; [discriminate | reflexivity]].
Qed.

Lemma lit_then_char_other (p : ascii -> bool) (m c : ascii) (s : string) :
  m <> c -> Re.lit_then p (String m EmptyString) (String c s) = None.
Proof.
  intros Hne. unfold Re.lit_then. rewrite prefix_char.
  destruct (ascii_dec m c); [contradiction | reflexivity].
Qed.

(** What [findall] returns are the matches: each is a prefix, of the length
    the pattern gives, of a suffix of the string. *)
Lemma findall_match (match_at : string -> option nat) (s : string) :
  forall skip h,
    In h (Re.findall match_at skip s) ->
    exists suffix n,
      match_at suffix = Some (S n) /\ h = Re.str_take (S n) suffix
      /\ incl (chars suffix) (chars s)
      /\ Py.str_in h s = true.
Proof.
  induction s as [| c s IH]; intros skip h Hin; [destruct Hin |].
  assert (Hrec : forall k, In h (Re.findall match_at k s) ->
            exists suffix n,
              match_at suffix = Some (S n) /\ h = Re.str_take (S n) suffix
              /\ incl (chars suffix) (chars (String c s))
              /\ Py.str_in h (String c s) = true).
  { intros k Hk. destruct (IH k h Hk) as [suffix [n [Hm [Hh [Hincl Hsub]]]]].
    exists suffix, n. repeat split; try assumption.
    - intros x Hx. right. now apply Hincl.
    - simpl. rewrite Hsub. apply orb_true_r. }
  simpl in Hin. destruct skip as [| k]; [| now apply (Hrec k)].
  destruct (match_at (String c s)) as [[| n] |] eqn:Hm;
    try (now apply (Hrec 0)).
  destruct Hin as [<- | Hin]; [| now apply (Hrec n)].
  exists (String c s), n. repeat split; try assumption.
  - apply incl_refl.
  - pose proof (prefix_take (S n) (String c s)) as Hp.
    destruct s; simpl in *; rewrite Hp; reflexivity.
Qed.

Lemma str_lower_fixed (s : string) :
  Forall (fun c => Py.ascii_lower c = c) (chars s) -> Py.str_lower s = s.
Proof.
  induction s as [| c s IH]; simpl; intros H; [reflexivity |].
  inversion H as [| ? ? Hc Hs]; subst. now rewrite Hc, IH.
Qed.

Lemma str_lower_chars (s : string) :
  Forall (fun c => Py.ascii_lower c = c) (chars (Py.str_lower s)).
Proof.
  induction s as [| c s IH]; simpl; constructor;
    [apply ascii_lower_idempotent | exact IH].
Qed.

Lemma str_lower_app (a b : string) :
  Py.str_lower (a ++ b) = (Py.str_lower a ++ Py.str_lower b)%string.
Proof.
  induction a as [| c a IH]; simpl; [reflexivity | now rewrite IH].
Qed.

(** X1. Every hashtag returned by [extract_hashtags] is the character "#"
    followed by at least one word character and nothing else, and every
    mention returned by [extract_mentions] is "@" followed by at least one
    word character; whatever [str.lower] and the class [\w] are. *)
Theorem extracted_tokens_shape :
  forall (lower : string -> string) (word : ascii -> bool) (t h : string),
    (In h (TextPreprocessor.extract_hashtags lower word t) ->
     exists w, h = String "#" w /\ w <> EmptyString
               /\ Forall (fun c => word c = true) (chars w))
    /\ (In h (TextPreprocessor.extract_mentions lower word t) ->
        exists w, h = String "@" w /\ w <> EmptyString
                  /\ Forall (fun c => word c = true) (chars w)).
Proof.
  intros lower word t h.
  unfold TextPreprocessor.extract_hashtags, TextPreprocessor.extract_mentions.
  split; intros Hin;
    destruct (findall_match _ _ _ _ Hin) as [suffix [n [Hm [Hh _]]]];
    destruct (lit_then_char _ _ _ _ Hm) as [s' [-> [Hne Hn]]];
    injection Hn as ->;
    exists (Re.span word s');
    (split; [rewrite Hh; simpl; now rewrite take_span
            | split; [exact Hne | apply span_all]]).
Qed.

Lemma extracted_tokens_shape_witness :
  exists w, "#chan2024" = String "#" w /\ w <> EmptyString
            /\ Forall (fun c => Re.ascii_word c = true) (chars w).
Proof.
  apply (proj1 (extracted_tokens_shape Py.str_lower Re.ascii_word
                  "Go #CHAN2024!" "#chan2024")).
  vm_compute. tauto.
Defined.

(** X2. Every hashtag returned by [extract_hashtags] occurs in the
    lower-cased text as a substring, and so does every mention. *)
Theorem extracted_tokens_occur_in_text :
  forall (lower : string -> string) (word : ascii -> bool) (t h : string),
    In h (TextPreprocessor.extract_hashtags lower word t)
    \/ In h (TextPreprocessor.extract_mentions lower word t) ->
    Py.str_in h (lower t) = true.
Proof.
  intros lower word t h [Hin | Hin];
    destruct (findall_match _ _ _ _ Hin) as [_ [_ [_ [_ [_ Hsub]]]]];
    exact Hsub.
Qed.

Lemma extracted_tokens_occur_in_text_witness :
  Py.str_in "#chan2024" (Py.str_lower "Go #CHAN2024!") = true.
Proof.
  apply (extracted_tokens_occur_in_text Py.str_lower Re.ascii_word
           "Go #CHAN2024!" "#chan2024").
  left. vm_compute. tauto.
Defined.

Lemma findall_chars (match_at : string -> option nat) (P : ascii -> Prop)
    (s : string) (skip : nat) (h : string) :
  Forall P (chars s) -> In h (Re.findall match_at skip s) ->
  Forall P (chars h).
Proof.
  intros HP Hin.
  destruct (findall_match _ _ _ _ Hin) as [suffix [n [_ [-> [Hincl _]]]]].
  rewrite Forall_forall in *. intros x Hx.
  apply HP, Hincl. exact (take_chars_incl _ _ x Hx).
Qed.

(** X3. The hashtags that [extract_hashtags] returns are lower-case: on ASCII
    text, lower-casing them again, as line 47 of [categorize_country] does,
    gives back the same list. *)
Theorem extracted_hashtags_are_lowercase :
  forall (word : ascii -> bool) (t : string),
    map Py.str_lower (TextPreprocessor.extract_hashtags Py.str_lower word t)
    = TextPreprocessor.extract_hashtags Py.str_lower word t.
Proof.
  intros word t. rewrite <- (map_id (TextPreprocessor.extract_hashtags _ _ t))
    at 2.
  apply map_ext_in. intros h Hin. apply str_lower_fixed.
  unfold TextPreprocessor.extract_hashtags in Hin.
  apply (findall_chars _ _ _ _ _ (str_lower_chars t) Hin).
Qed.

Lemma span_app_stop (p : ascii -> bool) (a : string) (c : ascii) (b : string) :
  p c = false -> Re.span p (a ++ String c b) = Re.span p a.
Proof.
  intros Hc. induction a as [| x a IH]; simpl; [now rewrite Hc |].
  destruct (p x); [now rewrite IH | reflexivity].
Qed.

Lemma take_app (n : nat) (a b : string) :
  n <= String.length a -> Re.str_take n (a ++ b) = Re.str_take n a.
Proof.
  revert n. induction a as [| x a IH]; intros [| n] Hn; simpl in *;
    try reflexivity; try lia.
  rewrite IH; [reflexivity | lia].
Qed.

Lemma lit_then_char_app (p : ascii -> bool) (m x c : ascii) (a b : string) :
  p c = false ->
  Re.lit_then p (String m EmptyString) (String x (a ++ String c b))
  = Re.lit_then p (String m EmptyString) (String x a).
Proof.
  intros Hc. unfold Re.lit_then. rewrite !prefix_char.
  destruct (ascii_dec m x); [| reflexivity].
  cbn [String.length Re.str_drop]. now rewrite span_app_stop.
Qed.

(** A match does not run over a character outside the class: the matches in
    [a] followed by such a character and [b] are those in [a], then those in
    the rest. *)
Lemma findall_app (p : ascii -> bool) (m c : ascii) (b : string) :
  p c = false ->
  forall a skip,
    skip <= String.length a ->
    Re.findall (Re.lit_then p (String m EmptyString)) skip (a ++ String c b)
    = Re.findall (Re.lit_then p (String m EmptyString)) skip a
      ++ Re.findall (Re.lit_then p (String m EmptyString)) 0 (String c b).
Proof.
  intros Hc. induction a as [| x a IH]; intros skip Hskip.
  - simpl in Hskip. assert (skip = 0) as -> by lia. reflexivity.
  - change (String x a ++ String c b)%string
      with (String x (a ++ String c b)).
    cbn [Re.findall]. destruct skip as [| k].
    + rewrite (lit_then_char_app p m x c a b Hc).
      destruct (Re.lit_then p (String m EmptyString) (String x a))
        as [[| n] |] eqn:Hm; try (apply IH; lia).
      destruct (lit_then_char _ _ _ _ Hm) as [s' [Hs [_ Hn]]].
      injection Hs as _ <-. injection Hn as ->.
      pose proof (span_length_le p a) as Hle.
      cbn [Re.str_take]. rewrite (take_app _ a (String c b) Hle).
      rewrite (IH _ Hle). reflexivity.
    + apply IH. simpl in Hskip. lia.
Qed.

(** X4. On ASCII text, the hashtags of two texts joined by a space are the
    hashtags of the first followed by the hashtags of the second, and
    likewise for the mentions (the space not being a word character). *)
Theorem tokens_of_joined_texts :
  forall (word : ascii -> bool) (a b : string),
    word " "%char = false ->
    TextPreprocessor.extract_hashtags Py.str_lower word (a ++ " " ++ b)
    = TextPreprocessor.extract_hashtags Py.str_lower word a
      ++ TextPreprocessor.extract_hashtags Py.str_lower word b
    /\ TextPreprocessor.extract_mentions Py.str_lower word (a ++ " " ++ b)
       = TextPreprocessor.extract_mentions Py.str_lower word a
         ++ TextPreprocessor.extract_mentions Py.str_lower word b.
Proof.
  intros word a b Hsp.
  unfold TextPreprocessor.extract_hashtags, TextPreprocessor.extract_mentions.
  rewrite !str_lower_app.
  change (Py.str_lower " " ++ Py.str_lower b)%string
    with (String " " (Py.str_lower b)).
  split; rewrite (findall_app word _ " " _ Hsp) by lia; f_equal;
    cbn [Re.findall]; rewrite lit_then_char_other by discriminate;
    reflexivity.
Qed.

Lemma tokens_of_joined_texts_witness :
  ascii_extract_hashtags "Go #Kenya #CHAN2024 @caf"
  = ["#kenya"] ++ ["#chan2024"].
Proof.
  exact (proj1 (tokens_of_joined_texts Re.ascii_word "Go #Kenya"
                  "#CHAN2024 @caf" eq_refl)).
Defined.

(** ** [clean_text] *)

Lemma chars_app (a b : string) : chars (a ++ b) = chars a ++ chars b.
Proof.
  unfold chars. induction a as [| c a IH]; simpl; [reflexivity |].
  now rewrite IH.
Qed.

Lemma keep_chars_all (keep : ascii -> bool) (s : string) :
  Forall (fun c => keep c = true) (chars (Re.keep_chars keep s)).
Proof.
  induction s as [| c s IH]; simpl; [constructor |].
  destruct (keep c) eqn:Hk; [constructor; assumption | exact IH].
Qed.

Lemma keep_chars_incl (keep : ascii -> bool) (s : string) :
  incl (chars (Re.keep_chars keep s)) (chars s).
Proof.
  induction s as [| c s IH]; simpl; [apply incl_refl |].
  destruct (keep c).
  - intros x [<- | Hx]; [now left | right; now apply IH].
  - intros x Hx. right. now apply IH.
Qed.

Lemma lstrip_incl (space : ascii -> bool) (s : string) :
  incl (chars (Re.lstrip space s)) (chars s).
Proof.
  induction s as [| c s IH]; simpl; [apply incl_refl |].
  destruct (space c); [| apply incl_refl].
  intros x Hx. right. now apply IH.
Qed.

Lemma rstrip_incl (space : ascii -> bool) (s : string) :
  incl (chars (Re.rstrip space s)) (chars s).
Proof.
  induction s as [| c s IH]; simpl; [apply incl_refl |].
  destruct (Re.rstrip space s) as [| b r].
  - destruct (space c); [intros x [] |].
    intros x [<- | []]. now left.
  - intros x [<- | Hx]; [now left | right; now apply IH].
Qed.

Lemma strip_incl (space : ascii -> bool) (s : string) :
  incl (chars (Re.strip space s)) (chars s).
Proof.
  unfold Re.strip.
  eapply incl_tran; [apply rstrip_incl | apply lstrip_incl].
Qed.

Lemma lstrip_head (space : ascii -> bool) (s : string) (c : ascii)
    (rest : string) :
  Re.lstrip space s = String c rest -> space c = false.
Proof.
  induction s as [| a s IH]; simpl; [discriminate |].
  destruct (space a) eqn:Ha; [exact IH |].
  intros H. injection H as <- _. exact Ha.
Qed.

Lemma rstrip_head (space : ascii -> bool) (s : string) (c : ascii)
    (rest : string) :
  Re.rstrip space s = String c rest -> exists rest', s = String c rest'.
Proof.
  destruct s as [| a s]; simpl; [discriminate |].
  destruct (Re.rstrip space s).
  - destruct (space a); [discriminate |].
    intros H. injection H as <- _. eauto.
  - intros H. injection H as <- _. eauto.
Qed.

Lemma rstrip_last (space : ascii -> bool) (s : string) :
  forall (front : string) (c : ascii),
    Re.rstrip space s = (front ++ String c EmptyString)%string ->
    space c = false.
Proof.
  induction s as [| a s IH]; intros front c; simpl.
  - destruct front; discriminate.
  - destruct (Re.rstrip space s) as [| b r] eqn:Hr.
    + destruct (space a) eqn:Ha; [destruct front; discriminate |].
      destruct front as [| f front]; simpl; intros H.
      * injection H as <-. exact Ha.
      * injection H as _ H. destruct front; discriminate.
    + destruct front as [| f front]; simpl; intros H.
      * discriminate.
      * injection H as _ H. exact (IH front c H).
Qed.

Lemma split_tokens_nonspace (space : ascii -> bool) (s : string) :
  forall skip token,
    In token (Re.split space skip s) ->
    Forall (fun c => space c = false) (chars token).
Proof.
  induction s as [| c s IH]; intros skip token Hin; [destruct Hin |].
  simpl in Hin. destruct skip as [| k]; [| exact (IH k token Hin)].
  destruct (space c) eqn:Hc; [exact (IH 0 token Hin) |].
  destruct Hin as [<- | Hin]; [| exact (IH _ token Hin)].
  simpl. constructor; [exact Hc |].
  pose proof (span_all (fun c => negb (space c)) s) as H.
  rewrite Forall_forall in *. intros x Hx.
  apply negb_true_iff. exact (H x Hx).
Qed.

Lemma join_chars (P : ascii -> Prop) (tokens : list string) :
  P " "%char ->
  (forall token, In token tokens -> Forall P (chars token)) ->
  Forall P (chars (String.concat " " tokens)).
Proof.
  intros Hsep. induction tokens as [| a tokens IH]; intros H; simpl.
  - constructor.
  - destruct tokens as [| b tokens]; [apply H; now left |].
    rewrite chars_app. apply Forall_app. split; [apply H; now left |].
    change (Forall P (" "%char :: chars (String.concat " " (b :: tokens)))).
    constructor; [exact Hsep |].
    apply IH. intros token Ht. apply H. now right.
Qed.

Lemma strip_keep_chars_kept (keep space : ascii -> bool) (s : string) :
  Forall (fun c => keep c = true)
    (chars (Re.strip space (Re.keep_chars keep s))).
Proof.
  rewrite Forall_forall. intros c Hc. apply strip_incl in Hc.
  exact (proj1 (Forall_forall _ _) (keep_chars_all keep s) c Hc).
Qed.

(** X5. Every character of a cleaned text is a word character, whitespace
    or an emoji of the four ranges: [clean_text] leaves no punctuation, and in
    particular neither "#" nor "@" when these are outside the three
    classes. *)
Theorem clean_text_leaves_no_punctuation :
  forall (word space emoji : ascii -> bool) (text : string),
    Forall (fun c => word c || space c || emoji c = true)
      (chars (TextPreprocessor.clean_text word space emoji text)).
Proof.
  intros word space emoji text. unfold TextPreprocessor.clean_text.
  cbv zeta.
  apply (strip_keep_chars_kept
           (TextPreprocessor.kept_class word space emoji) space).
Qed.

(** X6. The whitespace of a cleaned text is made of space characters only
    (no tab and no line break survives), and a cleaned text neither starts
    nor ends with whitespace. *)
Theorem clean_text_whitespace :
  forall (word space emoji : ascii -> bool) (text : string),
    let cleaned := TextPreprocessor.clean_text word space emoji text in
    (forall c, In c (chars cleaned) -> space c = true -> c = " "%char)
    /\ (forall c rest, cleaned = String c rest -> space c = false)
    /\ (forall front c,
           cleaned = (front ++ String c EmptyString)%string ->
           space c = false).
Proof.
  intros word space emoji text cleaned. unfold cleaned.
  unfold TextPreprocessor.clean_text. cbv zeta.
  split; [| split].
  - intros c Hc Hsp. apply strip_incl, keep_chars_incl in Hc.
    pose proof (join_chars (fun c => space c = true -> c = " "%char)
                  (Re.split space 0
                     (Re.delete_matches
                        (TextPreprocessor.mention_or_hashtag_pattern word) 0
                        (Re.delete_matches
                           (TextPreprocessor.url_pattern space) 0 text))))
      as Hjoin.
    rewrite Forall_forall in Hjoin. apply (Hjoin (fun _ => eq_refl)); auto.
    intros token Ht. pose proof (split_tokens_nonspace _ _ _ _ Ht) as Hns.
    rewrite Forall_forall in *. intros x Hx Hxs.
    rewrite (Hns x Hx) in Hxs. discriminate.
  - intros c rest H. unfold Re.strip in H.
    destruct (rstrip_head _ _ _ _ H) as [rest' Hl].
    exact (lstrip_head _ _ _ _ Hl).
  - intros front c H. exact (rstrip_last _ _ _ _ H).
Qed.

Lemma clean_text_whitespace_witness :
  ascii_clean_text "  Hello, World! " = "Hello World"
  /\ Re.ascii_space "H" = false.
Proof.
  split; [reflexivity |].
  exact (proj1 (proj2 (clean_text_whitespace Re.ascii_word Re.ascii_space
                         (fun _ => false) "  Hello, World! "))
           "H"%char "ello World" eq_refl).
Defined.

Lemma findall_no_marker (p : ascii -> bool) (m : ascii) (s : string) :
  ~ In m (chars s) ->
  forall skip, Re.findall (Re.lit_then p (String m EmptyString)) skip s = [].
Proof.
  induction s as [| c s IH]; intros Hn skip; [reflexivity |].
  assert (Hc : m <> c) by (intros ->; apply Hn; now left).
  assert (Hs : ~ In m (chars s)) by (intros H; apply Hn; now right).
  cbn [Re.findall]. destruct skip as [| k]; [| now apply IH].
  rewrite (lit_then_char_other p m c s Hc). now apply IH.
Qed.

Lemma chars_str_lower (s : string) :
  chars (Py.str_lower s) = map Py.ascii_lower (chars s).
Proof.
  induction s as [| c s IH]; simpl; [reflexivity |].
  unfold chars in *. simpl. now rewrite IH.
Qed.

Lemma ascii_lower_not_word (c : ascii) :
  Re.ascii_word (Py.ascii_lower c) = Re.ascii_word c.
Proof. destruct c as [[] [] [] [] [] [] [] []]; reflexivity. Qed.

(** X7. On ASCII text, a cleaned text contains no hashtag and no mention:
    extracting them from it gives the empty list (the hashtags have to be
    extracted from the original text, as [process_tweet] does). *)
Theorem cleaned_text_has_no_tokens :
  forall text : string,
    ascii_extract_hashtags (ascii_clean_text text) = []
    /\ ascii_extract_mentions (ascii_clean_text text) = [].
Proof.
  intros text.
  assert (Hkept : forall c, In c (chars (Py.str_lower (ascii_clean_text text)))
                    -> Re.ascii_word c || Re.ascii_space c = true).
  { intros c Hc. rewrite chars_str_lower in Hc. apply in_map_iff in Hc.
    destruct Hc as [b [<- Hb]].
    pose proof (strip_keep_chars_kept
                  (TextPreprocessor.kept_class Re.ascii_word Re.ascii_space
                     (fun _ => false)) Re.ascii_space) as H.
    unfold ascii_clean_text, TextPreprocessor.clean_text in Hb.
    cbv zeta in Hb.
    pose proof (proj1 (Forall_forall _ _) (H _) b Hb) as Hk.
    unfold TextPreprocessor.kept_class in Hk. rewrite orb_false_r in Hk.
    rewrite ascii_lower_not_word.
    destruct (Re.ascii_word b); [reflexivity |]. simpl in *.
    revert Hk. clear.
    destruct b as [[] [] [] [] [] [] [] []]; intros H;
      first [reflexivity | discriminate H]. }
  unfold ascii_extract_hashtags, ascii_extract_mentions,
    TextPreprocessor.extract_hashtags, TextPreprocessor.extract_mentions.
  split; apply findall_no_marker; intros Hin;
    specialize (Hkept _ Hin); discriminate Hkept.
Qed.

(** X8. [clean_text] does not reach a fixed point in one pass: deleting the
    punctuation (line 22) comes after the URL pass and after the whitespace
    pass, so a cleaned text can still be changed by a second cleaning and
    can contain two consecutive spaces. *)
Theorem clean_text_passes_interfere :
  (exists text,
      ascii_clean_text (ascii_clean_text text) <> ascii_clean_text text)
  /\ (exists text, Py.str_in "  " (ascii_clean_text text) = true).
Proof.
  split.
  - exists "h.ttp://x.y". vm_compute. discriminate.
  - exists "a - b". reflexivity.
Qed.

Lemma prefix_true_app (a s : string) :
  String.prefix a s = true -> exists rest, s = (a ++ rest)%string.
Proof.
  revert s. induction a as [| x a IH]; intros s H; [now exists s |].
  destruct s as [| y s]; simpl in H; [discriminate |].
  destruct (ascii_dec x y) as [<- | Hne]; [| discriminate].
  destruct (IH s H) as [rest ->]. now exists rest.
Qed.

(** X9. In the URL pattern of [clean_text] the third alternative,
    ["https\S+"], never decides: wherever it matches, the first alternative
    ["http\S+"] matches already, so the pattern is that of its first two
    alternatives (the letter s not being whitespace). *)
Theorem https_alternative_is_redundant :
  forall (space : ascii -> bool) (s : string),
    space "s"%char = false ->
    TextPreprocessor.url_pattern space s
    = Re.alt (Re.lit_then (fun c => negb (space c)) "http")
        (Re.lit_then (fun c => negb (space c)) "www") s.
Proof.
  intros space s Hs. unfold TextPreprocessor.url_pattern, Re.alt.
  destruct (Re.lit_then _ "http" s) eqn:Hhttp; [reflexivity |].
  destruct (Re.lit_then _ "www" s); [reflexivity |].
  unfold Re.lit_then in *.
  destruct (String.prefix "https" s) eqn:Hp; [| reflexivity].
  exfalso. destruct (prefix_true_app _ _ Hp) as [rest ->].
  simpl in Hhttp. rewrite Hs in Hhttp. simpl in Hhttp. discriminate Hhttp.
Qed.

Lemma https_alternative_is_redundant_witness :
  TextPreprocessor.url_pattern Re.ascii_space "https://t.co/x rest"
  = Some 14.
Proof.
  rewrite (https_alternative_is_redundant Re.ascii_space
             "https://t.co/x rest" eq_refl).
  reflexivity.
Defined.

(** ** Which stage gives which label *)

Lemma truthy_false_nil {V : Type} (d : Dict.t V) :
  Dict.truthy d = false -> d = [].
Proof. destruct d; [reflexivity | discriminate]. Qed.

Lemma winner_is_declared (d : Dict.t nat) (w : string) :
  incl (Dict.keys d) declaration_order -> Dict.max_key d = Some w ->
  w = "Kenya" \/ w = "Uganda" \/ w = "Tanzania".
Proof.
  intros Hk Hw. apply dict_max_key_In, Hk in Hw. simpl in Hw.
  destruct Hw as [<- | [<- | [<- | []]]]; auto.
Qed.

(** X10. The verdict is CHAN-General or General exactly when no country has
    hashtag evidence and no keyword and no venue term occurs in the content:
    any single hit of a table keeps a tweet out of the two general labels. *)
Theorem general_labels_iff_no_evidence :
  forall (lower : string -> string) (t : string) (h : list string),
    let all_content :=
      TextPreprocessor.all_content_of (lower t) (map lower h) in
    (TextPreprocessor.categorize_country lower t h = Some "CHAN-General"
     \/ TextPreprocessor.categorize_country lower t h = Some "General")
    <-> (TextPreprocessor.country_hashtag_scores_of (map lower h) = []
         /\ TextPreprocessor.country_scores_of all_content = []).
Proof.
  intros lower t h all_content.
  unfold TextPreprocessor.categorize_country. cbv zeta. fold all_content.
  destruct (Dict.truthy (TextPreprocessor.country_hashtag_scores_of _))
    eqn:Hhash.
  - split.
    + intros H. exfalso.
      destruct (Py.max _) as [m |]; [| destruct H; discriminate].
      destruct (TextPreprocessor.shared_tie _ m).
      * destruct (Dict.truthy
                    (TextPreprocessor.country_keyword_scores_of all_content))
          eqn:Hkw; [| destruct H; discriminate].
        destruct H as [H | H];
          destruct (winner_is_declared _ _ (keyword_scores_keys _) H)
            as [E | [E | E]]; discriminate E.
      * destruct H as [H | H];
          destruct (winner_is_declared _ _ (hashtag_scores_keys _) H)
            as [E | [E | E]]; discriminate E.
    + intros [H _]. rewrite H in Hhash. discriminate Hhash.
  - apply truthy_false_nil in Hhash. rewrite Hhash.
    destruct (Dict.truthy (TextPreprocessor.country_scores_of _)) eqn:Hsc.
    + split.
      * intros H. exfalso.
        destruct H as [H | H];
          destruct (winner_is_declared _ _ (country_scores_keys _) H)
            as [E | [E | E]]; discriminate E.
      * intros [_ H]. rewrite H in Hsc. discriminate Hsc.
    + apply truthy_false_nil in Hsc. rewrite Hsc.
      split; [auto |]. intros _. destruct (_ || _); auto.
Qed.

Lemma general_labels_iff_no_evidence_witness :
  TextPreprocessor.country_hashtag_scores_of (map Py.str_lower ["#eac"]) = []
  /\ TextPreprocessor.country_scores_of
       (TextPreprocessor.all_content_of (Py.str_lower "Pamoja!")
          (map Py.str_lower ["#eac"])) = [].
Proof.
  apply (general_labels_iff_no_evidence Py.str_lower "Pamoja!" ["#eac"]).
  left. reflexivity.
Defined.

(** X11. The verdict is Pamoja exactly when the shared-hashtag tie-break
    decides and no country keyword occurs in the content; a text with a
    country keyword is never labelled Pamoja, whatever its hashtags. *)
Theorem pamoja_iff_tie_without_keyword :
  forall (lower : string -> string) (t : string) (h : list string),
    TextPreprocessor.categorize_country lower t h = Some "Pamoja"
    <-> (tie_break_decides (map lower h) = true
         /\ TextPreprocessor.country_keyword_scores_of
              (TextPreprocessor.all_content_of (lower t) (map lower h)) = []).
Proof.
  intros lower t h.
  unfold TextPreprocessor.categorize_country, tie_break_decides.
  cbv zeta.
  destruct (Dict.truthy (TextPreprocessor.country_hashtag_scores_of _))
    eqn:Hhash; simpl andb.
  - destruct (Py.max _) as [m |];
      [| split; [discriminate | intros [H _]; discriminate H]].
    destruct (TextPreprocessor.shared_tie _ m).
    + destruct (Dict.truthy (TextPreprocessor.country_keyword_scores_of _))
        eqn:Hkw.
      * split.
        -- intros H.
           destruct (winner_is_declared _ _ (keyword_scores_keys _) H)
             as [E | [E | E]]; discriminate E.
        -- intros [_ H]. rewrite H in Hkw. discriminate Hkw.
      * apply truthy_false_nil in Hkw. rewrite Hkw. split; auto.
    + split; [| intros [H _]; discriminate H].
      intros H.
      destruct (winner_is_declared _ _ (hashtag_scores_keys _) H)
        as [E | [E | E]]; discriminate E.
  - split; [| intros [H _]; discriminate H].
    destruct (Dict.truthy (TextPreprocessor.country_scores_of _)) eqn:Hsc.
    + intros H.
      destruct (winner_is_declared _ _ (country_scores_keys _) H)
        as [E | [E | E]]; discriminate E.
    + destruct (_ || _); discriminate.
Qed.

Lemma pamoja_iff_tie_without_keyword_witness :
  tie_break_decides (map Py.str_lower ["#totalenergieschan2024"]) = true
  /\ TextPreprocessor.country_keyword_scores_of
       (TextPreprocessor.all_content_of (Py.str_lower "What a match")
          (map Py.str_lower ["#totalenergieschan2024"])) = [].
Proof.
  apply (pamoja_iff_tie_without_keyword Py.str_lower "What a match"
           ["#totalenergieschan2024"]).
  reflexivity.
Defined.

Lemma keys_nonempty_truthy {V : Type} (d : Dict.t V) (k : string) :
  In k (Dict.keys d) -> Dict.truthy d = true.
Proof. destruct d; [intros [] | reflexivity]. Qed.

Lemma hit_is_inserted (all_content c : string) :
  In c declaration_order ->
  0 < keyword_hits all_content c \/ 0 < venue_hits all_content c ->
  In c (insertion_order all_content).
Proof.
  intros Hc Hhit. unfold insertion_order. apply in_or_app.
  destruct (keyword_hits all_content c) as [| n] eqn:Hkw.
  - right. apply filter_In. split; [exact Hc |].
    rewrite Hkw. simpl. apply Nat.ltb_lt. destruct Hhit; [lia | assumption].
  - left. apply filter_In. split; [exact Hc |]. now rewrite Hkw.
Qed.

(** X12. Keywords and venue terms are matched as substrings: when no
    country has hashtag evidence, one occurrence of any keyword or venue term
    anywhere in the content, inside a longer word too, makes the verdict one
    of the three host countries. *)
Theorem any_table_hit_gives_a_host_country :
  forall (lower : string -> string) (t : string) (h : list string)
         (c : string) (terms : list string) (w : string),
    TextPreprocessor.country_hashtag_scores_of (map lower h) = [] ->
    In (c, terms) Config.COUNTRY_KEYWORDS
    \/ In (c, terms) Config.VENUE_KEYWORDS ->
    In w terms ->
    Py.str_in w (TextPreprocessor.all_content_of (lower t) (map lower h))
    = true ->
    exists verdict,
      TextPreprocessor.categorize_country lower t h = Some verdict
      /\ In verdict declaration_order.
Proof.
  intros lower t h c terms w Hhash Htable Hw Hin.
  set (all_content := TextPreprocessor.all_content_of (lower t) (map lower h))
    in *.
  assert (Hins : In c (insertion_order all_content)).
  { destruct Htable as [Ht | Ht]; simpl in Ht;
      destruct Ht as [Ht | [Ht | [Ht | []]]]; injection Ht as <- <-;
      (apply hit_is_inserted; [simpl; tauto |]).
    1-3: left; apply (sum_if_pos 1 _ _ w); [lia | exact Hw | exact Hin].
    all: right; apply (sum_if_pos 2 _ _ w); [lia | exact Hw | exact Hin]. }
  rewrite <- country_scores_insertion_order in Hins.
  apply keys_nonempty_truthy in Hins.
  unfold TextPreprocessor.categorize_country. cbv zeta.
  fold all_content. rewrite Hhash. simpl Dict.truthy. cbv iota.
  rewrite Hins.
  destruct (score_dict_winner _ Hins (country_scores_keys all_content))
    as [label [Hl _]].
  exists label. split; [exact Hl |].
  apply (country_scores_keys all_content), dict_max_key_In, Hl.
Qed.

Lemma any_table_hit_gives_a_host_country_witness :
  exists verdict,
    classify "i like football" [] = Some verdict
    /\ In verdict declaration_order.
Proof.
  apply (any_table_hit_gives_a_host_country Py.str_lower "i like football" []
           "Kenya"
           ["kenya"; "harambee"; "stars"; "nairobi"; "teamkenya"; "ke";
            "harambeefc"; "harambeestars"] "ke").
  - reflexivity.
  - left. simpl. tauto.
  - simpl. tauto.
  - reflexivity.
Defined.

(** ** Symmetry of the sentiment thresholds *)

Lemma SFcompare_opp (a b : spec_float) :
  SFcompare (SFopp a) (SFopp b) = SFcompare b a.
Proof.
  destruct a as [[] | [] | | [] ma ea], b as [[] | [] | | [] mb eb];
    try reflexivity; simpl;
    rewrite (Z.compare_antisym ea eb);
    destruct (Z.compare ea eb); simpl; try reflexivity;
    now rewrite Pos.compare_cont_antisym.
Qed.

Lemma SFleb_opp (a b : spec_float) :
  SFleb (SFopp a) (SFopp b) = SFleb b a.
Proof. unfold SFleb. now rewrite SFcompare_opp. Qed.

(** X13. The two thresholds are symmetric: negating the compound score
    exchanges the labels positive and negative and keeps neutral. *)
Theorem sentiment_label_of_opposite_score :
  forall compound : spec_float,
    CHAN2024SentimentAnalyzer.sentiment_label (SFopp compound)
    = opposite_label (CHAN2024SentimentAnalyzer.sentiment_label compound).
Proof.
  intros x. unfold CHAN2024SentimentAnalyzer.sentiment_label,
    CHAN2024SentimentAnalyzer.float_ge, CHAN2024SentimentAnalyzer.float_le.
  change CHAN2024SentimentAnalyzer.lit_0_05
    with (SFopp CHAN2024SentimentAnalyzer.lit_neg_0_05) at 1.
  rewrite SFleb_opp.
  unfold CHAN2024SentimentAnalyzer.lit_neg_0_05 at 2. rewrite SFleb_opp.
  pose proof (not_both_thresholds x) as Hexcl.
  unfold CHAN2024SentimentAnalyzer.float_ge, CHAN2024SentimentAnalyzer.float_le
    in Hexcl.
  destruct (SFleb CHAN2024SentimentAnalyzer.lit_0_05 x) eqn:Hge.
  - rewrite (Hexcl eq_refl). reflexivity.
  - destruct (SFleb x CHAN2024SentimentAnalyzer.lit_neg_0_05); reflexivity.
Qed.

(** ** The analytics query *)

(** X14. Whatever the arguments of [get_analytics_data] are, the query text
    has exactly as many [%s] placeholders as there are parameters, and no
    other percent sign. *)
Theorem analytics_query_placeholders :
  forall (country : option string) (date_from date_to : option Z)
         (include_shared : bool),
    let '(query, params) :=
      DatabaseManager.analytics_query country date_from date_to
        include_shared in
    count_str "%s" query = List.length params
    /\ count_str "%" query = List.length params.
Proof.
  intros country date_from date_to include_shared.
  unfold DatabaseManager.analytics_query.
  destruct country as [[| c0 c] |]; cbn [DatabaseManager.str_truthy];
    [| destruct (String.eqb (String c0 c) "AllHosts") |];
    destruct date_from, date_to, include_shared;
    vm_compute; split; reflexivity.
Qed.

(** X15. The values of the arguments never become part of the query text:
    two calls whose arguments have the same shape (a country given or not,
    "AllHosts" or not, each date given or not, the same flag) build the same
    text, and the values travel as parameters only. *)
Theorem analytics_query_text_ignores_values :
  forall (country country' : option string)
         (date_from date_from' date_to date_to' : option Z)
         (include_shared : bool),
    DatabaseManager.str_truthy country = DatabaseManager.str_truthy country' ->
    (country = Some "AllHosts" <-> country' = Some "AllHosts") ->
    (date_from = None <-> date_from' = None) ->
    (date_to = None <-> date_to' = None) ->
    fst (DatabaseManager.analytics_query country date_from date_to
           include_shared)
    = fst (DatabaseManager.analytics_query country' date_from' date_to'
             include_shared).
Proof.
  intros country country' df df' dt dt' inc Htruthy Hall Hdf Hdt.
  assert (Hdf' : match df, df' with
                 | Some _, Some _ | None, None => True
                 | _, _ => False
                 end).
  { destruct df, df'; try exact I; destruct Hdf as [H1 H2];
      [specialize (H2 eq_refl) | specialize (H1 eq_refl)]; discriminate. }
  assert (Hdt' : match dt, dt' with
                 | Some _, Some _ | None, None => True
                 | _, _ => False
                 end).
  { destruct dt, dt'; try exact I; destruct Hdt as [H1 H2];
      [specialize (H2 eq_refl) | specialize (H1 eq_refl)]; discriminate. }
  assert (Hc : match country, country' with
               | Some c, Some c' =>
                   DatabaseManager.str_truthy country = true ->
                   String.eqb c "AllHosts" = String.eqb c' "AllHosts"
               | _, _ => True
               end).
  { destruct country as [c |], country' as [c' |]; try exact I. intros _.
    destruct (String.eqb_spec c "AllHosts") as [-> | Hne],
             (String.eqb_spec c' "AllHosts") as [-> | Hne'];
      try reflexivity.
    - destruct Hall as [H _]. specialize (H eq_refl).
      injection H as H. contradiction.
    - destruct Hall as [_ H]. specialize (H eq_refl).
      injection H as H. contradiction. }
  unfold DatabaseManager.analytics_query.
  destruct country as [[| c0 c] |], country' as [[| c0' c'] |];
    cbn [DatabaseManager.str_truthy] in *; try discriminate Htruthy;
    try (rewrite (Hc eq_refl);
         destruct (String.eqb (String c0' c') "AllHosts"));
    destruct df, df'; try contradiction;
    destruct dt, dt'; try contradiction;
    destruct inc; reflexivity.
Qed.

Lemma analytics_query_text_ignores_values_witness :
  fst (DatabaseManager.analytics_query (Some "Kenya") (Some 7%Z) None true)
  = fst (DatabaseManager.analytics_query
           (Some "x'; DROP TABLE tweets; --") (Some 0%Z) None true).
Proof.
  apply analytics_query_text_ignores_values.
  - reflexivity.
  - split; discriminate.
  - split; discriminate.
  - split; reflexivity.
Defined.

(** ** The removal of duplicates in [fetch_and_produce_tweets] *)

Lemma lookup_set_by_id (d : list (Z * Main.raw_tweet)) (k k' : Z)
    (v : Main.raw_tweet) :
  lookup_id (Main.set_by_id d k v) k'
  = if Z.eqb k k' then Some v else lookup_id d k'.
Proof.
  induction d as [| [k0 v0] d IH]; simpl.
  - reflexivity.
  - destruct (Z.eqb_spec k0 k) as [-> | Hne]; simpl.
    + destruct (Z.eqb k k'); reflexivity.
    + rewrite IH. destruct (Z.eqb_spec k0 k') as [-> | Hne'];
        [| reflexivity].
      destruct (Z.eqb_spec k k'); [congruence | reflexivity].
Qed.

Lemma keys_set_by_id (d : list (Z * Main.raw_tweet)) (k : Z)
    (v : Main.raw_tweet) :
  map fst (Main.set_by_id d k v)
  = if existsb (Z.eqb k) (map fst d) then map fst d else map fst d ++ [k].
Proof.
  induction d as [| [k0 v0] d IH]; simpl; [reflexivity |].
  destruct (Z.eqb_spec k0 k) as [-> | Hne]; simpl.
  - now rewrite Z.eqb_refl.
  - rewrite IH. destruct (Z.eqb_spec k k0) as [-> | _]; [congruence |].
    simpl. destruct (existsb (Z.eqb k) (map fst d)); reflexivity.
Qed.

Lemma existsb_eqb_In (k : Z) (l : list Z) :
  existsb (Z.eqb k) l = true <-> In k l.
Proof.
  rewrite existsb_exists. split.
  - intros [x [Hx Heq]]. apply Z.eqb_eq in Heq. now subst.
  - intros H. exists k. split; [exact H | apply Z.eqb_refl].
Qed.

Lemma NoDup_set_by_id (d : list (Z * Main.raw_tweet)) (k : Z)
    (v : Main.raw_tweet) :
  NoDup (map fst d) -> NoDup (map fst (Main.set_by_id d k v)).
Proof.
  intros Hnd. rewrite keys_set_by_id.
  destruct (existsb (Z.eqb k) (map fst d)) eqn:Hex; [exact Hnd |].
  apply NoDup_app; [exact Hnd | repeat constructor; intros [] |].
  intros x Hx [<- | []]. apply existsb_eqb_In in Hx. congruence.
Qed.

Lemma lookup_id_In (d : list (Z * Main.raw_tweet)) (k : Z)
    (v : Main.raw_tweet) :
  NoDup (map fst d) -> (In (k, v) d <-> lookup_id d k = Some v).
Proof.
  induction d as [| [k0 v0] d IH]; simpl; intros Hnd.
  - split; [intros [] | discriminate].
  - inversion Hnd as [| ? ? Hnotin Hnd']; subst.
    destruct (Z.eqb_spec k0 k) as [-> | Hne].
    + split.
      * intros [H | H]; [now injection H as -> |].
        exfalso. apply Hnotin. apply in_map_iff. now exists (k, v).
      * intros H. injection H as ->. now left.
    + rewrite <- (IH Hnd'). split; [| now right].
      intros [H | H]; [injection H as -> _; contradiction | exact H].
Qed.

Lemma find_last_Some (k : Z) (all_tweets : list Main.raw_tweet)
    (tweet : Main.raw_tweet) :
  find_last k all_tweets = Some tweet ->
  Main.raw_id tweet = Some k
  /\ exists before after,
       all_tweets = before ++ tweet :: after
       /\ forall later, In later after -> Main.raw_id later <> Some k.
Proof.
  revert tweet. induction all_tweets as [| t rest IH]; intros tweet;
    simpl; [discriminate |].
  destruct (find_last k rest) as [later |] eqn:Hrest.
  - intros H. injection H as ->.
    destruct (IH tweet eq_refl) as [Hid [before [after [-> Hafter]]]].
    split; [exact Hid |]. exists (t :: before), after. now split.
  - destruct (Main.raw_id t) as [id |] eqn:Hid; [| discriminate].
    destruct (Z.eqb_spec id k) as [-> | Hne]; [| discriminate].
    intros H. injection H as <-. split; [exact Hid |].
    exists [], rest. split; [reflexivity |].
    intros later Hlater Hk. clear IH.
    induction rest as [| r rest IHr]; [destruct Hlater |].
    simpl in Hrest. destruct (find_last k rest); [discriminate |].
    destruct Hlater as [<- | Hlater].
    + rewrite Hk, Z.eqb_refl in Hrest. discriminate.
    + now apply IHr.
Qed.

(** The dict after the loop: under each id, the last tweet of the list with
    that id, or what the dict held before. *)
Lemma unique_tweets_of_lookup (all_tweets : list Main.raw_tweet) :
  forall acc unique_tweets,
    Main.unique_tweets_of acc all_tweets = Some unique_tweets ->
    (NoDup (map fst acc) -> NoDup (map fst unique_tweets))
    /\ forall k,
         lookup_id unique_tweets k
         = match find_last k all_tweets with
           | Some tweet => Some tweet
           | None => lookup_id acc k
           end.
Proof.
  induction all_tweets as [| t rest IH]; intros acc u; simpl.
  - intros H. injection H as <-. split; auto.
  - destruct (Main.raw_id t) as [id |] eqn:Hid; [| discriminate].
    intros H. destruct (IH _ _ H) as [Hnd Hlook]. split.
    + intros Hacc. apply Hnd, NoDup_set_by_id, Hacc.
    + intros k. rewrite Hlook, lookup_set_by_id.
      destruct (find_last k rest); [reflexivity |].
      destruct (Z.eqb id k); reflexivity.
Qed.

(** X16. The removal of duplicates keeps one tweet per id, and for an id
    fetched several times it keeps the copy fetched last: a tweet is among
    the unique tweets exactly when it is the last tweet of the list with its
    id. *)
Theorem unique_tweets_keep_last_copy :
  forall (all_tweets : list Main.raw_tweet)
         (unique_tweets : list (Z * Main.raw_tweet)),
    Main.unique_tweets_of [] all_tweets = Some unique_tweets ->
    NoDup (map fst unique_tweets)
    /\ forall k tweet,
         In (k, tweet) unique_tweets <-> find_last k all_tweets = Some tweet.
Proof.
  intros all_tweets u H.
  destruct (unique_tweets_of_lookup _ _ _ H) as [Hnd Hlook].
  specialize (Hnd (NoDup_nil _)). split; [exact Hnd |].
  intros k tweet. rewrite (lookup_id_In u k tweet Hnd), Hlook.
  simpl. destruct (find_last k all_tweets); reflexivity.
Qed.

Lemma unique_tweets_of_None (all_tweets : list Main.raw_tweet) :
  forall acc,
    Main.unique_tweets_of acc all_tweets = None
    <-> exists tweet, In tweet all_tweets /\ Main.raw_id tweet = None.
Proof.
  induction all_tweets as [| t rest IH]; intros acc; simpl.
  - split; [discriminate | intros [tweet [[] _]]].
  - destruct (Main.raw_id t) as [id |] eqn:Hid.
    + rewrite IH. split.
      * intros [tweet [Hin Hnone]]. exists tweet. split; [now right | exact Hnone].
      * intros [tweet [[<- | Hin] Hnone]]; [congruence |]. now exists tweet.
    + split; [| reflexivity]. intros _. exists t. split; [now left | exact Hid].
Qed.

Lemma set_by_id_fresh (d : list (Z * Main.raw_tweet)) (k : Z)
    (v : Main.raw_tweet) :
  ~ In k (map fst d) -> Main.set_by_id d k v = d ++ [(k, v)].
Proof.
  induction d as [| [k0 v0] d IH]; simpl; intros Hn; [reflexivity |].
  destruct (Z.eqb_spec k0 k) as [-> | Hne]; [exfalso; apply Hn; now left |].
  rewrite IH; [reflexivity |]. intros H. apply Hn. now right.
Qed.

Lemma unique_tweets_of_distinct (all_tweets : list Main.raw_tweet) :
  forall acc,
    NoDup (map Main.raw_id all_tweets) ->
    (forall tweet, In tweet all_tweets ->
       exists id, Main.raw_id tweet = Some id /\ ~ In id (map fst acc)) ->
    exists unique_tweets,
      Main.unique_tweets_of acc all_tweets = Some unique_tweets
      /\ map snd unique_tweets = map snd acc ++ all_tweets.
Proof.
  induction all_tweets as [| t rest IH]; intros acc Hnd Hids; simpl.
  - exists acc. now rewrite app_nil_r.
  - destruct (Hids t (or_introl eq_refl)) as [id [Hid Hfresh]].
    rewrite Hid, (set_by_id_fresh acc id t Hfresh).
    inversion Hnd as [| ? ? Hnotin Hnd']; subst.
    destruct (IH (acc ++ [(id, t)]) Hnd') as [u [Hu Hsnd]].
    + intros tweet Hin.
      destruct (Hids tweet (or_intror Hin)) as [id' [Hid' Hfresh']].
      exists id'. split; [exact Hid' |].
      rewrite map_app. intros H. apply in_app_or in H.
      destruct H as [H | [H | []]]; [contradiction |].
      simpl in H. subst id'. apply Hnotin. rewrite Hid, <- Hid'.
      now apply in_map.
    + exists u. split; [exact Hu |].
      rewrite Hsnd, map_app, <- app_assoc. reflexivity.
Qed.

(** X17. When every fetched tweet has an id and the ids are pairwise
    distinct, the removal of duplicates changes nothing: the unique tweets are
    the fetched tweets, in the order fetched. *)
Theorem unique_tweets_of_distinct_ids :
  forall all_tweets : list Main.raw_tweet,
    NoDup (map Main.raw_id all_tweets) ->
    (forall tweet, In tweet all_tweets -> Main.raw_id tweet <> None) ->
    exists unique_tweets,
      Main.unique_tweets_of [] all_tweets = Some unique_tweets
      /\ map snd unique_tweets = all_tweets.
Proof.
  intros all_tweets Hnd Hids.
  apply (unique_tweets_of_distinct all_tweets [] Hnd).
  intros tweet Hin. specialize (Hids tweet Hin).
  destruct (Main.raw_id tweet) as [id |]; [| congruence].
  exists id. split; [reflexivity | intros []].
Qed.

Lemma unique_tweets_keep_last_copy_witness :
  NoDup (map fst [(1%Z, raw 1 "second"); (2%Z, raw 2 "other")])
  /\ forall k tweet,
       In (k, tweet) [(1%Z, raw 1 "second"); (2%Z, raw 2 "other")]
       <-> find_last k [raw 1 "first"; raw 2 "other"; raw 1 "second"]
           = Some tweet.
Proof.
  apply (unique_tweets_keep_last_copy
           [raw 1 "first"; raw 2 "other"; raw 1 "second"]).
  reflexivity.
Defined.

Lemma unique_tweets_of_distinct_ids_witness :
  exists unique_tweets,
    Main.unique_tweets_of [] [raw 1 "first"; raw 2 "other"]
    = Some unique_tweets
    /\ map snd unique_tweets = [raw 1 "first"; raw 2 "other"].
Proof.
  apply unique_tweets_of_distinct_ids.
  - simpl. repeat constructor; simpl; intros H;
      repeat (destruct H as [H | H]; try discriminate H); exact H.
  - simpl. intros tweet [<- | [<- | []]]; discriminate.
Defined.

(** ** [fetch_and_produce_tweets] *)

Lemma produce_raw_all (topic : string) (final_tweets : list Main.raw_tweet) :
  forall out,
    fold_left (fun out tweet => Main.produce out topic (Main.RawTweet tweet))
      final_tweets out
    = out ++ map (raw_message topic) final_tweets.
Proof.
  induction final_tweets as [| t rest IH]; intros out; simpl.
  - now rewrite app_nil_r.
  - rewrite IH. unfold Main.produce. now rewrite <- app_assoc.
Qed.

Lemma fetch_all_tweets (search_tweets : string -> nat -> list Main.raw_tweet) :
  fold_left
    (fun all_tweets '(query_name, query) =>
       all_tweets ++ search_tweets query 50)
    Main.queries []
  = fetched search_tweets.
Proof.
  unfold fetched. simpl. now rewrite app_nil_r, <- app_assoc.
Qed.

Lemma NoDup_map_Some {A : Type} (l : list A) :
  NoDup l -> NoDup (map Some l).
Proof.
  induction 1 as [| a l Hnotin Hnd IH]; simpl; constructor; [| exact IH].
  intros H. apply in_map_iff in H. destruct H as [b [Hb Hin]].
  injection Hb as ->. contradiction.
Qed.

Lemma unique_values_ids (all_tweets : list Main.raw_tweet)
    (unique_tweets : list (Z * Main.raw_tweet)) :
  Main.unique_tweets_of [] all_tweets = Some unique_tweets ->
  NoDup (map Main.raw_id (map snd unique_tweets))
  /\ incl (map snd unique_tweets) all_tweets
  /\ forall tweet, In tweet all_tweets ->
       exists kept, In kept (map snd unique_tweets)
                    /\ Main.raw_id kept = Main.raw_id tweet.
Proof.
  intros H. destruct (unique_tweets_of_lookup _ _ _ H) as [Hnd Hlook].
  specialize (Hnd (NoDup_nil _)).
  assert (Hentry : forall k v, In (k, v) unique_tweets ->
            find_last k all_tweets = Some v).
  { intros k v Hin. apply (lookup_id_In _ _ _ Hnd) in Hin.
    rewrite Hlook in Hin. simpl in Hin.
    destruct (find_last k all_tweets); [exact Hin | discriminate]. }
  split; [| split].
  - rewrite map_map.
    rewrite (map_ext_in _ (fun entry => Some (fst entry))).
    + rewrite <- (map_map fst Some).
      apply NoDup_map_Some, Hnd.
    + intros [k v] Hin. simpl.
      exact (proj1 (find_last_Some _ _ _ (Hentry k v Hin))).
  - intros v Hv. apply in_map_iff in Hv. destruct Hv as [[k v'] [<- Hin]].
    destruct (find_last_Some _ _ _ (Hentry k v' Hin))
      as [_ [before [after [-> _]]]].
    apply in_or_app. right. now left.
  - intros tweet Hin.
    assert (Hid : Main.raw_id tweet <> None).
    { intros Hnone.
      assert (Hfail : Main.unique_tweets_of [] all_tweets = None)
        by (apply unique_tweets_of_None; now exists tweet).
      congruence. }
    destruct (Main.raw_id tweet) as [id |] eqn:Htid; [| congruence].
    assert (Hsome : exists kept, find_last id all_tweets = Some kept).
    { clear -Hin Htid. induction all_tweets as [| t rest IH];
        [destruct Hin |]. simpl.
      destruct (find_last id rest) as [later |] eqn:Hrest; [eauto |].
      destruct Hin as [-> | Hin].
      - rewrite Htid, Z.eqb_refl. eauto.
      - destruct (IH Hin) as [kept Hk]. discriminate Hk. }
    destruct Hsome as [kept Hkept]. exists kept. split.
    + apply in_map_iff. exists (id, kept). split; [reflexivity |].
      apply (lookup_id_In _ _ _ Hnd). rewrite Hlook, Hkept. reflexivity.
    + exact (proj1 (find_last_Some _ _ _ Hkept)).
Qed.

(** X18. [fetch_and_produce_tweets] does not touch the table; it appends
    to the producer one message on the raw topic for each unique tweet, no
    two of them with the same id, each a tweet that was fetched, and every
    fetched id among them; the number it returns is the number of these
    messages.  This holds when every fetched tweet has an id. *)
Theorem fetch_publishes_each_id_once :
  forall (env_raw env_processed : option string)
         (search_tweets : string -> nat -> list Main.raw_tweet)
         (st : Main.state),
    (forall tweet, In tweet (fetched search_tweets) ->
       Main.raw_id tweet <> None) ->
    exists final_tweets,
      Main.fetch_and_produce_tweets env_raw env_processed search_tweets st
      = ({| Main.connection := Main.connection st;
            Main.tweets := Main.tweets st;
            Main.produced :=
              Main.produced st
              ++ map (raw_message
                        (Config.getenv_default env_raw "chan2024-tweets-raw"))
                   final_tweets |},
         List.length final_tweets)
      /\ NoDup (map Main.raw_id final_tweets)
      /\ incl final_tweets (fetched search_tweets)
      /\ forall tweet, In tweet (fetched search_tweets) ->
           exists kept, In kept final_tweets
                        /\ Main.raw_id kept = Main.raw_id tweet.
Proof.
  intros env_raw env_processed search_tweets st Hids.
  unfold Main.fetch_and_produce_tweets. cbv zeta.
  rewrite fetch_all_tweets.
  destruct (Main.unique_tweets_of [] (fetched search_tweets))
    as [unique_tweets |] eqn:Hu.
  - exists (map snd unique_tweets).
    split; [| exact (unique_values_ids _ _ Hu)].
    simpl Main.lookup. cbv iota. now rewrite produce_raw_all.
  - apply unique_tweets_of_None in Hu. destruct Hu as [tweet [Hin Hnone]].
    exfalso. exact (Hids tweet Hin Hnone).
Qed.

(** X19. When a fetched tweet has no id, [fetch_and_produce_tweets] produces
    nothing at all, also not the tweets fetched before it, and returns 0. *)
Theorem fetch_with_a_tweet_without_id :
  forall (env_raw env_processed : option string)
         (search_tweets : string -> nat -> list Main.raw_tweet)
         (st : Main.state) (tweet : Main.raw_tweet),
    In tweet (fetched search_tweets) ->
    Main.raw_id tweet = None ->
    Main.fetch_and_produce_tweets env_raw env_processed search_tweets st
    = (st, 0).
Proof.
  intros env_raw env_processed search_tweets st tweet Hin Hnone.
  unfold Main.fetch_and_produce_tweets. cbv zeta.
  rewrite fetch_all_tweets.
  assert (Hfail : Main.unique_tweets_of [] (fetched search_tweets) = None)
    by (apply unique_tweets_of_None; now exists tweet).
  now rewrite Hfail.
Qed.

Lemma fetch_publishes_each_id_once_witness :
  exists final_tweets,
    Main.fetch_and_produce_tweets None None (fun _ _ => [raw 1 "a"])
      empty_state
    = ({| Main.connection := DatabaseManager.ConnectionOpen;
          Main.tweets := [];
          Main.produced :=
            [] ++ map (raw_message "chan2024-tweets-raw") final_tweets |},
       List.length final_tweets)
    /\ NoDup (map Main.raw_id final_tweets)
    /\ incl final_tweets (fetched (fun _ _ => [raw 1 "a"]))
    /\ forall tweet, In tweet (fetched (fun _ _ => [raw 1 "a"])) ->
         exists kept, In kept final_tweets
                      /\ Main.raw_id kept = Main.raw_id tweet.
Proof.
  apply (fetch_publishes_each_id_once None None (fun _ _ => [raw 1 "a"])
           empty_state).
  simpl. intros tweet [<- | [<- | [<- | []]]]; discriminate.
Defined.

Lemma fetch_with_a_tweet_without_id_witness :
  Main.fetch_and_produce_tweets None None
    (fun _ _ =>
       [raw 1 "a";
        {| Main.raw_id := None; Main.raw_text := Some "b";
           Main.raw_author_id := None; Main.raw_created_at := None;
           Main.raw_public_metrics := Main.MetricsMissing |}])
    empty_state
  = (empty_state, 0).
Proof.
  apply (fetch_with_a_tweet_without_id None None _ empty_state
           {| Main.raw_id := None; Main.raw_text := Some "b";
              Main.raw_author_id := None; Main.raw_created_at := None;
              Main.raw_public_metrics := Main.MetricsMissing |}).
  - simpl. tauto.
  - reflexivity.
Defined.

(** ** [process_tweet] *)

(** The cascade always returns one of its six labels. *)
Lemma cascade_returns_label (lower : string -> string) (t : string)
    (h : list string) :
  exists label,
    TextPreprocessor.categorize_country lower t h = Some label
    /\ (label = "Kenya" \/ label = "Uganda" \/ label = "Tanzania"
        \/ label = "Pamoja" \/ label = "CHAN-General" \/ label = "General").
Proof.
  assert (Hwin : forall d, Dict.truthy d = true ->
            incl (Dict.keys d) declaration_order ->
            exists label, Dict.max_key d = Some label
              /\ (label = "Kenya" \/ label = "Uganda" \/ label = "Tanzania"
                  \/ label = "Pamoja" \/ label = "CHAN-General"
                  \/ label = "General")).
  { intros d Ht Hk. destruct (score_dict_winner d Ht Hk) as [w [Hw _]].
    exists w. split; [exact Hw |].
    destruct (winner_is_declared d w Hk Hw) as [E | [E | E]]; tauto. }
  unfold TextPreprocessor.categorize_country. cbv zeta.
  destruct (Dict.truthy (TextPreprocessor.country_hashtag_scores_of _))
    eqn:Hhash.
  - destruct (max_key_nonempty (fun v => v) _ (truthy_values _ Hhash))
      as [m Hm].
    unfold Py.max. rewrite Hm.
    destruct (TextPreprocessor.shared_tie _ m).
    + destruct (Dict.truthy (TextPreprocessor.country_keyword_scores_of _))
        eqn:Hkw.
      * apply Hwin; [exact Hkw | apply keyword_scores_keys].
      * exists "Pamoja". tauto.
    + apply Hwin; [exact Hhash | apply hashtag_scores_keys].
  - destruct (Dict.truthy (TextPreprocessor.country_scores_of _)) eqn:Hsc.
    + apply Hwin; [exact Hsc | apply country_scores_keys].
    + destruct (_ || _); [exists "CHAN-General" | exists "General"]; tauto.
Qed.

(** [process_tweet] stores and produces nothing and returns [None] when the
    connection is closed or the metrics cannot be read. *)
Lemma process_tweet_gives_up (lower : string -> string)
    (word space emoji : ascii -> bool) (polarity : string -> spec_float)
    (timestamp_in : string -> option Z)
    (env_raw env_processed : option string) (st : Main.state)
    (tweet_data : Main.raw_tweet) :
  Main.connection st = DatabaseManager.ConnectionClosed
  \/ Main.raw_public_metrics tweet_data = Main.MetricsNone ->
  Main.process_tweet lower word space emoji polarity timestamp_in env_raw
    env_processed st tweet_data
  = (st, None).
Proof.
  intros H. unfold Main.process_tweet.
  destruct (Main.raw_text tweet_data) as [text |]; [| reflexivity].
  destruct (TextPreprocessor.categorize_country lower text _);
    [| reflexivity].
  unfold CHAN2024SentimentAnalyzer.analyze_sentiment. cbv zeta.
  destruct (Main.raw_id tweet_data) as [id |]; [| reflexivity].
  unfold Main.metric.
  destruct (Main.raw_public_metrics tweet_data) as [| | metrics];
    [| reflexivity |].
  - destruct H as [Hclosed | Hnone]; [| discriminate Hnone].
    now rewrite Hclosed.
  - destruct H as [Hclosed | Hnone]; [| discriminate Hnone].
    now rewrite Hclosed.
Qed.

(** What [process_tweet] does with a raw tweet that has a text, an id and
    readable metrics, over an open connection: the record it assembles and
    the messages it produces, for any state. *)
Lemma process_tweet_result (lower : string -> string)
    (word space emoji : ascii -> bool) (polarity : string -> spec_float)
    (timestamp_in : string -> option Z)
    (env_raw env_processed : option string) (tweet_data : Main.raw_tweet)
    (text : string) (id : Z) :
  Main.raw_text tweet_data = Some text ->
  Main.raw_id tweet_data = Some id ->
  metrics_readable tweet_data ->
  lowers_host_names lower ->
  exists processed new,
    (forall st,
        Main.connection st = DatabaseManager.ConnectionOpen ->
        Main.process_tweet lower word space emoji polarity timestamp_in
          env_raw env_processed st tweet_data
        = match row_of_tweet timestamp_in processed with
          | Some r =>
              ({| Main.connection := Main.connection st;
                  Main.tweets := table_after (Main.tweets st) r;
                  Main.produced := Main.produced st ++ new |},
               Some processed)
          | None => (st, Some processed)
          end)
    /\ DatabaseManager.tweet_id processed = Main.str_of_int id
    /\ DatabaseManager.text processed = text
    /\ DatabaseManager.hashtags processed
       = Some (TextPreprocessor.extract_hashtags lower word text)
    /\ TextPreprocessor.categorize_country lower text
         (TextPreprocessor.extract_hashtags lower word text)
       = Some (DatabaseManager.country processed)
    /\ (DatabaseManager.sentiment_score processed,
        DatabaseManager.sentiment_label processed)
       = CHAN2024SentimentAnalyzer.analyze_sentiment polarity
           (TextPreprocessor.clean_text word space emoji text)
    /\ (DatabaseManager.country processed = "Kenya" ->
        new = [processed_message "kenya-hashtags" processed None])
    /\ (DatabaseManager.country processed = "Uganda" ->
        new = [processed_message "uganda-hashtags" processed None])
    /\ (DatabaseManager.country processed = "Tanzania" ->
        new = [processed_message "tanzania-hashtags" processed None])
    /\ (DatabaseManager.country processed = "Pamoja"
        \/ DatabaseManager.country processed = "CHAN-General" ->
        new = [processed_message "kenya-hashtags" processed (Some "Kenya");
               processed_message "uganda-hashtags" processed (Some "Uganda");
               processed_message "tanzania-hashtags" processed
                 (Some "Tanzania")])
    /\ (DatabaseManager.country processed = "General" -> new = []).
Proof.
  intros Htext Hid Hmetrics [Hke [Hug Htz]].
  destruct (cascade_returns_label lower text
              (TextPreprocessor.extract_hashtags lower word text))
    as [label [Hverdict Hlabel]].
  assert (Hcounts : exists retweet_count like_count reply_count,
            Main.metric tweet_data Main.pm_retweet_count = Some retweet_count
            /\ Main.metric tweet_data Main.pm_like_count = Some like_count
            /\ Main.metric tweet_data Main.pm_reply_count = Some reply_count).
  { unfold Main.metric. unfold metrics_readable in Hmetrics.
    destruct (Main.raw_public_metrics tweet_data) as [| | metrics];
      [| congruence |]; do 3 eexists; repeat split; reflexivity. }
  destruct Hcounts as [retweet_count [like_count [reply_count [Hrc [Hlc Hpc]]]]].
  unfold Main.process_tweet. rewrite Htext, Hid, Hverdict, Hrc, Hlc, Hpc.
  unfold CHAN2024SentimentAnalyzer.analyze_sentiment. cbv zeta.
  set (processed :=
         {| DatabaseManager.tweet_id := Main.str_of_int id;
            DatabaseManager.country := label |}).
  exists processed.
  assert (Hrefused : forall st : Main.state,
            {| Main.connection := Main.connection st;
               Main.tweets := Main.tweets st;
               Main.produced := Main.produced st |} = st)
    by (intros []; reflexivity).
  destruct Hlabel as [-> | [-> | [-> | [-> | [-> | ->]]]]].
  - exists [processed_message "kenya-hashtags" processed None].
    split; [| repeat split; intros; try reflexivity;
              try (exfalso; intuition discriminate)].
    intros st Hopen. rewrite Hopen, insert_tweet_open.
    destruct (row_of_tweet timestamp_in processed) as [r |].
    + cbn [Py.list_in existsb String.eqb Ascii.eqb Bool.eqb orb].
      rewrite Hke. reflexivity.
    + cbv iota beta. now rewrite <- Hopen, Hrefused.
  - exists [processed_message "uganda-hashtags" processed None].
    split; [| repeat split; intros; try reflexivity;
              try (exfalso; intuition discriminate)].
    intros st Hopen. rewrite Hopen, insert_tweet_open.
    destruct (row_of_tweet timestamp_in processed) as [r |].
    + cbn [Py.list_in existsb String.eqb Ascii.eqb Bool.eqb orb].
      rewrite Hug. reflexivity.
    + cbv iota beta. now rewrite <- Hopen, Hrefused.
  - exists [processed_message "tanzania-hashtags" processed None].
    split; [| repeat split; intros; try reflexivity;
              try (exfalso; intuition discriminate)].
    intros st Hopen. rewrite Hopen, insert_tweet_open.
    destruct (row_of_tweet timestamp_in processed) as [r |].
    + cbn [Py.list_in existsb String.eqb Ascii.eqb Bool.eqb orb].
      rewrite Htz. reflexivity.
    + cbv iota beta. now rewrite <- Hopen, Hrefused.
  - exists [processed_message "kenya-hashtags" processed (Some "Kenya");
            processed_message "uganda-hashtags" processed (Some "Uganda");
            processed_message "tanzania-hashtags" processed (Some "Tanzania")].
    split; [| repeat split; intros; try reflexivity;
              try (exfalso; intuition discriminate)].
    intros st Hopen. rewrite Hopen, insert_tweet_open.
    destruct (row_of_tweet timestamp_in processed) as [r |].
    + cbn [Py.list_in existsb String.eqb Ascii.eqb Bool.eqb orb Main.broadcast
           Main.lookup Main.topics Config.KAFKA_TOPICS].
      unfold Main.produce. rewrite <- !app_assoc. reflexivity.
    + cbv iota beta. now rewrite <- Hopen, Hrefused.
  - exists [processed_message "kenya-hashtags" processed (Some "Kenya");
            processed_message "uganda-hashtags" processed (Some "Uganda");
            processed_message "tanzania-hashtags" processed (Some "Tanzania")].
    split; [| repeat split; intros; try reflexivity;
              try (exfalso; intuition discriminate)].
    intros st Hopen. rewrite Hopen, insert_tweet_open.
    destruct (row_of_tweet timestamp_in processed) as [r |].
    + cbn [Py.list_in existsb String.eqb Ascii.eqb Bool.eqb orb Main.broadcast
           Main.lookup Main.topics Config.KAFKA_TOPICS].
      unfold Main.produce. rewrite <- !app_assoc. reflexivity.
    + cbv iota beta. now rewrite <- Hopen, Hrefused.
  - exists [].
    split; [| repeat split; intros; try reflexivity;
              try (exfalso; intuition discriminate)].
    intros st Hopen. rewrite Hopen, insert_tweet_open.
    destruct (row_of_tweet timestamp_in processed) as [r |].
    + rewrite app_nil_r. reflexivity.
    + cbv iota beta. now rewrite <- Hopen, Hrefused.
Qed.



Lemma str_lower_host_names : lowers_host_names Py.str_lower.
Proof. repeat split. Qed.

Lemma raw_metrics_readable (id : Z) (text : string) :
  metrics_readable (raw id text).
Proof. discriminate. Qed.


(** The tweet with the id 10^50, whose decimal form has 51 characters, is
    returned as a record to the consumer loop, but the database refuses it:
    nothing is stored and nothing is produced.  A tweet whose metrics are
    [None] gives no record at all. *)
Lemma unstorable_tweets_are_not_published :
  (exists processed,
     sample_process_tweet empty_state
       (raw (10 ^ 50) "Go #UgandaCranes!")
     = (empty_state, Some processed)
     /\ DatabaseManager.country processed = "Uganda"
     /\ String.length (DatabaseManager.tweet_id processed) = 51)
  /\ sample_process_tweet empty_state
       {| Main.raw_id := Some 7%Z;
          Main.raw_text := Some "Go #UgandaCranes!";
          Main.raw_author_id := None; Main.raw_created_at := None;
          Main.raw_public_metrics := Main.MetricsNone |}
     = (empty_state, None).
Proof.
  split; [eexists; split; [vm_compute; reflexivity | split; reflexivity] |].
  reflexivity.
Qed.

(** X21. A raw tweet without text, or without id, is not processed:
    [process_tweet] returns [None] and neither stores nor produces
    anything. *)
Theorem process_tweet_without_text_or_id :
  forall (lower : string -> string) (word space emoji : ascii -> bool)
         (polarity : string -> spec_float)
         (timestamp_in : string -> option Z)
         (env_raw env_processed : option string) (st : Main.state)
         (tweet_data : Main.raw_tweet),
    Main.raw_text tweet_data = None \/ Main.raw_id tweet_data = None ->
    Main.process_tweet lower word space emoji polarity timestamp_in env_raw
      env_processed st tweet_data
    = (st, None).
Proof.
  intros lower word space emoji polarity timestamp_in env_raw env_processed
    st tweet_data [Htext | Hid]; unfold Main.process_tweet.
  - now rewrite Htext.
  - destruct (Main.raw_text tweet_data) as [text |]; [| reflexivity].
    destruct (TextPreprocessor.categorize_country lower text _);
      [| reflexivity].
    unfold CHAN2024SentimentAnalyzer.analyze_sentiment. cbv zeta.
    now rewrite Hid.
Qed.

Lemma process_tweet_without_text_or_id_witness :
  Main.process_tweet Py.str_lower Re.ascii_word Re.ascii_space
    (fun _ => false) (fun _ => S754_zero false) sample_timestamp_in None None
    empty_state
    {| Main.raw_id := None; Main.raw_text := Some "Go #UgandaCranes!";
       Main.raw_author_id := None; Main.raw_created_at := None;
       Main.raw_public_metrics := Main.MetricsMissing |}
  = (empty_state, None).
Proof.
  apply process_tweet_without_text_or_id. right. reflexivity.
Defined.

Ltac settle_on_topic :=
  unfold on_topic; split;
  [ intros [m [Hin Htopic]]; simpl in Hin;
    repeat (destruct Hin as [<- | Hin]; [simpl in Htopic | ]);
    first [ contradiction
          | discriminate Htopic
          | left; reflexivity
          | right; left; reflexivity
          | right; right; reflexivity ]
  | intros H;
    first [ solve [exfalso; intuition discriminate]
          | solve [eexists; split; [left; reflexivity | reflexivity]]
          | solve [eexists; split; [right; left; reflexivity | reflexivity]]
          | solve [eexists; split; [right; right; left; reflexivity
                                   | reflexivity]] ] ].

Ltac split_routes :=
  split; [settle_on_topic
         | split; [settle_on_topic | split; [settle_on_topic | split]]].

(** The messages a processed tweet is published with, by its label. *)
Lemma routes_of_label (processed : DatabaseManager.tweet_data)
    (new : list Main.message) :
  In (DatabaseManager.country processed) CategoryVocabulary ->
  (DatabaseManager.country processed = "Kenya" ->
   new = [processed_message "kenya-hashtags" processed None]) ->
  (DatabaseManager.country processed = "Uganda" ->
   new = [processed_message "uganda-hashtags" processed None]) ->
  (DatabaseManager.country processed = "Tanzania" ->
   new = [processed_message "tanzania-hashtags" processed None]) ->
  (DatabaseManager.country processed = "Pamoja"
   \/ DatabaseManager.country processed = "CHAN-General" ->
   new = [processed_message "kenya-hashtags" processed (Some "Kenya");
          processed_message "uganda-hashtags" processed (Some "Uganda");
          processed_message "tanzania-hashtags" processed (Some "Tanzania")]) ->
  (DatabaseManager.country processed = "General" -> new = []) ->
  let label := DatabaseManager.country processed in
  let shared := label = "Pamoja" \/ label = "CHAN-General" in
  (on_topic "kenya-hashtags" new <-> label = "Kenya" \/ shared)
  /\ (on_topic "uganda-hashtags" new <-> label = "Uganda" \/ shared)
  /\ (on_topic "tanzania-hashtags" new <-> label = "Tanzania" \/ shared)
  /\ (label = "General" -> new = [])
  /\ forall m, In m new ->
       exists tag,
         Main.msg_value m = Main.ProcessedTweet processed tag
         /\ In (Main.msg_topic m)
              ["kenya-hashtags"; "uganda-hashtags"; "tanzania-hashtags"].
Proof.
  intros Hcases Hke Hug Htz Hshared Hgeneral. cbv zeta.
  simpl in Hcases.
  destruct Hcases as [E | [E | [E | [E | [E | [E | []]]]]]];
    symmetry in E; rewrite E in *.
  - rewrite (Hke eq_refl). split_routes; [discriminate |].
    intros m [<- | []]. eexists. split; [reflexivity | simpl; tauto].
  - rewrite (Hug eq_refl). split_routes; [discriminate |].
    intros m [<- | []]. eexists. split; [reflexivity | simpl; tauto].
  - rewrite (Htz eq_refl). split_routes; [discriminate |].
    intros m [<- | []]. eexists. split; [reflexivity | simpl; tauto].
  - rewrite (Hshared (or_introl eq_refl)). split_routes; [discriminate |].
    intros m [<- | [<- | [<- | []]]]; eexists;
      (split; [reflexivity | simpl; tauto]).
  - rewrite (Hshared (or_intror eq_refl)). split_routes; [discriminate |].
    intros m [<- | [<- | [<- | []]]]; eexists;
      (split; [reflexivity | simpl; tauto]).
  - rewrite (Hgeneral eq_refl). split_routes; [reflexivity |].
    intros m [].
Qed.

Lemma verdict_in_vocabulary (lower : string -> string) (t : string)
    (h : list string) (label : string) :
  TextPreprocessor.categorize_country lower t h = Some label ->
  In label CategoryVocabulary.
Proof.
  intros H. destruct (cascade_returns_label lower t h) as [l [Hl Hcases]].
  rewrite H in Hl. injection Hl as <-.
  destruct Hcases as [-> | [-> | [-> | [-> | [-> | ->]]]]]; simpl; tauto.
Qed.

(** X22. Over an open connection, a tweet with a text, an id and readable
    metrics that the database accepts is published on the topic of a host
    country exactly when its label is that country or one of the shared
    labels Pamoja and CHAN-General; a tweet labelled General is stored but
    published on no country topic; the messages produced all carry the
    processed record.  A tweet that the database refuses is published
    nowhere, whatever its label. *)
Theorem process_tweet_routing :
  forall (lower : string -> string) (word space emoji : ascii -> bool)
         (polarity : string -> spec_float)
         (timestamp_in : string -> option Z)
         (env_raw env_processed : option string) (st : Main.state)
         (tweet_data : Main.raw_tweet) (text : string) (id : Z),
    Main.raw_text tweet_data = Some text ->
    Main.raw_id tweet_data = Some id ->
    metrics_readable tweet_data ->
    lowers_host_names lower ->
    Main.connection st = DatabaseManager.ConnectionOpen ->
    let result :=
      Main.process_tweet lower word space emoji polarity timestamp_in env_raw
        env_processed st tweet_data in
    exists processed new,
      snd result = Some processed
      /\ Main.produced (fst result) = Main.produced st ++ new
      /\ match row_of_tweet timestamp_in processed with
         | Some r =>
             let label := DatabaseManager.country processed in
             let shared := label = "Pamoja" \/ label = "CHAN-General" in
             (on_topic "kenya-hashtags" new <-> label = "Kenya" \/ shared)
             /\ (on_topic "uganda-hashtags" new <-> label = "Uganda" \/ shared)
             /\ (on_topic "tanzania-hashtags" new
                 <-> label = "Tanzania" \/ shared)
             /\ (label = "General" -> new = [])
             /\ forall m, In m new ->
                  exists tag,
                    Main.msg_value m = Main.ProcessedTweet processed tag
                    /\ In (Main.msg_topic m)
                         ["kenya-hashtags"; "uganda-hashtags";
                          "tanzania-hashtags"]
         | None => new = []
         end.
Proof.
  intros lower word space emoji polarity timestamp_in env_raw env_processed
    st tweet_data text id Htext Hid Hmetrics Hlower Hopen result.
  destruct (process_tweet_result lower word space emoji polarity timestamp_in
              env_raw env_processed tweet_data text id Htext Hid Hmetrics
              Hlower)
    as [processed [new [Hrun [_ [_ [_ [Hverdict [_ Hroute]]]]]]]].
  destruct Hroute as [Hke [Hug [Htz [Hshared Hgeneral]]]].
  exists processed. unfold result. rewrite (Hrun st Hopen).
  destruct (row_of_tweet timestamp_in processed) as [r |].
  - exists new. split; [reflexivity | split; [reflexivity |]].
    apply routes_of_label; try assumption.
    exact (verdict_in_vocabulary _ _ _ _ Hverdict).
  - exists []. split; [reflexivity |].
    split; [simpl; now rewrite app_nil_r | reflexivity].
Qed.

Lemma process_tweet_routing_witness :
  exists processed new,
    snd (sample_process_tweet empty_state (raw 7 "Pamoja! #CHAN2024"))
    = Some processed
    /\ Main.produced
         (fst (sample_process_tweet empty_state (raw 7 "Pamoja! #CHAN2024")))
       = Main.produced empty_state ++ new
    /\ match row_of_tweet sample_timestamp_in processed with
       | Some r =>
           let label := DatabaseManager.country processed in
           let shared := label = "Pamoja" \/ label = "CHAN-General" in
           (on_topic "kenya-hashtags" new <-> label = "Kenya" \/ shared)
           /\ (on_topic "uganda-hashtags" new <-> label = "Uganda" \/ shared)
           /\ (on_topic "tanzania-hashtags" new
               <-> label = "Tanzania" \/ shared)
           /\ (label = "General" -> new = [])
           /\ forall m, In m new ->
                exists tag,
                  Main.msg_value m = Main.ProcessedTweet processed tag
                  /\ In (Main.msg_topic m)
                       ["kenya-hashtags"; "uganda-hashtags";
                        "tanzania-hashtags"]
       | None => new = []
       end.
Proof.
  exact (process_tweet_routing Py.str_lower Re.ascii_word Re.ascii_space
           (fun _ => false) (fun _ => S754_zero false) sample_timestamp_in
           None None empty_state
           (raw 7 "Pamoja! #CHAN2024") "Pamoja! #CHAN2024" 7
           eq_refl eq_refl (raw_metrics_readable 7 "Pamoja! #CHAN2024")
           str_lower_host_names eq_refl).
Defined.

(** X23. The flag stored with a tweet and the broadcast agree.  Over an open
    connection, for a tweet with a text, an id and readable metrics that the
    database accepts, the row made of the record has [is_shared_content] true
    exactly when the tweet is published three times, once per host country
    with the key [shared_for_country], and otherwise no message carries that
    key.  For a tweet that the database refuses there is no row and no
    message. *)
Theorem shared_flag_agrees_with_broadcast :
  forall (lower : string -> string) (word space emoji : ascii -> bool)
         (polarity : string -> spec_float)
         (timestamp_in : string -> option Z)
         (env_raw env_processed : option string) (st : Main.state)
         (tweet_data : Main.raw_tweet) (text : string) (id : Z),
    Main.raw_text tweet_data = Some text ->
    Main.raw_id tweet_data = Some id ->
    metrics_readable tweet_data ->
    lowers_host_names lower ->
    Main.connection st = DatabaseManager.ConnectionOpen ->
    let result :=
      Main.process_tweet lower word space emoji polarity timestamp_in env_raw
        env_processed st tweet_data in
    exists processed new,
      snd result = Some processed
      /\ Main.produced (fst result) = Main.produced st ++ new
      /\ match row_of_tweet timestamp_in processed with
         | Some r =>
             In r (Main.tweets (fst result))
             \/ DatabaseManager.has_tweet_id (Main.tweets st)
                  (DatabaseManager.col_tweet_id r) = true
         | None => Main.tweets (fst result) = Main.tweets st
         end
      /\ match row_of_tweet timestamp_in processed with
         | Some r =>
             let flag := DatabaseManager.col_is_shared_content r in
             (flag = true ->
              map Main.msg_value new
              = [Main.ProcessedTweet processed (Some "Kenya");
                 Main.ProcessedTweet processed (Some "Uganda");
                 Main.ProcessedTweet processed (Some "Tanzania")])
             /\ (flag = false ->
                 forall m, In m new ->
                   Main.msg_value m = Main.ProcessedTweet processed None)
         | None => new = []
         end.
Proof.
  intros lower word space emoji polarity timestamp_in env_raw env_processed
    st tweet_data text id Htext Hid Hmetrics Hlower Hopen result.
  destruct (process_tweet_result lower word space emoji polarity timestamp_in
              env_raw env_processed tweet_data text id Htext Hid Hmetrics
              Hlower)
    as [processed [new [Hrun [_ [_ [_ [Hverdict [_ Hroute]]]]]]]].
  destruct Hroute as [Hke [Hug [Htz [Hshared Hgeneral]]]].
  exists processed. unfold result. rewrite (Hrun st Hopen).
  destruct (row_of_tweet timestamp_in processed) as [r |] eqn:Hr.
  - exists new. split; [reflexivity | split; [reflexivity |]].
    split.
    { simpl. unfold table_after.
      destruct (DatabaseManager.has_tweet_id (Main.tweets st) _);
        [now right | left].
      apply in_or_app. right. now left. }
    apply row_of_tweet_columns in Hr.
    destruct Hr as [_ [_ [_ [_ [_ [_ [_ [_ [_ [_ [_ Hflag]]]]]]]]]]].
    cbv zeta. rewrite Hflag. unfold DatabaseManager.is_shared_of.
    pose proof (verdict_in_vocabulary _ _ _ _ Hverdict) as Hcases.
    simpl in Hcases.
    destruct Hcases as [E | [E | [E | [E | [E | [E | []]]]]]];
      symmetry in E; rewrite E in *; simpl Py.list_in.
    + rewrite (Hke eq_refl). split; [discriminate |].
      intros _ m [<- | []]. reflexivity.
    + rewrite (Hug eq_refl). split; [discriminate |].
      intros _ m [<- | []]. reflexivity.
    + rewrite (Htz eq_refl). split; [discriminate |].
      intros _ m [<- | []]. reflexivity.
    + rewrite (Hshared (or_introl eq_refl)).
      split; [reflexivity | discriminate].
    + rewrite (Hshared (or_intror eq_refl)).
      split; [reflexivity | discriminate].
    + rewrite (Hgeneral eq_refl). split; [discriminate |]. intros _ m [].
  - exists []. split; [reflexivity |].
    split; [simpl; now rewrite app_nil_r |].
    split; reflexivity.
Qed.

Lemma shared_flag_agrees_with_broadcast_witness :
  exists processed new,
    snd (sample_process_tweet empty_state (raw 7 "Pamoja! #CHAN2024"))
    = Some processed
    /\ Main.produced
         (fst (sample_process_tweet empty_state (raw 7 "Pamoja! #CHAN2024")))
       = Main.produced empty_state ++ new
    /\ match row_of_tweet sample_timestamp_in processed with
       | Some r =>
           In r (Main.tweets
                   (fst (sample_process_tweet empty_state
                           (raw 7 "Pamoja! #CHAN2024"))))
           \/ DatabaseManager.has_tweet_id (Main.tweets empty_state)
                (DatabaseManager.col_tweet_id r) = true
       | None =>
           Main.tweets
             (fst (sample_process_tweet empty_state
                     (raw 7 "Pamoja! #CHAN2024")))
           = Main.tweets empty_state
       end
    /\ match row_of_tweet sample_timestamp_in processed with
       | Some r =>
           let flag := DatabaseManager.col_is_shared_content r in
           (flag = true ->
            map Main.msg_value new
            = [Main.ProcessedTweet processed (Some "Kenya");
               Main.ProcessedTweet processed (Some "Uganda");
               Main.ProcessedTweet processed (Some "Tanzania")])
           /\ (flag = false ->
               forall m, In m new ->
                 Main.msg_value m = Main.ProcessedTweet processed None)
       | None => new = []
       end.
Proof.
  exact (shared_flag_agrees_with_broadcast Py.str_lower Re.ascii_word
           Re.ascii_space (fun _ => false) (fun _ => S754_zero false)
           sample_timestamp_in None None empty_state
           (raw 7 "Pamoja! #CHAN2024") "Pamoja! #CHAN2024" 7
           eq_refl eq_refl (raw_metrics_readable 7 "Pamoja! #CHAN2024")
           str_lower_host_names eq_refl).
Defined.

(** X24. Processing the same raw tweet a second time leaves the table as
    the first processing left it and returns the same record, but produces
    the same messages once more: the store ignores the duplicate, the
    producer does not. *)
Theorem reprocessing_republishes :
  forall (lower : string -> string) (word space emoji : ascii -> bool)
         (polarity : string -> spec_float)
         (timestamp_in : string -> option Z)
         (env_raw env_processed : option string) (st : Main.state)
         (tweet_data : Main.raw_tweet) (text : string) (id : Z),
    Main.raw_text tweet_data = Some text ->
    Main.raw_id tweet_data = Some id ->
    lowers_host_names lower ->
    let process :=
      Main.process_tweet lower word space emoji polarity timestamp_in env_raw
        env_processed in
    let first := process st tweet_data in
    let second := process (fst first) tweet_data in
    snd second = snd first
    /\ Main.tweets (fst second) = Main.tweets (fst first)
    /\ exists new,
         Main.produced (fst first) = Main.produced st ++ new
         /\ Main.produced (fst second) = Main.produced st ++ new ++ new.
Proof.
  intros lower word space emoji polarity timestamp_in env_raw env_processed
    st tweet_data text id Htext Hid Hlower process first second.
  assert (Hidle : Main.process_tweet lower word space emoji polarity
                    timestamp_in env_raw env_processed st tweet_data
                  = (st, None) ->
                  snd second = snd first
                  /\ Main.tweets (fst second) = Main.tweets (fst first)
                  /\ exists new,
                       Main.produced (fst first) = Main.produced st ++ new
                       /\ Main.produced (fst second)
                          = Main.produced st ++ new ++ new).
  { intros Hnone. unfold second, first, process. rewrite Hnone. simpl fst.
    rewrite Hnone. split; [reflexivity | split; [reflexivity |]].
    exists []. simpl. now rewrite app_nil_r. }
  destruct (Main.connection st) eqn:Hconn;
    [| apply Hidle, process_tweet_gives_up; now left].
  destruct (Main.raw_public_metrics tweet_data) eqn:Hmetrics;
    try (apply Hidle, process_tweet_gives_up; now right).
  - assert (Hreadable : metrics_readable tweet_data)
      by (unfold metrics_readable; congruence).
    destruct (process_tweet_result lower word space emoji polarity
                timestamp_in env_raw env_processed tweet_data text id Htext
                Hid Hreadable Hlower)
      as [processed [new [Hrun _]]].
    unfold second, first, process. rewrite (Hrun st Hconn).
    destruct (row_of_tweet timestamp_in processed) as [r |] eqn:Hr.
    + simpl fst.
      match goal with
      | |- context [Main.process_tweet _ _ _ _ _ _ _ _ ?s tweet_data] =>
          rewrite (Hrun s Hconn)
      end.
      simpl.
      split; [reflexivity | split; [apply table_after_idempotent |]].
      exists new. split; [reflexivity | now rewrite app_assoc].
    + simpl fst. rewrite (Hrun st Hconn).
      split; [reflexivity | split; [reflexivity |]].
      exists []. simpl. now rewrite app_nil_r.
  - assert (Hreadable : metrics_readable tweet_data)
      by (unfold metrics_readable; congruence).
    destruct (process_tweet_result lower word space emoji polarity
                timestamp_in env_raw env_processed tweet_data text id Htext
                Hid Hreadable Hlower)
      as [processed [new [Hrun _]]].
    unfold second, first, process. rewrite (Hrun st Hconn).
    destruct (row_of_tweet timestamp_in processed) as [r |] eqn:Hr.
    + simpl fst.
      match goal with
      | |- context [Main.process_tweet _ _ _ _ _ _ _ _ ?s tweet_data] =>
          rewrite (Hrun s Hconn)
      end.
      simpl.
      split; [reflexivity | split; [apply table_after_idempotent |]].
      exists new. split; [reflexivity | now rewrite app_assoc].
    + simpl fst. rewrite (Hrun st Hconn).
      split; [reflexivity | split; [reflexivity |]].
      exists []. simpl. now rewrite app_nil_r.
Qed.

Lemma reprocessing_republishes_witness :
  snd (sample_process_tweet
         (fst (sample_process_tweet empty_state (raw 7 "Go #UgandaCranes!")))
         (raw 7 "Go #UgandaCranes!"))
  = snd (sample_process_tweet empty_state (raw 7 "Go #UgandaCranes!"))
  /\ Main.tweets
       (fst (sample_process_tweet
               (fst (sample_process_tweet empty_state
                       (raw 7 "Go #UgandaCranes!")))
               (raw 7 "Go #UgandaCranes!")))
     = Main.tweets
         (fst (sample_process_tweet empty_state (raw 7 "Go #UgandaCranes!")))
  /\ exists new,
       Main.produced
         (fst (sample_process_tweet empty_state (raw 7 "Go #UgandaCranes!")))
       = Main.produced empty_state ++ new
       /\ Main.produced
            (fst (sample_process_tweet
                    (fst (sample_process_tweet empty_state
                            (raw 7 "Go #UgandaCranes!")))
                    (raw 7 "Go #UgandaCranes!")))
          = Main.produced empty_state ++ new ++ new.
Proof.
  exact (reprocessing_republishes Py.str_lower Re.ascii_word Re.ascii_space
           (fun _ => false) (fun _ => S754_zero false) sample_timestamp_in
           None None empty_state
           (raw 7 "Go #UgandaCranes!") "Go #UgandaCranes!" 7
           eq_refl eq_refl str_lower_host_names).
Defined.

(** X25. [consume_message] publishes every tweet for which [process_tweet]
    returned a record, a tweet labelled General or one that the database
    refused too, exactly once on the processed topic, after the messages of
    the country topics and without the key [shared_for_country]; when
    [process_tweet] returned [None] it adds nothing.  Over an open
    connection a tweet with a text, an id and readable metrics does give a
    record; a raw tweet without text or without id changes nothing. *)
Theorem consume_message_publishes_processed :
  forall (lower : string -> string) (word space emoji : ascii -> bool)
         (polarity : string -> spec_float)
         (timestamp_in : string -> option Z)
         (env_raw env_processed : option string) (st : Main.state)
         (tweet_data : Main.raw_tweet),
    let processed_state_and_record :=
      Main.process_tweet lower word space emoji polarity timestamp_in env_raw
        env_processed st tweet_data in
    let consumed :=
      Main.consume_message lower word space emoji polarity timestamp_in
        env_raw env_processed st tweet_data in
    (forall text id,
        Main.raw_text tweet_data = Some text ->
        Main.raw_id tweet_data = Some id ->
        metrics_readable tweet_data ->
        lowers_host_names lower ->
        Main.connection st = DatabaseManager.ConnectionOpen ->
        exists processed,
          snd processed_state_and_record = Some processed
          /\ Main.tweets consumed
             = Main.tweets (fst processed_state_and_record)
          /\ Main.produced consumed
             = Main.produced (fst processed_state_and_record)
               ++ [processed_message
                     (Config.getenv_default env_processed
                        "chan2024-tweets-processed")
                     processed None])
    /\ (forall processed,
          snd processed_state_and_record = Some processed ->
          Main.tweets consumed = Main.tweets (fst processed_state_and_record)
          /\ Main.produced consumed
             = Main.produced (fst processed_state_and_record)
               ++ [processed_message
                     (Config.getenv_default env_processed
                        "chan2024-tweets-processed")
                     processed None])
    /\ (snd processed_state_and_record = None ->
        consumed = fst processed_state_and_record)
    /\ (Main.raw_text tweet_data = None \/ Main.raw_id tweet_data = None ->
        consumed = st).
Proof.
  intros lower word space emoji polarity timestamp_in env_raw env_processed
    st tweet_data run consumed.
  assert (Hsome : forall processed,
            snd run = Some processed ->
            Main.tweets consumed = Main.tweets (fst run)
            /\ Main.produced consumed
               = Main.produced (fst run)
                 ++ [processed_message
                       (Config.getenv_default env_processed
                          "chan2024-tweets-processed")
                       processed None]).
  { intros processed. unfold consumed, Main.consume_message. fold run.
    destruct run as [st' record]. simpl. intros ->. split; reflexivity. }
  split; [| split; [exact Hsome | split]].
  - intros text id Htext Hid Hmetrics Hlower Hopen.
    destruct (process_tweet_result lower word space emoji polarity
                timestamp_in env_raw env_processed tweet_data text id Htext
                Hid Hmetrics Hlower)
      as [processed [new [Hrun _]]].
    exists processed.
    assert (Hrecord : snd run = Some processed).
    { unfold run. rewrite (Hrun st Hopen).
      now destruct (row_of_tweet timestamp_in processed). }
    split; [exact Hrecord | exact (Hsome processed Hrecord)].
  - unfold consumed, Main.consume_message. fold run.
    destruct run as [st' record]. simpl. now intros ->.
  - intros Hmissing.
    assert (Hnone : run = (st, None)).
    { unfold run. destruct Hmissing as [Htext | Hid];
        unfold Main.process_tweet.
      - now rewrite Htext.
      - destruct (Main.raw_text tweet_data) as [text |]; [| reflexivity].
        destruct (TextPreprocessor.categorize_country lower text _);
          [| reflexivity].
        unfold CHAN2024SentimentAnalyzer.analyze_sentiment. cbv zeta.
        now rewrite Hid. }
    unfold consumed, Main.consume_message. fold run. now rewrite Hnone.
Qed.

Lemma consume_message_publishes_processed_witness :
  exists processed,
    snd (sample_process_tweet empty_state (raw 7 "good morning everyone"))
    = Some processed
    /\ Main.tweets
         (sample_consume_message empty_state (raw 7 "good morning everyone"))
       = Main.tweets
           (fst (sample_process_tweet empty_state
                   (raw 7 "good morning everyone")))
    /\ Main.produced
         (sample_consume_message empty_state (raw 7 "good morning everyone"))
       = Main.produced
           (fst (sample_process_tweet empty_state
                   (raw 7 "good morning everyone")))
         ++ [processed_message "chan2024-tweets-processed" processed None].
Proof.
  exact (proj1 (consume_message_publishes_processed Py.str_lower Re.ascii_word
                  Re.ascii_space (fun _ => false) (fun _ => S754_zero false)
                  sample_timestamp_in None None empty_state
                  (raw 7 "good morning everyone"))
           "good morning everyone" 7%Z eq_refl eq_refl
           (raw_metrics_readable 7 "good morning everyone")
           str_lower_host_names eq_refl).
Defined.

Lemma str_of_int_injective (a b : Z) :
  Main.str_of_int a = Main.str_of_int b -> a = b.
Proof.
  unfold Main.str_of_int. intros H.
  apply (f_equal NilEmpty.int_of_string) in H.
  rewrite !NilEmpty.isi in H. injection H as H.
  apply (f_equal Z.of_int) in H. now rewrite !DecimalZ.of_to in H.
Qed.

(** X26. The tweet id under which a tweet is stored identifies its numeric
    id: two processed tweets have the same tweet id exactly when the raw
    tweets have the same id, so tweets with different ids never collide in
    the table. *)
Theorem stored_tweet_id_identifies_the_id :
  forall (lower : string -> string) (word space emoji : ascii -> bool)
         (polarity : string -> spec_float)
         (timestamp_in : string -> option Z)
         (env_raw env_processed : option string) (st st' : Main.state)
         (tweet_data tweet_data' : Main.raw_tweet)
         (id id' : Z) (processed processed' : DatabaseManager.tweet_data),
    Main.raw_id tweet_data = Some id ->
    Main.raw_id tweet_data' = Some id' ->
    snd (Main.process_tweet lower word space emoji polarity timestamp_in
           env_raw env_processed st tweet_data) = Some processed ->
    snd (Main.process_tweet lower word space emoji polarity timestamp_in
           env_raw env_processed st' tweet_data') = Some processed' ->
    (DatabaseManager.tweet_id processed = DatabaseManager.tweet_id processed'
     <-> id = id').
Proof.
  assert (Hid_of : forall lower word space emoji polarity timestamp_in env_raw
                          env_processed st tweet_data id processed,
             Main.raw_id tweet_data = Some id ->
             snd (Main.process_tweet lower word space emoji polarity
                    timestamp_in env_raw env_processed st tweet_data)
             = Some processed ->
             DatabaseManager.tweet_id processed = Main.str_of_int id).
  { intros lower word space emoji polarity timestamp_in env_raw env_processed
      st tweet_data id processed Hid. unfold Main.process_tweet.
    destruct (Main.raw_text tweet_data) as [text |]; [| discriminate].
    destruct (TextPreprocessor.categorize_country lower text _) as [country |];
      [| discriminate].
    unfold CHAN2024SentimentAnalyzer.analyze_sentiment. cbv zeta.
    rewrite Hid.
    destruct (Main.metric tweet_data Main.pm_retweet_count);
      [| discriminate].
    destruct (Main.metric tweet_data Main.pm_like_count); [| discriminate].
    destruct (Main.metric tweet_data Main.pm_reply_count); [| discriminate].
    destruct (DatabaseManager.insert_tweet _ _ _ _) as [[tweets' success] |];
      [| discriminate].
    destruct success.
    - destruct (Py.list_in country ["Kenya"; "Uganda"; "Tanzania"]).
      + destruct (Main.lookup _ _); simpl; intros H; [| discriminate H].
        injection H as <-. reflexivity.
      + destruct (Py.list_in country ["Pamoja"; "CHAN-General"]).
        * destruct (Main.broadcast _ _ _ _ _) as [out []]; simpl; intros H;
            [| discriminate H].
          injection H as <-. reflexivity.
        * simpl. intros H. injection H as <-. reflexivity.
    - simpl. intros H. injection H as <-. reflexivity. }
  intros lower word space emoji polarity timestamp_in env_raw env_processed
    st st' tweet_data tweet_data' id id' processed processed' Hid Hid' Hp Hp'.
  rewrite (Hid_of _ _ _ _ _ _ _ _ _ _ _ _ Hid Hp).
  rewrite (Hid_of _ _ _ _ _ _ _ _ _ _ _ _ Hid' Hp').
  split; [apply str_of_int_injective | now intros ->].
Qed.

Lemma stored_tweet_id_identifies_the_id_witness :
  exists processed processed',
    snd (sample_process_tweet empty_state (raw 7 "a")) = Some processed
    /\ snd (sample_process_tweet empty_state (raw 8 "a")) = Some processed'
    /\ (DatabaseManager.tweet_id processed
        = DatabaseManager.tweet_id processed' <-> 7%Z = 8%Z).
Proof.
  eexists. eexists. split; [reflexivity | split; [reflexivity |]].
  apply (stored_tweet_id_identifies_the_id Py.str_lower Re.ascii_word
           Re.ascii_space (fun _ => false) (fun _ => S754_zero false)
           sample_timestamp_in None None empty_state empty_state (raw 7 "a")
           (raw 8 "a") 7%Z 8%Z);
    reflexivity.
Defined.

(** ** Repeated hashtags *)

Lemma list_in_repeat (x y : string) (n : nat) :
  Py.list_in x (repeat y (S n)) = String.eqb x y.
Proof.
  unfold Py.list_in. induction n as [| n IH]; simpl in *.
  - apply orb_false_r.
  - rewrite IH. apply orb_diag.
Qed.

Lemma sum_if_repeat {A : Type} (p : A -> bool) (y : A) (n : nat) :
  p y = true -> Py.sum_if 1 p (repeat y n) = n.
Proof.
  intros Hp. unfold Py.sum_if. induction n as [| n IH]; simpl;
    [reflexivity |].
  rewrite Hp. simpl. now rewrite IH.
Qed.

(** X27. A repeated hashtag counts once for a country and each time as a
    shared hashtag: when the hashtags are "#chan2024" two or more times and
    nothing else, the guard of the tie-break fails and the verdict is Kenya
    for every text, whereas a single "#chan2024" leads to the tie-break. *)
Theorem repeated_shared_hashtag_gives_kenya :
  forall (t : string) (n : nat),
    2 <= n ->
    classify t (repeat "#chan2024" n) = Some "Kenya"
    /\ tie_break_decides (map Py.str_lower (repeat "#chan2024" n)) = false
    /\ tie_break_decides (map Py.str_lower (repeat "#chan2024" 1)) = true.
Proof.
  intros t n Hn. destruct n as [| [| n]]; try lia.
  assert (Hlow : map Py.str_lower (repeat "#chan2024" (S (S n)))
                 = repeat "#chan2024" (S (S n)))
    by (rewrite map_repeat; reflexivity).
  assert (Hscores : TextPreprocessor.country_hashtag_scores_of
                      (repeat "#chan2024" (S (S n)))
                    = [("Kenya", 1); ("Uganda", 1); ("Tanzania", 1)]).
  { unfold TextPreprocessor.country_hashtag_scores_of,
      TextPreprocessor.hashtag_matches, Py.sum_if, Config.COUNTRY_HASHTAGS.
    cbn [fold_left filter]. rewrite !list_in_repeat. reflexivity. }
  assert (Hshared : TextPreprocessor.shared_count_of
                      (repeat "#chan2024" (S (S n))) = S (S n))
    by (apply sum_if_repeat; reflexivity).
  split; [| split; [| reflexivity]].
  - unfold classify, TextPreprocessor.categorize_country. cbv zeta.
    rewrite Hlow, Hscores, Hshared. reflexivity.
  - unfold tie_break_decides. cbv zeta. rewrite Hlow, Hscores, Hshared.
    reflexivity.
Qed.

Lemma repeated_shared_hashtag_gives_kenya_witness :
  classify "Pamoja #CHAN2024 #chan2024" ["#chan2024"; "#chan2024"]
  = Some "Kenya".
Proof.
  exact (proj1 (repeated_shared_hashtag_gives_kenya
                  "Pamoja #CHAN2024 #chan2024" 2 (le_n 2))).
Defined.

(** ** The country rankings *)

Lemma insert_desc_perm {A : Type} (key : A -> nat) (x : A) (l : list A) :
  Permutation (MetricsCalculator.insert_desc key x l) (x :: l).
Proof.
  induction l as [| y l IH]; simpl; [apply Permutation_refl |].
  destruct (key y <=? key x); [apply Permutation_refl |].
  eapply perm_trans; [apply perm_skip, IH | apply perm_swap].
Qed.

Lemma sorted_desc_perm {A : Type} (key : A -> nat) (l : list A) :
  Permutation (MetricsCalculator.sorted_desc key l) l.
Proof.
  induction l as [| x l IH]; simpl; [apply perm_nil |].
  eapply perm_trans; [apply insert_desc_perm | apply perm_skip, IH].
Qed.

Lemma insert_desc_sorted {A : Type} (key : A -> nat) (x : A) (l : list A) :
  StronglySorted (fun a b => key b <= key a) l ->
  StronglySorted (fun a b => key b <= key a)
    (MetricsCalculator.insert_desc key x l).
Proof.
  induction l as [| y l IH]; intros Hs; simpl.
  - repeat constructor.
  - inversion Hs as [| ? ? Hl Hy]; subst.
    destruct (key y <=? key x) eqn:Hle.
    + apply Nat.leb_le in Hle. constructor; [exact Hs |].
      constructor; [exact Hle |]. rewrite Forall_forall in *.
      intros b Hb. specialize (Hy b Hb). lia.
    + apply Nat.leb_gt in Hle. constructor; [now apply IH |].
      rewrite Forall_forall in *. intros b Hb.
      apply (Permutation_in _ (insert_desc_perm key x l)) in Hb.
      destruct Hb as [<- | Hb]; [lia | now apply Hy].
Qed.

Lemma sorted_desc_sorted {A : Type} (key : A -> nat) (l : list A) :
  StronglySorted (fun a b => key b <= key a)
    (MetricsCalculator.sorted_desc key l).
Proof.
  induction l as [| x l IH]; simpl; [constructor |].
  now apply insert_desc_sorted.
Qed.

Lemma sorted_nth {A : Type} (R : A -> A -> Prop) (l : list A) :
  StronglySorted R l ->
  forall i j a b,
    nth_error l i = Some a -> nth_error l j = Some b -> i < j -> R a b.
Proof.
  induction 1 as [| x l Hs IH Hx]; intros i j a b Hi Hj Hlt.
  - destruct i; discriminate.
  - destruct j as [| j]; [lia |]. simpl in Hj. destruct i as [| i].
    + simpl in Hi. injection Hi as <-. rewrite Forall_forall in Hx.
      apply Hx. eapply nth_error_In, Hj.
    + simpl in Hi. apply (IH i j); [assumption | assumption | lia].
Qed.

Lemma lookup_set {V : Type} (d : Dict.t V) (k k' : string) (v : V) :
  Main.lookup (Dict.set d k v) k'
  = if String.eqb k k' then Some v else Main.lookup d k'.
Proof.
  induction d as [| [k0 v0] d IH]; simpl.
  - reflexivity.
  - destruct (String.eqb_spec k0 k) as [-> | Hne]; simpl.
    + destruct (String.eqb k k'); reflexivity.
    + rewrite IH. destruct (String.eqb_spec k0 k') as [-> | Hne'];
        [| reflexivity].
      destruct (String.eqb_spec k k'); [congruence | reflexivity].
Qed.

(** The loop that fills the rankings: each row gets its entry under its
    country, with the rank of its position. *)
Lemma fill_rankings_entries (decimal : Type)
    (round_float : decimal -> nat -> spec_float)
    (percentage : nat -> nat -> spec_float)
    (l : list (MetricsCalculator.country_row decimal)) :
  forall start acc,
    (forall r, In r l -> 0 < MetricsCalculator.cr_tweet_count decimal r) ->
    NoDup (map (MetricsCalculator.cr_country decimal) l) ->
    exists rankings,
      MetricsCalculator.fill_rankings decimal round_float percentage acc
        (MetricsCalculator.enumerate start l) = Some rankings
      /\ (forall k, ~ In k (map (MetricsCalculator.cr_country decimal) l) ->
            Main.lookup rankings k = Main.lookup acc k)
      /\ forall i r,
           nth_error l i = Some r ->
           exists entry,
             Main.lookup rankings (MetricsCalculator.cr_country decimal r)
             = Some entry
             /\ MetricsCalculator.rank entry = start + i
             /\ MetricsCalculator.tweet_count entry
                = MetricsCalculator.cr_tweet_count decimal r.
Proof.
  induction l as [| r0 rest IH]; intros start acc Hpos Hnd; simpl.
  - exists acc. split; [reflexivity | split; [auto |]].
    intros i r H. destruct i; discriminate.
  - unfold MetricsCalculator.ranking_of.
    pose proof (Hpos r0 (or_introl eq_refl)) as Hr0.
    destruct (MetricsCalculator.cr_tweet_count decimal r0 =? 0) eqn:Hz;
      [apply Nat.eqb_eq in Hz; lia |].
    inversion Hnd as [| ? ? Hnotin Hnd']; subst.
    match goal with
    | |- context [Dict.set acc ?k ?e] =>
        destruct (IH (S start) (Dict.set acc k e)
                    (fun r H => Hpos r (or_intror H)) Hnd')
          as [rankings [Hfill [Hother Hentries]]];
        set (entry0 := e) in *
    end.
    exists rankings. split; [exact Hfill | split].
    + intros k Hk. rewrite Hother by (intros H; apply Hk; now right).
      rewrite lookup_set.
      destruct (String.eqb_spec (MetricsCalculator.cr_country decimal r0) k)
        as [Heq | Hne]; [exfalso; apply Hk; now left | reflexivity].
    + intros [| i] r Hi; simpl in Hi.
      * injection Hi as <-. exists entry0.
        rewrite (Hother _ Hnotin), lookup_set, String.eqb_refl.
        split; [reflexivity | split; [simpl; lia | reflexivity]].
      * destruct (Hentries i r Hi) as [entry [Hl [Hrank Hcount]]].
        exists entry. split; [exact Hl | split; [lia | exact Hcount]].
Qed.

(** X28. When the rows of the comparison are about different countries and
    every row counts at least one tweet, [get_country_rankings] gives every
    country an entry with its tweet count and a rank between 1 and the number
    of countries; a country with more tweets has a smaller rank, no two
    countries share a rank, and the country of rank 1, the volume champion of
    the report, has the largest tweet count. *)
Theorem rankings_follow_tweet_volume :
  forall (decimal : Type) (round_float : decimal -> nat -> spec_float)
         (percentage : nat -> nat -> spec_float)
         (rows : list (MetricsCalculator.country_row decimal)),
    (forall r, In r rows -> 0 < MetricsCalculator.cr_tweet_count decimal r) ->
    NoDup (map (MetricsCalculator.cr_country decimal) rows) ->
    exists rankings,
      MetricsCalculator.get_country_rankings decimal round_float percentage
        rows = Some rankings
      /\ forall r, In r rows ->
           exists entry,
             Main.lookup rankings (MetricsCalculator.cr_country decimal r)
             = Some entry
             /\ MetricsCalculator.tweet_count entry
                = MetricsCalculator.cr_tweet_count decimal r
             /\ 1 <= MetricsCalculator.rank entry <= List.length rows
             /\ forall r', In r' rows ->
                  exists entry',
                    Main.lookup rankings
                      (MetricsCalculator.cr_country decimal r') = Some entry'
                    /\ (MetricsCalculator.cr_tweet_count decimal r'
                        < MetricsCalculator.cr_tweet_count decimal r ->
                        MetricsCalculator.rank entry
                        < MetricsCalculator.rank entry')
                    /\ (MetricsCalculator.rank entry
                        = MetricsCalculator.rank entry' -> r = r')
                    /\ (MetricsCalculator.rank entry = 1 ->
                        MetricsCalculator.cr_tweet_count decimal r'
                        <= MetricsCalculator.cr_tweet_count decimal r).
Proof.
  intros decimal round_float percentage rows Hpos Hnd.
  set (ranked := MetricsCalculator.sorted_desc
                   (MetricsCalculator.cr_tweet_count decimal) rows).
  pose proof (sorted_desc_perm (MetricsCalculator.cr_tweet_count decimal) rows)
    as Hperm. fold ranked in Hperm.
  pose proof (sorted_desc_sorted (MetricsCalculator.cr_tweet_count decimal)
                rows) as Hsorted. fold ranked in Hsorted.
  assert (Hpos' : forall r, In r ranked ->
                    0 < MetricsCalculator.cr_tweet_count decimal r)
    by (intros r Hr; apply Hpos, (Permutation_in _ Hperm), Hr).
  assert (Hnd' : NoDup (map (MetricsCalculator.cr_country decimal) ranked)).
  { apply (Permutation_NoDup
             (l := map (MetricsCalculator.cr_country decimal) rows));
      [| exact Hnd].
    apply Permutation_map, Permutation_sym, Hperm. }
  destruct (fill_rankings_entries decimal round_float percentage ranked 1
              Dict.empty Hpos' Hnd') as [rankings [Hfill [_ Hentries]]].
  exists rankings. split.
  { unfold MetricsCalculator.get_country_rankings.
    destruct rows as [| r0 rows']; [| exact Hfill].
    simpl in Hfill. exact Hfill. }
  assert (Hat : forall r, In r rows ->
            exists i entry,
              nth_error ranked i = Some r
              /\ Main.lookup rankings (MetricsCalculator.cr_country decimal r)
                 = Some entry
              /\ MetricsCalculator.rank entry = 1 + i
              /\ MetricsCalculator.tweet_count entry
                 = MetricsCalculator.cr_tweet_count decimal r).
  { intros r Hr. apply (Permutation_in _ (Permutation_sym Hperm)) in Hr.
    destruct (In_nth_error _ _ Hr) as [i Hi].
    destruct (Hentries i r Hi) as [entry [Hl [Hrank Hcount]]].
    now exists i, entry. }
  intros r Hr. destruct (Hat r Hr) as [i [entry [Hi [Hl [Hrank Hcount]]]]].
  exists entry. split; [exact Hl | split; [exact Hcount | split]].
  { assert (i < List.length ranked) by (apply nth_error_Some; congruence).
    rewrite (Permutation_length Hperm) in H. lia. }
  intros r' Hr'.
  destruct (Hat r' Hr') as [j [entry' [Hj [Hl' [Hrank' Hcount']]]]].
  exists entry'. split; [exact Hl' | split; [| split]].
  - intros Hless. rewrite Hrank, Hrank'.
    destruct (Nat.lt_trichotomy i j) as [Hlt | [Heq | Hgt]]; [lia | |].
    + subst j. rewrite Hi in Hj. injection Hj as <-. lia.
    + pose proof (sorted_nth _ _ Hsorted j i r' r Hj Hi Hgt) as Hle.
      simpl in Hle. lia.
  - intros Heq. rewrite Hrank, Hrank' in Heq.
    assert (i = j) as -> by lia. rewrite Hi in Hj. now injection Hj.
  - intros Hone. rewrite Hrank in Hone. assert (i = 0) as -> by lia.
    destruct j as [| j]; [rewrite Hi in Hj; injection Hj as <-; lia |].
    exact (sorted_nth _ _ Hsorted 0 (S j) r r' Hi Hj (Nat.lt_0_succ j)).
Qed.

Lemma rankings_follow_tweet_volume_witness :
  exists rankings,
    MetricsCalculator.get_country_rankings unit
      (fun _ _ => S754_zero false) (fun _ _ => S754_zero false) sample_rows
    = Some rankings.
Proof.
  destruct (rankings_follow_tweet_volume unit (fun _ _ => S754_zero false)
              (fun _ _ => S754_zero false) sample_rows)
    as [rankings [H _]].
  - simpl. intros r [<- | [<- | []]]; simpl; lia.
  - simpl. repeat constructor; simpl; intros H;
      repeat (destruct H as [H | H]; try discriminate H); exact H.
  - exists rankings. exact H.
Defined.

(** ** The hashtag winners *)

Lemma get_lookup {V : Type} (d : Dict.t V) (k : string) (default : V) :
  Dict.get d k default
  = match Main.lookup d k with Some v => v | None => default end.
Proof.
  induction d as [| [k0 v0] d IH]; simpl; [reflexivity |].
  destruct (String.eqb k0 k); [reflexivity | exact IH].
Qed.

Lemma dict_mem_lookup {V : Type} (d : Dict.t V) (k : string) :
  MetricsCalculator.dict_mem d k = false -> Main.lookup d k = None.
Proof.
  unfold MetricsCalculator.dict_mem.
  induction d as [| [k0 v0] d IH]; simpl; [reflexivity |].
  rewrite String.eqb_sym. destruct (String.eqb k0 k); [discriminate |].
  exact IH.
Qed.

Lemma keys_set_string {V : Type} (d : Dict.t V) (k : string) (v : V) :
  NoDup (Dict.keys d) -> NoDup (Dict.keys (Dict.set d k v)).
Proof.
  induction d as [| [k0 v0] d IH]; simpl; intros Hnd.
  - repeat constructor. intros [].
  - inversion Hnd as [| ? ? Hnotin Hnd']; subst.
    destruct (String.eqb_spec k0 k) as [-> | Hne]; simpl.
    + constructor; assumption.
    + constructor; [| now apply IH].
      intros Hin. apply keys_set_incl in Hin. apply in_app_or in Hin.
      destruct Hin as [Hin | [Hin | []]]; [contradiction | congruence].
Qed.

(** The grouping: under each hashtag, its rows in the order of the data. *)
Lemma hashtag_groups_lookup (decimal : Type)
    (rows : list (MetricsCalculator.hashtag_row decimal)) :
  forall acc,
    let groups :=
      fold_left
        (fun hashtag_groups row =>
           let hashtag := MetricsCalculator.hr_hashtag decimal row in
           let hashtag_groups :=
             if negb (MetricsCalculator.dict_mem hashtag_groups hashtag)
             then Dict.set hashtag_groups hashtag []
             else hashtag_groups in
           Dict.set hashtag_groups hashtag
             (Dict.get hashtag_groups hashtag [] ++ [row]))
        rows acc in
    (NoDup (Dict.keys acc) -> NoDup (Dict.keys groups))
    /\ forall h,
         Main.lookup groups h
         = match rows_of_hashtag h rows with
           | [] => Main.lookup acc h
           | group => Some (Dict.get acc h [] ++ group)
           end.
Proof.
  induction rows as [| row rows IH]; intros acc; simpl.
  - split; auto.
  - set (hashtag := MetricsCalculator.hr_hashtag decimal row).
    set (acc1 := if negb (MetricsCalculator.dict_mem acc hashtag)
                 then Dict.set acc hashtag [] else acc).
    assert (Hget1 : Dict.get acc1 hashtag [] = Dict.get acc hashtag []).
    { unfold acc1.
      destruct (MetricsCalculator.dict_mem acc hashtag) eqn:Hmem; simpl;
        [reflexivity |].
      rewrite !get_lookup, lookup_set, String.eqb_refl.
      now rewrite (dict_mem_lookup _ _ Hmem). }
    assert (Hlook1 : forall h, hashtag <> h ->
              Main.lookup acc1 h = Main.lookup acc h).
    { intros h Hne. unfold acc1.
      destruct (MetricsCalculator.dict_mem acc hashtag); simpl;
        [reflexivity |].
      rewrite lookup_set. apply String.eqb_neq in Hne. now rewrite Hne. }
    destruct (IH (Dict.set acc1 hashtag (Dict.get acc1 hashtag [] ++ [row])))
      as [Hnd Hlook].
    split.
    + intros Hacc. apply Hnd, keys_set_string. unfold acc1.
      destruct (negb _); [now apply keys_set_string | exact Hacc].
    + intros h. rewrite Hlook. unfold rows_of_hashtag. simpl. fold hashtag.
      rewrite !get_lookup, lookup_set.
      destruct (String.eqb_spec hashtag h) as [Heq | Hne].
      * rewrite <- get_lookup, Hget1, <- Heq, <- get_lookup.
        destruct (filter _ rows); [reflexivity |].
        now rewrite <- app_assoc.
      * rewrite (Hlook1 h Hne). reflexivity.
Qed.

(** The loop over the groups: an entry for each group of two or more rows. *)
Lemma winners_lookup (decimal : Type)
    (round_float : decimal -> nat -> spec_float)
    (groups : Dict.t (list (MetricsCalculator.hashtag_row decimal))) :
  forall acc h,
    NoDup (Dict.keys groups) ->
    let winners :=
      fold_left
        (fun hashtag_winners '(hashtag, countries) =>
           if 1 <? List.length countries then
             match Py.max_key (MetricsCalculator.hr_usage_count decimal)
                     countries with
             | Some winner_row =>
                 Dict.set hashtag_winners hashtag
                   {| MetricsCalculator.winner :=
                        MetricsCalculator.hr_country decimal winner_row;
                      MetricsCalculator.usage_count :=
                        MetricsCalculator.hr_usage_count decimal winner_row;
                      MetricsCalculator.winner_avg_sentiment :=
                        round_float
                          (MetricsCalculator.hr_avg_sentiment decimal
                             winner_row) 3;
                      MetricsCalculator.winner_avg_engagement :=
                        round_float
                          (MetricsCalculator.hr_avg_engagement decimal
                             winner_row) 2;
                      MetricsCalculator.competition :=
                        map (fun c =>
                               (MetricsCalculator.hr_country decimal c,
                                MetricsCalculator.hr_usage_count decimal c))
                          countries |}
             | None => hashtag_winners
             end
           else hashtag_winners)
        groups acc in
    match Main.lookup groups h with
    | Some countries =>
        if 1 <? List.length countries then
          exists winner_row entry,
            Main.lookup winners h = Some entry
            /\ In winner_row countries
            /\ (forall c, In c countries ->
                  MetricsCalculator.hr_usage_count decimal c
                  <= MetricsCalculator.hr_usage_count decimal winner_row)
            /\ MetricsCalculator.winner entry
               = MetricsCalculator.hr_country decimal winner_row
            /\ MetricsCalculator.usage_count entry
               = MetricsCalculator.hr_usage_count decimal winner_row
            /\ MetricsCalculator.competition entry
               = map (fun c =>
                        (MetricsCalculator.hr_country decimal c,
                         MetricsCalculator.hr_usage_count decimal c))
                   countries
        else Main.lookup winners h = Main.lookup acc h
    | None => Main.lookup winners h = Main.lookup acc h
    end.
Proof.
  induction groups as [| [k countries] groups IH]; intros acc h Hnd; simpl.
  - reflexivity.
  - inversion Hnd as [| ? ? Hnotin Hnd']; subst.
    assert (Hkeep : forall acc',
              Main.lookup groups h = None ->
              Main.lookup
                (fold_left
                   (fun hashtag_winners '(hashtag, countries) =>
                      if 1 <? List.length countries then
                        match Py.max_key
                                (MetricsCalculator.hr_usage_count decimal)
                                countries with
                        | Some winner_row =>
                            Dict.set hashtag_winners hashtag
                              {| MetricsCalculator.winner :=
                                   MetricsCalculator.hr_country decimal
                                     winner_row;
                                 MetricsCalculator.usage_count :=
                                   MetricsCalculator.hr_usage_count decimal
                                     winner_row;
                                 MetricsCalculator.winner_avg_sentiment :=
                                   round_float
                                     (MetricsCalculator.hr_avg_sentiment
                                        decimal winner_row) 3;
                                 MetricsCalculator.winner_avg_engagement :=
                                   round_float
                                     (MetricsCalculator.hr_avg_engagement
                                        decimal winner_row) 2;
                                 MetricsCalculator.competition :=
                                   map (fun c =>
                                          (MetricsCalculator.hr_country decimal
                                             c,
                                           MetricsCalculator.hr_usage_count
                                             decimal c))
                                     countries |}
                        | None => hashtag_winners
                        end
                      else hashtag_winners)
                   groups acc') h
              = Main.lookup acc' h).
    { intros acc' Hnone. specialize (IH acc' h Hnd'). simpl in IH.
      now rewrite Hnone in IH. }
    destruct (String.eqb_spec k h) as [-> | Hne].
    + assert (Hnone : Main.lookup groups h = None).
      { clear -Hnotin. induction groups as [| [k0 v0] groups IHg];
          [reflexivity |]. simpl in *.
        destruct (String.eqb_spec k0 h) as [-> | _];
          [exfalso; apply Hnotin; now left |].
        apply IHg. intros H. apply Hnotin. now right. }
      destruct (1 <? List.length countries) eqn:Hlen;
        [| now apply Hkeep].
      destruct countries as [| c0 cs]; [discriminate |].
      simpl Py.max_key. cbv iota.
      set (winner_row := Py.max_from _ c0 cs).
      exists winner_row. eexists. split; [| split; [| split]].
      * rewrite (Hkeep _ Hnone), lookup_set, String.eqb_refl. reflexivity.
      * apply max_from_In.
      * intros c Hc.
        destruct (max_from_split (MetricsCalculator.hr_usage_count decimal)
                    cs c0) as [before [after [Hsplit [Hb Ha]]]].
        fold winner_row in Hsplit, Hb, Ha. rewrite Hsplit in Hc.
        apply in_app_or in Hc. destruct Hc as [Hc | [<- | Hc]].
        -- specialize (Hb c Hc). lia.
        -- lia.
        -- exact (Ha c Hc).
      * repeat split.
    + specialize (IH
        (if 1 <? List.length countries then
           match Py.max_key (MetricsCalculator.hr_usage_count decimal)
                   countries with
           | Some winner_row =>
               Dict.set acc k
                 {| MetricsCalculator.winner :=
                      MetricsCalculator.hr_country decimal winner_row;
                    MetricsCalculator.usage_count :=
                      MetricsCalculator.hr_usage_count decimal winner_row;
                    MetricsCalculator.winner_avg_sentiment :=
                      round_float
                        (MetricsCalculator.hr_avg_sentiment decimal
                           winner_row) 3;
                    MetricsCalculator.winner_avg_engagement :=
                      round_float
                        (MetricsCalculator.hr_avg_engagement decimal
                           winner_row) 2;
                    MetricsCalculator.competition :=
                      map (fun c =>
                             (MetricsCalculator.hr_country decimal c,
                              MetricsCalculator.hr_usage_count decimal c))
                        countries |}
           | None => acc
           end
         else acc) h Hnd').
      simpl in IH.
      assert (Hacc : forall (e : MetricsCalculator.hashtag_winner),
                Main.lookup (Dict.set acc k e) h = Main.lookup acc h).
      { intros e. rewrite lookup_set. apply String.eqb_neq in Hne.
        now rewrite Hne. }
      destruct (Main.lookup groups h) as [cs |];
        [destruct (1 <? List.length cs); [exact IH |] |];
        rewrite IH;
        destruct (1 <? List.length countries); try reflexivity;
        destruct (Py.max_key _ countries); try reflexivity; apply Hacc.
Qed.

(** X29. [get_hashtag_winners] (metrics.py, lines 76-105) has an entry for a
    hashtag exactly when at least two rows of the hashtag performance carry
    that hashtag.  The entry's competition lists the country and the usage
    count of each of these rows, in the order of the data, and its winner and
    usage count are those of one of these rows, whose usage count no other
    row of the hashtag exceeds. *)
Theorem hashtag_winner_has_most_uses :
  forall (decimal : Type) (round_float : decimal -> nat -> spec_float)
         (hashtag_data : list (MetricsCalculator.hashtag_row decimal))
         (hashtag : string),
    let group := rows_of_hashtag hashtag hashtag_data in
    match
      Main.lookup
        (MetricsCalculator.get_hashtag_winners decimal round_float hashtag_data)
        hashtag
    with
    | None => List.length group <= 1
    | Some entry =>
        1 < List.length group
        /\ MetricsCalculator.competition entry
           = map (fun c =>
                    (MetricsCalculator.hr_country decimal c,
                     MetricsCalculator.hr_usage_count decimal c))
               group
        /\ exists winner_row,
             In winner_row group
             /\ MetricsCalculator.winner entry
                = MetricsCalculator.hr_country decimal winner_row
             /\ MetricsCalculator.usage_count entry
                = MetricsCalculator.hr_usage_count decimal winner_row
             /\ forall c, In c group ->
                  MetricsCalculator.hr_usage_count decimal c
                  <= MetricsCalculator.usage_count entry
    end.
Proof.
  intros decimal round_float hashtag_data hashtag group.
  assert (Hnd : NoDup (Dict.keys
              (MetricsCalculator.hashtag_groups_of decimal hashtag_data))).
  { apply (hashtag_groups_lookup decimal hashtag_data Dict.empty).
    constructor. }
  assert (Hlook :
    Main.lookup (MetricsCalculator.hashtag_groups_of decimal hashtag_data)
      hashtag
    = match group with [] => None | _ :: _ => Some group end).
  { unfold group.
    rewrite (proj2 (hashtag_groups_lookup decimal hashtag_data Dict.empty)).
    now destruct (rows_of_hashtag hashtag hashtag_data). }
  pose proof (winners_lookup decimal round_float
                (MetricsCalculator.hashtag_groups_of decimal hashtag_data)
                Dict.empty hashtag Hnd) as Hw.
  cbv zeta in Hw. rewrite Hlook in Hw.
  assert (Hunfold :
    hashtag_data <> [] ->
    MetricsCalculator.get_hashtag_winners decimal round_float hashtag_data
    = fold_left
        (fun hashtag_winners '(hashtag, countries) =>
           if 1 <? List.length countries then
             match Py.max_key (MetricsCalculator.hr_usage_count decimal)
                     countries with
             | Some winner_row =>
                 Dict.set hashtag_winners hashtag
                   {| MetricsCalculator.winner :=
                        MetricsCalculator.hr_country decimal winner_row;
                      MetricsCalculator.usage_count :=
                        MetricsCalculator.hr_usage_count decimal winner_row;
                      MetricsCalculator.winner_avg_sentiment :=
                        round_float
                          (MetricsCalculator.hr_avg_sentiment decimal
                             winner_row) 3;
                      MetricsCalculator.winner_avg_engagement :=
                        round_float
                          (MetricsCalculator.hr_avg_engagement decimal
                             winner_row) 2;
                      MetricsCalculator.competition :=
                        map (fun c =>
                               (MetricsCalculator.hr_country decimal c,
                                MetricsCalculator.hr_usage_count decimal c))
                          countries |}
             | None => hashtag_winners
             end
           else hashtag_winners)
        (MetricsCalculator.hashtag_groups_of decimal hashtag_data)
        Dict.empty)
    by (destruct hashtag_data; [congruence | reflexivity]).
  destruct hashtag_data as [| r rs] eqn:Hdata'.
  + subst group. simpl. lia.
  + rewrite <- Hdata' in *.
    rewrite Hunfold by (rewrite Hdata'; discriminate).
    clear Hunfold.
    destruct group as [| g0 gs] eqn:Hgroup.
    * simpl in Hw. rewrite Hw. simpl. lia.
    * destruct (1 <? List.length (g0 :: gs)) eqn:Hlen.
      -- destruct Hw as [winner_row [entry [He [Hin [Hmax [Hwin [Hcnt Hcomp]]]]]]].
         rewrite He. apply Nat.ltb_lt in Hlen.
         split; [exact Hlen |]. split; [exact Hcomp |].
         exists winner_row. repeat split; try assumption.
         intros c Hc. rewrite Hcnt. now apply Hmax.
      -- rewrite Hw. apply Nat.ltb_ge in Hlen. simpl in *. lia.
Qed.
